(** * The talking-avatar web sample (samples/python/web/avatar/app.py)

    A shallow embedding of the Flask application's process-wide state and of
    the functions that act on it: the token refresh loop, the chat context
    initialisation, the streaming chat handler [handleUserQuery], the
    queued speech output ([speakWithQueue], the [speakThread] worker and
    [speakText]) and the configuration overrides of [connectAvatar].

    Conventions.
    - A Python [str] is a list of Unicode code points ([list N]), so that
      [len] counts characters as Python does (the sentence punctuation list
      holds CJK marks).  [str "..."] embeds an ASCII literal.  A Python
      [bytes] is a list of bytes.
    - A value that may be [None] is an [option]; values returned by
      [json.loads] live in [json].
    - A raised Python exception is [None] in the [option] monad inside a
      [try] block, and an explicit outcome at the level of a whole call.
    - Calls into the network or the Speech SDK take their result as an
      argument (the environment's answer). *)

From Stdlib Require Import ZArith NArith Lia String Ascii List DecimalString.
From Stdlib Require Import Strings.Byte.
From stdpp Require Import base option list strings gmap.

Local Open Scope N_scope.

(** Sequencing of steps that may raise: the first exception ends the
    computation. *)
Notation "x <- e ;; k" :=
  (match e with Some x => k | None => None end)
  (at level 100, e at next level, k at level 200, right associativity,
   only parsing).

(** ** Python strings *)

Abbreviation pystr := (list N).

Abbreviation bytes := (list byte).

Definition str (s : string) : pystr :=
  List.map N_of_ascii (list_ascii_of_string s).

Module Py.

(** [s.startswith(p)] *)
Fixpoint startswith (p s : pystr) : bool :=
  match p, s with
  | [], _ => true
  | _ :: _, [] => false
  | a :: p', b :: s' => if N.eqb a b then startswith p' s' else false
  end.

(** [s.endswith(p)] *)
Definition endswith (p s : pystr) : bool :=
  startswith (rev p) (rev s).

(** [p in s] for two strings: [p] occurs as a contiguous slice of [s]. *)
Fixpoint contains (p s : pystr) : bool :=
  startswith p s ||
  match s with
  | [] => false
  | _ :: s' => contains p s'
  end.

(** [a == b] on strings. *)
Fixpoint eqb (a b : pystr) : bool :=
  match a, b with
  | [], [] => true
  | x :: a', y :: b' => N.eqb x y && eqb a' b'
  | _, _ => false
  end.

(** The characters [str.strip()] removes: those for which
    [str.isspace()] holds. *)
Definition isspace (c : N) : bool :=
  ((9 <=? c) && (c <=? 13)) || ((28 <=? c) && (c <=? 32))
  || (c =? 133) || (c =? 160) || (c =? 5760)
  || ((8192 <=? c) && (c <=? 8202))
  || (c =? 8232) || (c =? 8233) || (c =? 8239) || (c =? 8287)
  || (c =? 12288).

Fixpoint lstrip (s : pystr) : pystr :=
  match s with
  | [] => []
  | c :: s' => if isspace c then lstrip s' else s
  end.

Definition rstrip (s : pystr) : pystr := rev (lstrip (rev s)).

(** [s.strip()] *)
Definition strip (s : pystr) : pystr := rstrip (lstrip s).

(** [s.replace('\n', '')] *)
Definition remove_newlines (s : pystr) : pystr :=
  List.filter (fun c => negb (c =? 10)) s.

(** [s.split('\n\n')]: [cur] holds, reversed, the piece being read. *)
Fixpoint split_blank_aux (cur s : pystr) : list pystr :=
  match s with
  | [] => [rev cur]
  | 10 :: s1 =>
      match s1 with
      | 10 :: s2 => rev cur :: split_blank_aux [] s2
      | _ => split_blank_aux (10 :: cur) s1
      end
  | c :: s1 => split_blank_aux (c :: cur) s1
  end.

Definition split_blank (s : pystr) : list pystr := split_blank_aux [] s.

(** [str(n)] for an [int]. *)
Definition of_int (n : Z) : pystr :=
  str (NilZero.string_of_int (Z.to_int n)).

(** How an f-string renders a value that may be [None]. *)
Definition fmt (o : option pystr) : pystr :=
  match o with
  | Some s => s
  | None => str "None"
  end.

(** Truthiness of a value that may be [None]: a string is true when it
    is not empty. *)
Definition truthy (o : option pystr) : bool :=
  match o with
  | Some (_ :: _) => true
  | _ => false
  end.

(** [html.escape(s)] with its default [quote=True]. *)
Definition escape_char (c : N) : pystr :=
  if c =? 38 then str "&amp;"
  else if c =? 60 then str "&lt;"
  else if c =? 62 then str "&gt;"
  else if c =? 34 then str "&quot;"
  else if c =? 39 then str "&#x27;"
  else [c].

Definition escape (s : pystr) : pystr := List.flat_map escape_char s.

(** The payload of a continuation byte [10xxxxxx]. *)
Definition continuation (b : byte) : option N :=
  let n := Byte.to_N b in
  if (128 <=? n) && (n <? 192) then Some (n - 128) else None.

(** [b.decode()]: UTF-8, strict.  [None] is [UnicodeDecodeError]: a
    stray or missing continuation byte, an overlong form, a surrogate, a
    code point above U+10FFFF, or a sequence cut short by the end. *)
Fixpoint decode (b : bytes) : option pystr :=
  match b with
  | [] => Some []
  | b0 :: r0 =>
      let n0 := Byte.to_N b0 in
      if n0 <? 128 then s <- decode r0 ;; Some (n0 :: s)
      else if n0 <? 194 then None
      else if n0 <? 224 then
        match r0 with
        | b1 :: r1 =>
            c1 <- continuation b1 ;;
            s <- decode r1 ;;
            Some (((n0 - 192) * 64 + c1) :: s)
        | _ => None
        end
      else if n0 <? 240 then
        match r0 with
        | b1 :: b2 :: r2 =>
            c1 <- continuation b1 ;;
            c2 <- continuation b2 ;;
            let c := (n0 - 224) * 4096 + c1 * 64 + c2 in
            if (c <? 2048) || ((55296 <=? c) && (c <? 57344)) then None
            else s <- decode r2 ;; Some (c :: s)
        | _ => None
        end
      else if n0 <? 245 then
        match r0 with
        | b1 :: b2 :: b3 :: r3 =>
            c1 <- continuation b1 ;;
            c2 <- continuation b2 ;;
            c3 <- continuation b3 ;;
            let c := (n0 - 240) * 262144 + c1 * 4096 + c2 * 64 + c3 in
            if (c <? 65536) || (1114111 <? c) then None
            else s <- decode r3 ;; Some (c :: s)
        | _ => None
        end
      else None
  end.

End Py.

(** ** Values returned by [json.loads] *)

#[local] Set Warnings "-register-all".

Inductive json : Type :=
| JNull
| JBool (b : bool)
| JInt (n : Z)
| JFloat (repr : pystr)
| JStr (s : pystr)
| JArr (items : list json)
| JObj (fields : list (pystr * json)).

Module PyJson.

(** Lookup of a key in a [dict]. *)
Fixpoint assoc (k : pystr) (kv : list (pystr * json)) : option json :=
  match kv with
  | [] => None
  | (k', v) :: kv' => if Py.eqb k k' then Some v else assoc k kv'
  end.

(** [v == s] for a string literal [s]. *)
Definition eq_str (v : json) (s : pystr) : bool :=
  match v with
  | JStr t => Py.eqb t s
  | _ => false
  end.

(** [v[k]] for a string key: [KeyError] on a dict without the key,
    [TypeError] on every other value. *)
Definition getitem (v : json) (k : pystr) : option json :=
  match v with
  | JObj kv => assoc k kv
  | _ => None
  end.

(** [v[0]]: the first element of a list, the first character of a
    string; [IndexError], [KeyError] (a parsed dict has string keys only)
    or [TypeError] otherwise. *)
Definition getitem0 (v : json) : option json :=
  match v with
  | JArr (x :: _) => Some x
  | JStr (c :: _) => Some (JStr [c])
  | _ => None
  end.

(** [len(v)]: [TypeError] on a value without a length. *)
Definition len (v : json) : option nat :=
  match v with
  | JStr s => Some (length s)
  | JArr l => Some (length l)
  | JObj kv => Some (length kv)
  | _ => None
  end.

(** [k in v] for a string literal [k]: key membership on a dict,
    element membership on a list, substring test on a string;
    [TypeError] otherwise. *)
Definition has (k : pystr) (v : json) : option bool :=
  match v with
  | JObj kv => Some (match assoc k kv with Some _ => true | None => false end)
  | JArr l => Some (existsb (fun x => eq_str x k) l)
  | JStr s => Some (Py.contains k s)
  | _ => None
  end.

End PyJson.

(** ** Conversation history and data sources *)

Inductive role : Type := RSystem | RUser | RAssistant | RTool.

Record message : Type := Message {
  msg_role : role;
  msg_content : json
}.

(** A value that may be [None], as stored in a message or sent to the
    completion API. *)
Definition of_opt (o : option pystr) : json :=
  match o with
  | Some s => JStr s
  | None => JNull
  end.

(** The fields mapping of a data source. *)
Record fields_mapping : Type := FieldsMapping {
  contentFieldsSeparator : pystr;
  contentFields : list pystr;
  filepathField : option pystr;
  titleField : option pystr;
  urlField : option pystr
}.

(** One entry of [data_sources]: [{'type': ..., 'parameters': {...}}]. *)
Record data_source : Type := DataSource {
  ds_type : pystr;
  ds_endpoint : option pystr;
  ds_key : option pystr;
  ds_indexName : option pystr;
  ds_semanticConfiguration : pystr;
  ds_queryType : pystr;
  ds_fieldsMapping : fields_mapping;
  ds_inScope : bool;
  ds_roleInformation : option pystr
}.

(** ** Process-wide state

    The module-level variables of app.py, grouped by what they hold.  The
    environment variables are read once at import; [connectAvatar]
    overwrites some of the settings. *)

Record config : Type := Config {
  speech_region : option pystr;
  speech_key : option pystr;
  speech_private_endpoint : option pystr;
  azure_openai_endpoint : option pystr;
  azure_openai_api_key : option pystr;
  azure_openai_deployment_name : option pystr;
  cognitive_search_endpoint : option pystr;
  cognitive_search_api_key : option pystr;
  cognitive_search_index_name : option pystr;
  tts_voice : pystr;
  custom_voice_endpoint_id : option pystr;
  personal_voice_speaker_profile_id : option pystr;
  enable_quick_reply : bool
}.

Record tokens : Type := Tokens {
  speech_token : option pystr;
  ice_token : option pystr
}.

Record chat : Type := Chat {
  chat_initiated : bool;
  messages : list message;
  data_sources : list data_source
}.

(** The synthesizer object, known by the configuration it was built from. *)
Record synthesizer : Type := Synthesizer {
  syn_endpoint : pystr;
  syn_endpoint_id : option pystr
}.

Abbreviation time := N.

Record speech : Type := Speech {
  speech_synthesizer : option synthesizer;
  is_speaking : bool;
  spoken_text_queue : list pystr;
  last_speak_time : option time
}.

(** Where a [speakThread] worker stands in its body. *)
Inductive pc : Type :=
| AtStart                      (* before [is_speaking = True] *)
| AtLoopTest                   (* before [len(spoken_text_queue) > 0] *)
| AtPop                        (* before [spoken_text_queue.pop(0)] *)
| AtSpeakText (text : pystr)   (* holding the popped text, before
                                  [speakText(text, ...)] *)
| InSpeakText (text : pystr)   (* inside the SDK call of [speakSsml] *)
| AtClear                      (* before [is_speaking = False] *)
| Finished
| Crashed.

(** A started worker: its position and the [ending_silence_ms] its closure
    captured from the [speakWithQueue] call that started it. *)
Record thread : Type := Thread {
  t_pc : pc;
  t_silence : Z
}.

(** What the synthesis engine sees. *)
Inductive event : Type :=
| SynthBegin (tid : nat) (ssml : pystr)
| SynthEnd (tid : nat).

Record state : Type := State {
  cfg : config;
  tok : tokens;
  cht : chat;
  spk : speech;
  threads : list thread;
  synth_log : list event
}.

Definition set_cfg (c : config) (w : state) : state :=
  State c (tok w) (cht w) (spk w) (threads w) (synth_log w).
Definition set_tok (t : tokens) (w : state) : state :=
  State (cfg w) t (cht w) (spk w) (threads w) (synth_log w).
Definition set_cht (c : chat) (w : state) : state :=
  State (cfg w) (tok w) c (spk w) (threads w) (synth_log w).
Definition set_spk (s : speech) (w : state) : state :=
  State (cfg w) (tok w) (cht w) s (threads w) (synth_log w).
Definition set_threads (t : list thread) (w : state) : state :=
  State (cfg w) (tok w) (cht w) (spk w) t (synth_log w).
Definition set_synth_log (l : list event) (w : state) : state :=
  State (cfg w) (tok w) (cht w) (spk w) (threads w) l.

Definition set_messages (m : list message) (c : chat) : chat :=
  Chat (chat_initiated c) m (data_sources c).
Definition set_chat_initiated (b : bool) (c : chat) : chat :=
  Chat b (messages c) (data_sources c).

Definition set_is_speaking (b : bool) (s : speech) : speech :=
  Speech (speech_synthesizer s) b (spoken_text_queue s) (last_speak_time s).
Definition set_queue (q : list pystr) (s : speech) : speech :=
  Speech (speech_synthesizer s) (is_speaking s) q (last_speak_time s).
Definition set_last_speak_time (t : option time) (s : speech) : speech :=
  Speech (speech_synthesizer s) (is_speaking s) (spoken_text_queue s) t.
Definition set_synthesizer (y : option synthesizer) (s : speech) : speech :=
  Speech y (is_speaking s) (spoken_text_queue s) (last_speak_time s).

(** The sentence-ending punctuation marks: [. ? ! : ;] and their
    full-width CJK forms. *)
Definition sentence_level_punctuations : list pystr :=
  [ str "."; str "?"; str "!"; str ":"; str ";";
    [12290]; [65311]; [65281]; [65306]; [65307] ].

Definition quick_replies : list pystr :=
  [ str "Let me take a look."; str "Let me check."; str "One moment, please." ].

(** ** Speech output: [speakText], [speakSsml], [speakWithQueue] *)

Definition nl : pystr := [10].
Definition sp (n : nat) : pystr := repeat 32 n.

Definition speak_open : pystr :=
  str "<speak version='1.0' xmlns='http://www.w3.org/2001/10/synthesis' xmlns:mstts='http://www.w3.org/2001/mstts' xml:lang='en-US'>".

(** The trailing pause element of the second template. *)
Definition break_directive (ending_silence_ms : Z) : pystr :=
  str "<break time='" ++ Py.of_int ending_silence_ms ++ str "ms' />".

(** The document [speakText] hands to [speakSsml]: the first f-string,
    replaced by the second one when [ending_silence_ms > 0]. *)
Definition speakText_ssml (text voice : pystr)
    (speaker_profile_id : option pystr) (ending_silence_ms : Z) : pystr :=
  if (0 <? ending_silence_ms)%Z then
    speak_open ++ nl
    ++ sp 21 ++ str "<voice name='" ++ voice ++ str "'>" ++ nl
    ++ sp 25 ++ str "<mstts:ttsembedding speakerProfileId='"
             ++ Py.fmt speaker_profile_id ++ str "'>" ++ nl
    ++ sp 29 ++ str "<mstts:leadingsilence-exact value='0'/>" ++ nl
    ++ sp 29 ++ Py.escape text ++ nl
    ++ sp 29 ++ break_directive ending_silence_ms ++ nl
    ++ sp 25 ++ str "</mstts:ttsembedding>" ++ nl
    ++ sp 21 ++ str "</voice>" ++ nl
    ++ sp 19 ++ str "</speak>"
  else
    speak_open ++ nl
    ++ sp 17 ++ str "<voice name='" ++ voice ++ str "'>" ++ nl
    ++ sp 21 ++ str "<mstts:ttsembedding speakerProfileId='"
             ++ Py.fmt speaker_profile_id ++ str "'>" ++ nl
    ++ sp 25 ++ str "<mstts:leadingsilence-exact value='0'/>" ++ nl
    ++ sp 25 ++ Py.escape text ++ nl
    ++ sp 21 ++ str "</mstts:ttsembedding>" ++ nl
    ++ sp 17 ++ str "</voice>" ++ nl
    ++ sp 15 ++ str "</speak>".

(** The outcome of one SDK synthesis call, as [speakSsml] inspects it. *)
Inductive cancellation_reason : Type := CancelError | CancelOther.

Inductive result_reason : Type :=
| NotCanceled
| Canceled (why : cancellation_reason) (error_details : pystr).

Record synthesis_result : Type := SynthesisResult {
  result_id : pystr;
  reason : result_reason
}.

(** [speakSsml], given the engine's answer: the result id, or the raised
    exception's message when the call was canceled with an error. *)
Definition speakSsml (res : synthesis_result) : pystr + pystr :=
  match reason res with
  | Canceled CancelError details => inr details
  | _ => inl (result_id res)
  end.

(** [stopSpeakingInternal()] *)
Definition stopSpeakingInternal (w : state) : state :=
  set_spk (set_queue [] (spk w)) w.

(** [speakWithQueue(text, ending_silence_ms)]: the text joins the queue;
    when [is_speaking] is false a new [speakThread] is started, which
    captures [ending_silence_ms] and has not yet run its first statement
    (the flag is set by the thread, not here).  The call is taken as one
    step of the calling thread; [threads] keeps every started worker, where
    the program keeps the last one in [speaking_thread]. *)
Definition speakWithQueue (text : pystr) (ending_silence_ms : Z)
    (w : state) : state :=
  let w1 := set_spk (set_queue (spoken_text_queue (spk w) ++ [text]) (spk w)) w in
  if is_speaking (spk w1) then w1
  else set_threads (threads w1 ++ [Thread AtStart ending_silence_ms]) w1.

Definition set_pc (tid : nat) (p : pc) (w : state) : state :=
  match threads w !! tid with
  | Some t => set_threads (<[tid := Thread p (t_silence t)]> (threads w)) w
  | None => w
  end.

(** One statement of the worker [tid] (the body of [speakThread]).  The
    pop (line 438) and the call of [speakText] (line 439, which reads the
    voice and the profile, and reaches the synthesizer at line 469) are
    two steps: other threads may run between them.  A worker inside the
    SDK call is blocked until the call returns. *)
Definition worker_step (tid : nat) (w : state) : option state :=
  t <- threads w !! tid ;;
  match t_pc t with
  | AtStart =>
      Some (set_pc tid AtLoopTest (set_spk (set_is_speaking true (spk w)) w))
  | AtLoopTest =>
      match spoken_text_queue (spk w) with
      | [] => Some (set_pc tid AtClear w)
      | _ :: _ => Some (set_pc tid AtPop w)
      end
  | AtPop =>
      match spoken_text_queue (spk w) with
      | [] => Some (set_pc tid Crashed w)            (* IndexError *)
      | text :: rest =>
          Some (set_pc tid (AtSpeakText text)
                  (set_spk (set_queue rest (spk w)) w))
      end
  | AtSpeakText text =>
      match speech_synthesizer (spk w) with
      | None => Some (set_pc tid Crashed w)          (* no synthesizer *)
      | Some _ =>
          let ssml :=
            speakText_ssml text (tts_voice (cfg w))
              (personal_voice_speaker_profile_id (cfg w)) (t_silence t) in
          Some (set_pc tid (InSpeakText text)
                  (set_synth_log (synth_log w ++ [SynthBegin tid ssml]) w))
      end
  | AtClear =>
      Some (set_pc tid Finished (set_spk (set_is_speaking false (spk w)) w))
  | InSpeakText _ | Finished | Crashed => None
  end.

(** The SDK call of worker [tid] returns [res] at time [now]: [speakSsml]
    raises or returns, and after a return [last_speak_time] is set. *)
Definition synth_done (tid : nat) (res : synthesis_result) (now : time)
    (w : state) : option state :=
  t <- threads w !! tid ;;
  match t_pc t with
  | InSpeakText _ =>
      let w1 := set_synth_log (synth_log w ++ [SynthEnd tid]) w in
      match speakSsml res with
      | inr _ => Some (set_pc tid Crashed w1)
      | inl _ =>
          Some (set_pc tid AtLoopTest
                  (set_spk (set_last_speak_time (Some now) (spk w1)) w1))
      end
  | _ => None
  end.

(** What can happen next in the process, as far as speech is concerned:
    a request thread calls [speakWithQueue] or [stopSpeakingInternal], a
    worker runs its next statement, or a worker's SDK call returns.  The
    interpreter may switch threads between any two of these, so every
    schedule that [run] accepts is an execution of the program. *)
Inductive action : Type :=
| Enqueue (text : pystr) (ending_silence_ms : Z)
| Stop
| Run (tid : nat)
| SynthDone (tid : nat) (res : synthesis_result) (now : time).

Definition step (a : action) (w : state) : option state :=
  match a with
  | Enqueue text ms => Some (speakWithQueue text ms w)
  | Stop => Some (stopSpeakingInternal w)
  | Run tid => worker_step tid w
  | SynthDone tid res now => synth_done tid res now w
  end.

(** A schedule: the actions in the order the interpreter interleaves them. *)
Fixpoint run (sched : list action) (w : state) : option state :=
  match sched with
  | [] => Some w
  | a :: sched' => w' <- step a w ;; run sched' w'
  end.

(** Workers that have started and not ended. *)
Definition is_active (t : thread) : bool :=
  match t_pc t with
  | Finished | Crashed => false
  | _ => true
  end.

Definition active_workers (w : state) : nat :=
  length (List.filter is_active (threads w)).

(** Workers inside a synthesis call. *)
Definition is_in_flight (t : thread) : bool :=
  match t_pc t with
  | InSpeakText _ => true
  | _ => false
  end.

Definition in_flight (w : state) : nat :=
  length (List.filter is_in_flight (threads w)).

(** ** Chat context: [initializeChatContext] and the routes around it *)

(** The request headers a route reads with [request.headers.get], keyed by
    the names the code looks up. *)
Abbreviation headers := (gmap string pystr).

(** The test [cognitive_search_endpoint and cognitive_search_api_key and
    cognitive_search_index_name]. *)
Definition search_configured (c : config) : bool :=
  Py.truthy (cognitive_search_endpoint c)
  && Py.truthy (cognitive_search_api_key c)
  && Py.truthy (cognitive_search_index_name c).

Definition initializeChatContext (system_prompt : option pystr)
    (w : state) : state :=
  let c := cfg w in
  let sources :=
    if search_configured c
    then
      [ DataSource (str "AzureCognitiveSearch")
          (cognitive_search_endpoint c)
          (cognitive_search_api_key c)
          (cognitive_search_index_name c)
          (str "")
          (str "simple")
          (FieldsMapping nl [str "content"] None (Some (str "title")) None)
          true
          system_prompt ]
    else [] in
  let history :=
    match sources with
    | [] => [Message RSystem (of_opt system_prompt)]
    | _ :: _ => []
    end in
  set_cht (Chat (chat_initiated (cht w)) history sources) w.

(** The route [/api/chat/clearHistory]: its effect on the state (the
    response is the fixed text 'Chat history cleared.'). *)
Definition clearChatHistory (h : headers) (w : state) : state :=
  let w1 := initializeChatContext (h !! "SystemPrompt"%string) w in
  set_cht (set_chat_initiated true (cht w1)) w1.

(** ** Token refresh *)

(** What [requests.post] or [requests.get] gives back: an exception, or a
    response object with the attributes the code reads.  The body of a
    streamed response is what [iter_content(chunk_size=None)] delivers:
    the chunks of bytes in order, and then either the end of the stream
    ([resp_raises = None]) or an exception raised by the iterator. *)
Record response : Type := Response {
  resp_ok : bool;
  resp_status_code : Z;
  resp_reason : pystr;
  resp_text : pystr;
  resp_chunks : list bytes;
  resp_raises : option pystr
}.

Inductive http_result : Type :=
| HttpRaised (e : pystr)
| HttpResponse (r : response).

(** [Response.ok] as the requests library computes it from the status
    code ([raise_for_status] raises for the client errors 400-499 and the
    server errors 500-599, and for nothing else). *)
Definition requests_ok (status_code : Z) : bool :=
  negb ((400 <=? status_code)%Z && (status_code <? 600)%Z).

(** How a thread running a loop stands after the calls it was given. *)
Inductive loop_status : Type :=
| Sleeping              (* alive, inside [time.sleep] *)
| Died (e : pystr).     (* ended by an uncaught exception *)

(** [refreshSpeechToken()]: the body of the [while True] loop once per
    element of [posts], the outcomes of the successive token requests. *)
Fixpoint refreshSpeechToken (posts : list http_result) (w : state)
    : state * loop_status :=
  match posts with
  | [] => (w, Sleeping)
  | HttpRaised e :: _ => (w, Died e)
  | HttpResponse r :: posts' =>
      refreshSpeechToken posts'
        (set_tok (Tokens (Some (resp_text r)) (ice_token (tok w))) w)
  end.

(** [refreshIceToken()], given the outcome of its request. *)
Definition refreshIceToken (get : http_result) (w : state) : state + pystr :=
  match get with
  | HttpRaised e => inr e
  | HttpResponse r =>
      inl (set_tok (Tokens (speech_token (tok w)) (Some (resp_text r))) w)
  end.

(** ** [connectAvatar]: the overrides and the synthesizer *)

Definition header_or (h : headers) (name : string) (old : option pystr)
    : option pystr :=
  if Py.truthy (h !! name) then h !! name else old.

Definition override_config (h : headers) (c : config) : config :=
  Config (speech_region c) (speech_key c) (speech_private_endpoint c)
    (azure_openai_endpoint c) (azure_openai_api_key c)
    (header_or h "AoaiDeploymentName" (azure_openai_deployment_name c))
    (cognitive_search_endpoint c) (cognitive_search_api_key c)
    (header_or h "CognitiveSearchIndexName" (cognitive_search_index_name c))
    (match h !! "TtsVoice"%string with
     | Some (x :: v) => x :: v
     | _ => tts_voice c
     end)
    (h !! "CustomVoiceEndpointId"%string)
    (h !! "PersonalVoiceSpeakerProfileId"%string)
    (enable_quick_reply c).

(** [s.replace(old, new)] for a non-empty [old]. *)
Fixpoint replace_aux (fuel : nat) (old new s : pystr) : pystr :=
  match fuel with
  | O => s
  | S fuel' =>
      if Py.startswith old s
      then new ++ replace_aux fuel' old new (drop (length old) s)
      else match s with
           | [] => []
           | c :: s' => c :: replace_aux fuel' old new s'
           end
  end.

Definition replace (old new s : pystr) : pystr :=
  replace_aux (S (length s)) old new s.

(** The endpoint the synthesizer is built for. *)
Definition synthesis_endpoint (c : config) : pystr :=
  if Py.truthy (speech_private_endpoint c) then
    replace (str "https://") (str "wss://") (Py.fmt (speech_private_endpoint c))
    ++ str "/tts/cognitiveservices/websocket/v1?enableTalkingAvatar=true"
  else
    str "wss://" ++ Py.fmt (speech_region c)
    ++ str ".tts.speech.microsoft.com/cognitiveservices/websocket/v1?enableTalkingAvatar=true".

(** The effect of [connectAvatar] on the state.  The overrides come first,
    outside the [try]; [built] tells whether the SDK constructors returned
    (then [speech_synthesizer] is the new object) or raised.  The session
    negotiation that follows only shapes the HTTP response. *)
Definition connectAvatar (h : headers) (built : bool) (w : state) : state :=
  let c := override_config h (cfg w) in
  let w1 := set_cfg c w in
  if built then
    let endpoint_id :=
      if Py.truthy (custom_voice_endpoint_id c)
      then custom_voice_endpoint_id c else None in
    set_spk (set_synthesizer
               (Some (Synthesizer (synthesis_endpoint c) endpoint_id))
               (spk w1)) w1
  else w1.

(** ** The chat stream: [handleUserQuery] *)

(** The request sent to the completion provider: the URL and the fields of
    the JSON body ([dataSources] only in the data-source form). *)
Record chat_request : Type := ChatRequest {
  req_url : pystr;
  req_dataSources : option (list data_source);
  req_messages : list message;
  req_stream : bool
}.

Inductive exn : Type :=
| TypeError                 (* [speak] called with two arguments *)
| RequestError (e : pystr)  (* raised by [requests.post] *)
| ChatStatus (msg : pystr)  (* [Exception("Chat API response status: ...")] *)
| UnicodeDecodeError        (* [decode()] of a chunk *)
| StreamError (e : pystr)   (* raised by the iterator of the response *)
| StopIterationInGenerator. (* [next(iterator)] on an exhausted stream *)

Inductive outcome : Type :=
| Completed           (* the body ran to its end *)
| ReturnedEarly       (* the [return] on an empty chunk *)
| Raised (e : exn).

(** The generator's local variables, what it has yielded so far, and the
    process state it works on. *)
Record gen : Type := Gen {
  assistant_reply : pystr;
  tool_content : json;
  spoken_sentence : pystr;
  yielded : list json;
  world : state
}.

(** A generator driven to its end by its consumer. *)
Record run_result : Type := RunResult {
  sent : option chat_request;
  tokens_out : list json;
  final : state;
  how : outcome
}.

Definition chat_url (c : config) (extensions : bool) : pystr :=
  Py.fmt (azure_openai_endpoint c) ++ str "/openai/deployments/"
  ++ Py.fmt (azure_openai_deployment_name c)
  ++ (if extensions then str "/extensions" else [])
  ++ str "/chat/completions?api-version=2023-06-01-preview".

Definition status_message (r : response) : pystr :=
  str "Chat API response status: " ++ Py.of_int (resp_status_code r)
  ++ str " " ++ resp_reason r.

(** What reading one parsed record leaves behind. *)
Inductive delta_effect : Type :=
| NoToken
| ToolContent (c : json)
| Token (t : json).

Section Stream.

(** [json.loads]: [None] when it raises. *)
Variable json_loads : pystr -> option json.

(** The characters the pattern [\d] matches (Unicode decimal digits). *)
Variable is_decimal : N -> bool.

Fixpoint skip_digits (s : pystr) : pystr :=
  match s with
  | [] => []
  | c :: s' => if is_decimal c then skip_digits s' else s
  end.

(** A match of [oyd_doc_regex], [\[doc(\d+)\]], at the start of [s]:
    what follows the match. *)
Definition oyd_match_at (s : pystr) : option pystr :=
  if Py.startswith (str "[doc") s then
    match drop 4 s with
    | d :: r =>
        if is_decimal d then
          match skip_digits r with
          | c :: rest => if c =? 93 then Some rest else None
          | [] => None
          end
        else None
    | [] => None
    end
  else None.

(** [oyd_doc_regex.search(s)] finds a match. *)
Fixpoint oyd_search (s : pystr) : bool :=
  match oyd_match_at s with
  | Some _ => true
  | None => match s with
            | [] => false
            | _ :: s' => oyd_search s'
            end
  end.

(** [oyd_doc_regex.sub('', s)] *)
Fixpoint oyd_sub_aux (fuel : nat) (s : pystr) : pystr :=
  match fuel with
  | O => s
  | S fuel' =>
      match oyd_match_at s with
      | Some rest => oyd_sub_aux fuel' rest
      | None => match s with
                | [] => []
                | c :: s' => c :: oyd_sub_aux fuel' s'
                end
      end
  end.

Definition oyd_sub (s : pystr) : pystr := oyd_sub_aux (S (length s)) s.

(** The display token of the data-source form, after the citation
    markers are removed and the end marker is dropped.  [None] is an
    exception (the token is not a string). *)
Definition clean_token (t : json) : option delta_effect :=
  match t with
  | JNull => Some NoToken
  | JStr s =>
      let s1 := if oyd_search s then Py.strip (oyd_sub s) else s in
      if Py.eqb s1 (str "[DONE]") then Some NoToken else Some (Token (JStr s1))
  | _ => None
  end.

(** Lines 367-383: what one parsed record holds.  [None] is an exception
    raised while reading it. *)
Definition read_record (with_sources : bool) (response_json : json)
    : option delta_effect :=
  choices <- PyJson.getitem response_json (str "choices") ;;
  n <- PyJson.len choices ;;
  if (0 <? n)%nat then
    choice <- PyJson.getitem0 choices ;;
    if negb with_sources then
      delta <- PyJson.getitem choice (str "delta") ;;
      k <- PyJson.len delta ;;
      if (0 <? k)%nat then
        present <- PyJson.has (str "content") delta ;;
        if present then
          t <- PyJson.getitem delta (str "content") ;;
          Some (match t with JNull => NoToken | _ => Token t end)
        else Some NoToken
      else Some NoToken
    else
      msgs <- PyJson.getitem choice (str "messages") ;;
      k <- PyJson.len msgs ;;
      if (0 <? k)%nat then
        first <- PyJson.getitem0 msgs ;;
        has_delta <- PyJson.has (str "delta") first ;;
        if has_delta then
          delta <- PyJson.getitem first (str "delta") ;;
          has_role <- PyJson.has (str "role") delta ;;
          is_tool <-
            (if has_role then
               r <- PyJson.getitem delta (str "role") ;;
               if PyJson.eq_str r (str "tool")
               then PyJson.has (str "content") delta
               else Some false
             else Some false) ;;
          if is_tool then
            c <- PyJson.getitem delta (str "content") ;;
            Some (ToolContent c)
          else
            has_content <- PyJson.has (str "content") delta ;;
            if has_content then
              t <- PyJson.getitem delta (str "content") ;;
              clean_token t
            else Some NoToken
        else Some NoToken
      else Some NoToken
  else Some NoToken.

Definition enqueue (text : pystr) (g : gen) : gen :=
  Gen (assistant_reply g) (tool_content g) (spoken_sentence g) (yielded g)
    (speakWithQueue text 0 (world g)).

(** Lines 385-400: a display token is yielded, then joins the reply and
    the sentence; the sentence goes to the queue on a newline token or on
    a short token that starts with a sentence punctuation mark.  A token
    that is not a string is yielded, and the [+=] that follows raises. *)
Definition on_token (t : json) (g : gen) : gen :=
  let g1 := Gen (assistant_reply g) (tool_content g) (spoken_sentence g)
              (yielded g ++ [t]) (world g) in
  match t with
  | JStr tok =>
      let reply := assistant_reply g1 ++ tok in
      if Py.eqb tok [10] || Py.eqb tok [10; 10] then
        enqueue (Py.strip (spoken_sentence g1))
          (Gen reply (tool_content g1) [] (yielded g1) (world g1))
      else
        let tok' := Py.remove_newlines tok in
        let sentence := spoken_sentence g1 ++ tok' in
        let g2 := Gen reply (tool_content g1) sentence (yielded g1) (world g1) in
        if ((length tok' =? 1)%nat || (length tok' =? 2)%nat)
           && existsb (fun p => Py.startswith p tok') sentence_level_punctuations
        then
          enqueue (Py.strip sentence)
            (Gen reply (tool_content g1) [] (yielded g1) (world g1))
        else g2
  | _ => g1
  end.

(** The body of the [try] for one line of a chunk. *)
Definition on_line (with_sources : bool) (line : pystr) (g : gen) : gen :=
  if Py.startswith (str "data:") line
     && negb (Py.endswith (str "[DONE]") line)
  then
    match json_loads (Py.strip (drop 5 line)) with
    | None => g
    | Some response_json =>
        match read_record with_sources response_json with
        | None => g
        | Some NoToken => g
        | Some (ToolContent c) =>
            Gen (assistant_reply g) c (spoken_sentence g) (yielded g) (world g)
        | Some (Token t) => on_token t g
        end
    end
  else g.

Definition on_chunk_string (with_sources : bool) (chunk_string : pystr)
    (g : gen) : gen :=
  fold_left (fun g line => on_line with_sources line g)
    (Py.split_blank chunk_string) g.

(** A chunk string is complete when it ends a record or the stream. *)
Definition complete (chunk_string : pystr) : bool :=
  Py.endswith (str "}" ++ [10; 10]) chunk_string
  || Py.endswith (str "[DONE]" ++ [10; 10]) chunk_string.

(** The [for chunk in iterator] loop over the chunks the iterator
    delivers, [raises] being what it does after them.  [pending] is [Some]
    inside the inner [while], holding the incomplete chunk string read so
    far.  The two [decode()] calls (lines 356 and 361) are outside the
    [try]: a chunk that does not decode ends the generator. *)
Fixpoint consume (with_sources : bool) (chunks : list bytes)
    (raises : option pystr) (pending : option pystr) (g : gen)
    : gen * outcome :=
  match chunks with
  | [] =>
      match raises, pending with
      | Some e, _ => (g, Raised (StreamError e))
      | None, None => (g, Completed)
      | None, Some _ => (g, Raised StopIterationInGenerator)
      end
  | chunk :: rest =>
      match pending with
      | None =>
          match chunk with
          | [] => (g, ReturnedEarly)
          | _ :: _ =>
              match Py.decode chunk with
              | None => (g, Raised UnicodeDecodeError)
              | Some chunk_string =>
                  if complete chunk_string
                  then consume with_sources rest raises None
                         (on_chunk_string with_sources chunk_string g)
                  else consume with_sources rest raises (Some chunk_string) g
              end
          end
      | Some chunk_string =>
          match Py.decode chunk with
          | None => (g, Raised UnicodeDecodeError)
          | Some s =>
              let chunk_string := chunk_string ++ s in
              if complete chunk_string
              then consume with_sources rest raises None
                     (on_chunk_string with_sources chunk_string g)
              else consume with_sources rest raises (Some chunk_string) g
          end
      end
  end.

(** Lines 405-420: after the loop. *)
Definition finish (with_sources : bool) (g : gen) : state :=
  let g1 :=
    match spoken_sentence g with
    | [] => g
    | _ :: _ =>
        enqueue (Py.strip (spoken_sentence g))
          (Gen (assistant_reply g) (tool_content g) [] (yielded g) (world g))
    end in
  let w := world g1 in
  let history :=
    messages (cht w)
    ++ (if with_sources then [Message RTool (tool_content g1)] else [])
    ++ [Message RAssistant (JStr (assistant_reply g1))] in
  set_cht (set_messages history (cht w)) w.

(** [handleUserQuery(user_query)], driven to its end by its consumer,
    with [post] the outcome of its request to the completion provider.
    The workers it starts are left at their first statement: what they do
    is the matter of [run]. *)
Definition handleUserQuery (user_query : pystr) (post : http_result)
    (w : state) : run_result :=
  let w1 :=
    set_cht (set_messages (messages (cht w) ++ [Message RUser (JStr user_query)])
               (cht w)) w in
  let w2 := if is_speaking (spk w1) then stopSpeakingInternal w1 else w1 in
  let with_sources := (0 <? length (data_sources (cht w2)))%nat in
  if with_sources && enable_quick_reply (cfg w2) then
    RunResult None [] w2 (Raised TypeError)
  else
    let request :=
      if with_sources then
        ChatRequest (chat_url (cfg w2) true) (Some (data_sources (cht w2)))
          (messages (cht w2)) true
      else
        ChatRequest (chat_url (cfg w2) false) None (messages (cht w2)) true in
    match post with
    | HttpRaised e => RunResult (Some request) [] w2 (Raised (RequestError e))
    | HttpResponse r =>
        if negb (resp_ok r) then
          RunResult (Some request) [] w2 (Raised (ChatStatus (status_message r)))
        else
          let g0 := Gen [] (JStr []) [] [] w2 in
          match consume with_sources (resp_chunks r) (resp_raises r) None g0
          with
          | (g, Completed) =>
              RunResult (Some request) (yielded g) (finish with_sources g) Completed
          | (g, o) => RunResult (Some request) (yielded g) (world g) o
          end
    end.

(** The route [/api/chat]: the context is initialised on the first call. *)
Definition chat_route (h : headers) (user_query : pystr) (post : http_result)
    (w : state) : run_result :=
  let w1 :=
    if chat_initiated (cht w) then w
    else
      let w0 := initializeChatContext (h !! "SystemPrompt"%string) w in
      set_cht (set_chat_initiated true (cht w0)) w0 in
  handleUserQuery user_query post w1.

End Stream.

(** The stored token after a run of answered requests: the body of the
    last answer, or the old token when there was none. *)
Definition token_after (rs : list response) (old : option pystr)
    : option pystr :=
  match last rs with
  | Some r => Some (resp_text r)
  | None => old
  end.

(** ** Vocabulary of the statements *)

(** A setting that a header overrides: kept when the header is absent (or
    present with an empty value, which Python takes as false), replaced by
    the header's value otherwise. *)
Definition overridden_by (header old new : option pystr) : Prop :=
  (header = None -> new = old)
  /\ (forall v, header = Some v -> v <> [] -> new = Some v)
  /\ (header = Some [] -> new = old).

(** *** The stream seen as a list of effects *)

Section Effects.

Variable json_loads : pystr -> option json.
Variable is_decimal : N -> bool.

(** What a line contributes: nothing when it is not a data line, is the
    end marker, does not parse, or raises while it is read. *)
Definition line_effect (with_sources : bool) (line : pystr) : delta_effect :=
  if Py.startswith (str "data:") line
     && negb (Py.endswith (str "[DONE]") line)
  then
    match json_loads (Py.strip (drop 5 line)) with
    | None => NoToken
    | Some response_json =>
        match read_record is_decimal with_sources response_json with
        | None => NoToken
        | Some e => e
        end
    end
  else NoToken.

(** The chunk strings the loop completes, in order, from the chunks as
    decoded; [None] when the loop does not reach the end of the stream (an
    empty chunk, or a stream that ends inside a record). *)
Fixpoint chunk_strings (chunks : list pystr) (pending : option pystr)
    : option (list pystr) :=
  match chunks, pending with
  | [], None => Some []
  | [], Some _ => None
  | chunk :: rest, None =>
      match chunk with
      | [] => None
      | _ :: _ =>
          if complete chunk
          then css <- chunk_strings rest None ;; Some (chunk :: css)
          else chunk_strings rest (Some chunk)
      end
  | chunk :: rest, Some chunk_string =>
      if complete (chunk_string ++ chunk)
      then css <- chunk_strings rest None ;; Some ((chunk_string ++ chunk) :: css)
      else chunk_strings rest (Some (chunk_string ++ chunk))
  end.

(** The chunk strings of a stream read to its end: every chunk decodes,
    the iterator then ends rather than raises, and the decoded chunks
    assemble into complete chunk strings.  [None] otherwise. *)
Definition stream_strings (chunks : list bytes) (raises : option pystr)
    (pending : option pystr) : option (list pystr) :=
  match raises with
  | Some _ => None
  | None => texts <- mapM Py.decode chunks ;; chunk_strings texts pending
  end.

(** The effects of a whole stream, line by line. *)
Definition stream_effects (with_sources : bool) (css : list pystr)
    : list delta_effect :=
  List.map (line_effect with_sources) (List.flat_map Py.split_blank css).

End Effects.

(** What an effect does to the generator. *)
Definition apply_effect (e : delta_effect) (g : gen) : gen :=
  match e with
  | NoToken => g
  | ToolContent c =>
      Gen (assistant_reply g) c (spoken_sentence g) (yielded g) (world g)
  | Token t => on_token t g
  end.

(** The tokens among the effects: what the caller is shown. *)
Fixpoint shown (es : list delta_effect) : list json :=
  match es with
  | [] => []
  | Token t :: es' => t :: shown es'
  | _ :: es' => shown es'
  end.

(** The tool content left by the effects: that of the last tool delta. *)
Fixpoint last_tool (es : list delta_effect) (init : json) : json :=
  match es with
  | [] => init
  | ToolContent c :: es' => last_tool es' c
  | _ :: es' => last_tool es' init
  end.

(** The assistant reply: the string tokens, concatenated. *)
Fixpoint reply_of (es : list delta_effect) : pystr :=
  match es with
  | [] => []
  | Token (JStr s) :: es' => s ++ reply_of es'
  | _ :: es' => reply_of es'
  end.

(** *** One worker draining the queue *)

(** The schedule of worker [tid] draining the queue undisturbed: for each
    text the loop test, the pop, the call, and the return of the call
    with the given answer and time; then the last test and the clearing of
    the flag. *)
Fixpoint drain (tid : nat) (answers : list (synthesis_result * time))
    : list action :=
  match answers with
  | [] => [Run tid; Run tid]
  | (res, now) :: rest =>
      Run tid :: Run tid :: Run tid :: SynthDone tid res now :: drain tid rest
  end.

(** The log of synthesis calls made one after the other for [texts]. *)
Definition spoken_log (tid : nat) (voice : pystr) (profile : option pystr)
    (ms : Z) (texts : list pystr) : list event :=
  List.flat_map
    (fun text => [SynthBegin tid (speakText_ssml text voice profile ms);
                  SynthEnd tid])
    texts.

(** An answer on which [speakSsml] returns. *)
Definition returns (res : synthesis_result) : Prop :=
  exists id, speakSsml res = inl id.

(** ** Concrete inputs for the examples

    A stand-in for [json.loads] that knows the records of the examples (and
    raises on every other text), the ASCII digits for [\d], and an idle
    process with a connected synthesizer. *)

Definition quote : pystr := [34].

Definition key (name : string) : pystr := quote ++ str name ++ quote.

(** The text [{"choices":[{"delta":{"content":"<tok>"}}]}]. *)
Definition plain_payload (tok_text : pystr) : pystr :=
  str "{" ++ key "choices" ++ str ":[{" ++ key "delta" ++ str ":{"
  ++ key "content" ++ str ":" ++ quote ++ tok_text ++ quote ++ str "}}]}".

Definition plain_record (tok : pystr) : json :=
  JObj [(str "choices",
         JArr [JObj [(str "delta", JObj [(str "content", JStr tok)])]])].

(** The text [{"choices":[{"messages":[{"delta":{"role":"tool","content":"<c>"}}]}]}]. *)
Definition tool_payload (c_text : pystr) : pystr :=
  str "{" ++ key "choices" ++ str ":[{" ++ key "messages" ++ str ":[{"
  ++ key "delta" ++ str ":{" ++ key "role" ++ str ":" ++ key "tool" ++ str ","
  ++ key "content" ++ str ":" ++ quote ++ c_text ++ quote ++ str "}}]}]}".

Definition tool_record (c : pystr) : json :=
  JObj [(str "choices",
         JArr [JObj [(str "messages",
                      JArr [JObj [(str "delta",
                                   JObj [(str "role", JStr (str "tool"));
                                         (str "content", JStr c)])]])]])].

(** The text [{"choices":[{"messages":[{"delta":{"content":"<tok>"}}]}]}]. *)
Definition content_payload (tok_text : pystr) : pystr :=
  str "{" ++ key "choices" ++ str ":[{" ++ key "messages" ++ str ":[{"
  ++ key "delta" ++ str ":{" ++ key "content" ++ str ":" ++ quote ++ tok_text
  ++ quote ++ str "}}]}]}".

Definition content_record (tok : pystr) : json :=
  JObj [(str "choices",
         JArr [JObj [(str "messages",
                      JArr [JObj [(str "delta",
                                   JObj [(str "content", JStr tok)])]])]])].

(** One server-sent event: [data: <payload>] and a blank line. *)
Definition sse (payload : pystr) : pystr :=
  str "data: " ++ payload ++ [10; 10].

Definition done_event : pystr := str "data: [DONE]" ++ [10; 10].

(** The JSON text of a newline inside a string is backslash, [n]. *)
Definition known_records : list (pystr * json) :=
  [ (plain_payload (str "Hello"), plain_record (str "Hello"));
    (plain_payload (str ","), plain_record (str ","));
    (plain_payload (str " world"), plain_record (str " world"));
    (plain_payload (str "."), plain_record (str "."));
    (plain_payload (str "\n"), plain_record [10]);
    (tool_payload (str "cite1"), tool_record (str "cite1"));
    (tool_payload (str "cite2"), tool_record (str "cite2"));
    (content_payload (str "See [doc1]."), content_record (str "See [doc1].")) ].

Definition loads_known (s : pystr) : option json :=
  PyJson.assoc s known_records.

Definition ascii_digit (c : N) : bool := (48 <=? c) && (c <=? 57).

Definition plain_config : config :=
  Config (Some (str "westus2")) (Some (str "speech-key")) None
    (Some (str "https://my-aoai.openai.azure.com")) (Some (str "aoai-key"))
    (Some (str "my-gpt-35-turbo-deployment"))
    None None None
    (str "en-US-JennyMultilingualV2Neural") None None false.

Definition search_config : config :=
  Config (Some (str "westus2")) (Some (str "speech-key")) None
    (Some (str "https://my-aoai.openai.azure.com")) (Some (str "aoai-key"))
    (Some (str "my-gpt-35-turbo-deployment"))
    (Some (str "https://my-cognitive-search.search.windows.net/"))
    (Some (str "search-key")) (Some (str "my-search-index"))
    (str "en-US-JennyMultilingualV2Neural") None None false.

Definition connected : speech :=
  Speech (Some (Synthesizer (synthesis_endpoint plain_config) None))
    false [] None.

(** No chat yet, nothing queued, no worker started. *)
Definition idle (c : config) : state :=
  State c (Tokens (Some (str "token-0")) None) (Chat false [] [])
    connected [] [].

(** The chat of [idle], after [initializeChatContext] with a prompt. *)
Definition ready (c : config) : state :=
  initializeChatContext (Some (str "You are an assistant.")) (idle c).

(** The bytes of an ASCII text. *)
Definition as_bytes (s : pystr) : bytes :=
  List.map (fun c => match Byte.of_N c with Some b => b | None => x00 end) s.

(** A response with status 200 whose stream delivers the given texts as
    chunks and ends. *)
Definition answer (chunks : list pystr) : http_result :=
  HttpResponse (Response true 200 (str "OK") [] (List.map as_bytes chunks) None).

(** The five tokens [Hello], [,], [ world], [.], newline, cut into three
    chunks in the middle of records. *)
Definition hello_stream : list pystr :=
  [ sse (plain_payload (str "Hello")) ++ str "data: {";
    drop 7 (sse (plain_payload (str ","))) ++ sse (plain_payload (str " world"));
    sse (plain_payload (str ".")) ++ sse (plain_payload (str "\n")) ++ done_event ].

(** The same five tokens, cut at record ends. *)
Definition hello_whole : list pystr :=
  [ sse (plain_payload (str "Hello")) ++ sse (plain_payload (str ","))
    ++ sse (plain_payload (str " world"));
    sse (plain_payload (str ".")) ++ sse (plain_payload (str "\n")) ++ done_event ].

(** Two tool deltas in one stream. *)
Definition two_citations : list pystr :=
  [ sse (tool_payload (str "cite1")) ++ sse (tool_payload (str "cite2"))
    ++ done_event ].

(** A tool delta followed by a display token that cites it. *)
Definition cited_answer : list pystr :=
  [ sse (tool_payload (str "cite1")); sse (content_payload (str "See [doc1]."));
    done_event ].

(** An answer of the synthesis engine that is not a cancellation. *)
Definition spoken (id : string) : synthesis_result :=
  SynthesisResult (str id) NotCanceled.

(** Two sentences handed to [speakWithQueue] one right after the other, as
    [handleUserQuery] does for the tokens [.] and newline; then the two
    started workers run in turn. *)
Definition back_to_back : list action :=
  [ Enqueue (str "Hello, world.") 0; Enqueue (str "") 0;
    Run 0; Run 1;       (* both set [is_speaking] *)
    Run 0; Run 1;       (* both find the queue non-empty *)
    Run 0; Run 1;       (* both pop *)
    Run 0; Run 1 ].     (* both call the synthesizer *)

(** A sentence enqueued without silence while a worker that was started
    with 2000 ms of silence is speaking. *)
Definition silence_inherited : list action :=
  [ Enqueue (str "One moment, please.") 2000;
    Run 0; Run 0; Run 0; Run 0;
    Enqueue (str "Hello.") 0;
    SynthDone 0 (spoken "r1") 1;
    Run 0; Run 0; Run 0 ].


(** A worker at its loop test with two sentences waiting. *)
Definition draining : state :=
  set_spk (set_is_speaking true
             (set_queue [str "Hello, world."; str "How are you?"] connected))
    (set_threads [Thread AtLoopTest 0] (ready plain_config)).

(** ** Schedules and logs: vocabulary of the statements about workers *)

(** The texts a schedule hands to [speakWithQueue], in order. *)
Fixpoint enqueued (sched : list action) : list pystr :=
  match sched with
  | [] => []
  | Enqueue text _ :: sched' => text :: enqueued sched'
  | _ :: sched' => enqueued sched'
  end.

Definition is_stop (a : action) : bool :=
  match a with
  | Stop => true
  | _ => false
  end.

(** No [stopSpeakingInternal] in the schedule. *)
Definition never_stops (sched : list action) : bool :=
  forallb (fun a => negb (is_stop a)) sched.

(** The text a worker holds between its pop and its call of
    [speakText]. *)
Definition holding (t : thread) : list pystr :=
  match t_pc t with
  | AtSpeakText text => [text]
  | _ => []
  end.

(** The texts taken from the queue and not yet handed to the
    synthesizer. *)
Definition held (w : state) : list pystr :=
  List.flat_map holding (threads w).

(** The synthesis calls begun in a log: the worker and its document. *)
Fixpoint begun (l : list event) : list (nat * pystr) :=
  match l with
  | [] => []
  | SynthBegin tid ssml :: l' => (tid, ssml) :: begun l'
  | SynthEnd _ :: l' => begun l'
  end.

Definition is_begin_of (tid : nat) (e : event) : bool :=
  match e with
  | SynthBegin t _ => Nat.eqb t tid
  | SynthEnd _ => false
  end.

Definition is_end_of (tid : nat) (e : event) : bool :=
  match e with
  | SynthBegin _ _ => false
  | SynthEnd t => Nat.eqb t tid
  end.

(** How many calls of worker [tid] the log shows begun, and ended. *)
Definition begins_of (tid : nat) (l : list event) : nat :=
  length (List.filter (is_begin_of tid) l).

Definition ends_of (tid : nat) (l : list event) : nat :=
  length (List.filter (is_end_of tid) l).

(** 1 when worker [tid] is inside its synthesis call, 0 otherwise (also
    when there is no such worker). *)
Definition speaking_now (tid : nat) (w : state) : nat :=
  match threads w !! tid with
  | Some t => if is_in_flight t then 1%nat else 0%nat
  | None => 0%nat
  end.

(** Every worker has begun exactly as many calls as it has ended, plus the
    one it is inside of. *)
Definition balanced (w : state) : Prop :=
  forall tid,
    begins_of tid (synth_log w)
    = (ends_of tid (synth_log w) + speaking_now tid w)%nat.

(** [is_speaking] is set and no worker is left to clear it. *)
Definition stuck (w : state) : Prop :=
  is_speaking (spk w) = true
  /\ Forall (fun t => is_active t = false) (threads w).

(** [last_speak_time] after a schedule: the time of the last synthesis
    call that returned. *)
Fixpoint last_return (sched : list action) (init : option time)
    : option time :=
  match sched with
  | [] => init
  | SynthDone _ res now :: sched' =>
      last_return sched'
        (match speakSsml res with
         | inl _ => Some now
         | inr _ => init
         end)
  | _ :: sched' => last_return sched' init
  end.

(** The document of [text] for some silence, with the given voice and
    speaker profile. *)
Definition document_of (voice : pystr) (profile : option pystr)
    (text : pystr) (call : nat * pystr) : Prop :=
  exists ms, snd call = speakText_ssml text voice profile ms.

(** The synthesis calls a log shows ended. *)
Fixpoint ended (l : list event) : nat :=
  match l with
  | [] => 0%nat
  | SynthBegin _ _ :: l' => ended l'
  | SynthEnd _ :: l' => S (ended l')
  end.

(** The log accounts for the workers: per worker ([balanced]) and in
    total, the calls begun are the calls ended plus the calls workers are
    inside of. *)
Definition accounted (w : state) : Prop :=
  balanced w
  /\ length (begun (synth_log w)) = (ended (synth_log w) + in_flight w)%nat.

(** 1 for a position inside the synthesis call. *)
Definition in_call (p : pc) : nat :=
  match p with
  | InSpeakText _ => 1%nat
  | _ => 0%nat
  end.

(** Worker [tid] is the only worker that has not ended. *)
Definition only_worker (tid : nat) (w : state) : Prop :=
  forall j u, j <> tid -> threads w !! j = Some u -> is_active u = false.

(** One worker inside the synthesis call of a sentence, the flag set. *)
Definition one_speaking : state :=
  set_spk (set_is_speaking true connected)
    (set_threads [Thread (InSpeakText (str "Hello.")) 0] (ready plain_config)).

(** One worker between its loop test and its pop, one sentence queued. *)
Definition one_about_to_pop : state :=
  set_spk (set_is_speaking true (set_queue [str "Hello."] connected))
    (set_threads [Thread AtPop 0] (ready plain_config)).

(** A cancellation with an error. *)
Definition engine_error : synthesis_result :=
  SynthesisResult (str "r9")
    (Canceled CancelError (str "Connection was closed by the remote host.")).

(** ** Vocabulary of the statements about a chat turn *)

(** A text that [strip()] leaves as it is. *)
Definition is_stripped (s : pystr) : Prop := Py.strip s = s.

(** A text without its whitespace. *)
Definition unspaced (s : pystr) : pystr :=
  List.filter (fun c => negb (Py.isspace c)) s.

(** The string tokens among what was yielded, concatenated. *)
Fixpoint strings_of (ts : list json) : pystr :=
  match ts with
  | [] => []
  | JStr s :: ts' => s ++ strings_of ts'
  | _ :: ts' => strings_of ts'
  end.

(** What a chat turn never touches: the settings, the tokens, the chat
    context, the synthesis log and, of the speech state, everything but
    the queue. *)
Definition same_but_queue (w w' : state) : Prop :=
  cfg w' = cfg w
  /\ tok w' = tok w
  /\ cht w' = cht w
  /\ synth_log w' = synth_log w
  /\ is_speaking (spk w') = is_speaking (spk w)
  /\ last_speak_time (spk w') = last_speak_time (spk w)
  /\ speech_synthesizer (spk w') = speech_synthesizer (spk w).

(** From [g] to [g'] the generator has yielded [ts], enqueued [added] and
    started the workers [started], and done nothing else. *)
Definition grows_by (ts : list json) (added : list pystr)
    (started : list thread) (g g' : gen) : Prop :=
  yielded g' = yielded g ++ ts
  /\ assistant_reply g' = assistant_reply g ++ strings_of ts
  /\ spoken_text_queue (spk (world g'))
     = spoken_text_queue (spk (world g)) ++ added
  /\ Forall is_stripped added
  /\ unspaced (List.concat added ++ spoken_sentence g')
     = unspaced (spoken_sentence g ++ strings_of ts)
  /\ threads (world g') = threads (world g) ++ started
  /\ (is_speaking (spk (world g)) = true -> started = [])
  /\ same_but_queue (world g) (world g').

Definition grows (g g' : gen) : Prop :=
  exists ts added started, grows_by ts added started g g'.

(** A text that does not begin with whitespace. *)
Definition starts_unspaced (s : pystr) : Prop :=
  match s with
  | [] => True
  | c :: _ => Py.isspace c = false
  end.

(** The chunk string being assembled, as text. *)
Definition pending_text (pending : option pystr) : pystr :=
  match pending with
  | Some s => s
  | None => []
  end.

(** A chunk string none of whose lines has an effect: no data line, or
    lines that do not parse or raise while they are read. *)
Definition without_effect (json_loads : pystr -> option json)
    (is_decimal : N -> bool) (with_sources : bool) (chunk_string : pystr)
    : Prop :=
  Forall (fun line => line_effect json_loads is_decimal with_sources line = NoToken)
    (Py.split_blank chunk_string).

(** ** Vocabulary of the statements about citation markers and escaping *)

(** The marker [[docN]] for the digits [N]. *)
Definition marker (digits : pystr) : pystr :=
  str "[doc" ++ digits ++ str "]".

(** What [clean_token] makes of the text left after the markers are gone. *)
Definition shown_token (s : pystr) : delta_effect :=
  if Py.eqb s (str "[DONE]") then NoToken else Token (JStr s).

(** The characters [html.escape] replaces. *)
Definition is_special (c : N) : bool :=
  (c =? 38) || (c =? 60) || (c =? 62) || (c =? 34) || (c =? 39).

(** A character that cannot open or close a tag or an attribute value. *)
Definition markup_free (c : N) : Prop :=
  c <> 60 /\ c <> 62 /\ c <> 34 /\ c <> 39.

(** The request of a first question [Hi] asked of [idle plain_config] with
    no [SystemPrompt] header. *)
Definition first_request : chat_request :=
  ChatRequest (chat_url plain_config false) None
    (messages (cht (initializeChatContext None (idle plain_config)))
     ++ [Message RUser (JStr (str "Hi"))])
    true.

(** A chat initiated with the search settings of [search_config], and a
    reconnection that names another index and another deployment. *)
Definition initiated_search : state :=
  clearChatHistory ∅ (idle search_config).

Definition other_index : headers :=
  <[ "CognitiveSearchIndexName"%string := str "other-index" ]>
    (<[ "AoaiDeploymentName"%string := str "other-deployment" ]> ∅).

(** The worker of [draining] stopped while it speaks the first sentence,
    and a new sentence enqueued before the call returns. *)
Definition interrupted : list action :=
  [ Run 0; Run 0; Run 0; Stop; Enqueue (str "Bye.") 0;
    SynthDone 0 (spoken "r1") 1;
    Run 0; Run 0; Run 0; SynthDone 0 (spoken "r2") 2;
    Run 0; Run 0 ].

(** ** What the routes [/api/speak] and [/api/connectAvatar] answer

    Both routes run their body in a [try] and build the error response
    from a local variable the body binds on its way ([result_id],
    [speech_sythesis_result]).  The body is modelled with the binding of
    that variable at the moment the [try] is left. *)

(** An exception caught by the handler: one raised by a library call or
    by a subscript (its text is not modelled), or the one the code itself
    raises with the cancellation details. *)
Inductive route_exn : Type :=
| LibraryRaised
| CanceledWith (error_details : pystr).

(** The response: status 200 with a body, status 400 with the text
    [Result ID: {id}. Error message: {e}], or no response because the
    handler itself raised (the local variable is not bound). *)
Inductive reply (A : Type) : Type :=
| Ok (body : A)
| BadRequest (id : pystr) (e : route_exn)
| HandlerRaised.

Arguments Ok {A} body.
Arguments BadRequest {A} id e.
Arguments HandlerRaised {A}.

(** The [except] clause, given the binding of the local variable it reads
    and the outcome of the body. *)
Definition except_handler {A : Type} (bound : option pystr)
    (r : A + route_exn) : reply A :=
  match r with
  | inl body => Ok body
  | inr e =>
      match bound with
      | Some id => BadRequest id e
      | None => HandlerRaised
      end
  end.

(** Lines 183-185.  [data] is the decoded request body ([None] when
    [decode] raises), [call] the answer of the engine ([None] when the SDK
    call raises).  The first component is the binding of [result_id]. *)
Definition speak_body (data : option pystr) (call : option synthesis_result)
    (w : state) : option pystr * (pystr + route_exn) :=
  match data with
  | None => (None, inr LibraryRaised)
  | Some ssml =>
      match speech_synthesizer (spk w) with
      | None => (None, inr LibraryRaised)
      | Some _ =>
          match call with
          | None => (None, inr LibraryRaised)
          | Some res =>
              match speakSsml res with
              | inr details => (None, inr (CanceledWith details))
              | inl id => (Some id, inl id)
              end
          end
      end
  end.

(** The route [/api/speak]. *)
Definition speak (data : option pystr) (call : option synthesis_result)
    (w : state) : reply pystr :=
  let '(result_id, r) := speak_body data call w in
  except_handler result_id r.

(** What the SDK does during [connectAvatar]: whether the constructors
    returned, whether the connection took the avatar configuration, the
    result of the empty synthesis call ([None] when it raises) and the
    turn start message ([None] when reading it raises). *)
Record sdk_session : Type := SdkSession {
  sdk_built : bool;
  sdk_configured : bool;
  sdk_first_call : option synthesis_result;
  sdk_turn_start : option pystr
}.

Section ConnectReply.

Variable json_loads : pystr -> option json.

(** Lines 112-156: the values the avatar configuration needs.  [None] is
    an exception: [json.loads] of the ICE token, one of its subscripts, or
    [is_custom_avatar.lower()] on a missing header. *)
Definition avatar_config_inputs (h : headers) (w : state)
    : option (json * json * json * pystr) :=
  t <- ice_token (tok w) ;;
  ice_token_obj <- json_loads t ;;
  urls <- PyJson.getitem ice_token_obj (str "Urls") ;;
  url <- PyJson.getitem0 urls ;;
  username <- PyJson.getitem ice_token_obj (str "Username") ;;
  password <- PyJson.getitem ice_token_obj (str "Password") ;;
  is_custom_avatar <- h !! "IsCustomAvatar"%string ;;
  Some (url, username, password, is_custom_avatar).

(** Line 170: [json.loads(turn_start_message)['webrtc']['connectionString']]. *)
Definition remote_sdp (sdk : sdk_session) : option json :=
  m <- sdk_turn_start sdk ;;
  j <- json_loads m ;;
  webrtc <- PyJson.getitem j (str "webrtc") ;;
  PyJson.getitem webrtc (str "connectionString").

(** Lines 100-172.  The first component is the binding of
    [speech_sythesis_result]. *)
Definition connectAvatar_body (h : headers) (sdk : sdk_session) (w : state)
    : option synthesis_result * (json + route_exn) :=
  if negb (sdk_built sdk) then (None, inr LibraryRaised)
  else
    match avatar_config_inputs h w with
    | None => (None, inr LibraryRaised)
    | Some _ =>
        if negb (sdk_configured sdk) then (None, inr LibraryRaised)
        else
          match sdk_first_call sdk with
          | None => (None, inr LibraryRaised)
          | Some res =>
              match reason res with
              | Canceled CancelError details =>
                  (Some res, inr (CanceledWith details))
              | _ =>
                  match remote_sdp sdk with
                  | Some sdp => (Some res, inl sdp)
                  | None => (Some res, inr LibraryRaised)
                  end
              end
          end
    end.

(** The response of the route [/api/connectAvatar]. *)
Definition connectAvatar_reply (h : headers) (sdk : sdk_session) (w : state)
    : reply json :=
  let '(speech_sythesis_result, r) := connectAvatar_body h sdk w in
  except_handler (option_map result_id speech_sythesis_result) r.

End ConnectReply.

(** A relay token with the three fields, and a session that goes well. *)
Definition relay_token : pystr := str "{relay}".

Definition relay_loads (s : pystr) : option json :=
  if Py.eqb s relay_token then
    Some (JObj [ (str "Urls", JArr [JStr (str "turn:relay.example:3478")]);
                 (str "Username", JStr (str "user"));
                 (str "Password", JStr (str "secret")) ])
  else if Py.eqb s (str "{start}") then
    Some (JObj [ (str "webrtc",
                  JObj [ (str "connectionString", JStr (str "remote-sdp")) ]) ])
  else None.

Definition good_session : sdk_session :=
  SdkSession true true (Some (spoken "r0")) (Some (str "{start}")).

Definition with_relay_token (w : state) : state :=
  State (cfg w) (Tokens (speech_token (tok w)) (Some relay_token)) (cht w)
    (spk w) (threads w) (synth_log w).

Definition avatar_headers : headers :=
  <[ "IsCustomAvatar"%string := str "false" ]> ∅.

(** ** The process as a whole

    What the process serves, one piece at a time: the requests that change
    the state, the actions of the speech workers, and a token handed out
    to the refresh loop. *)
Inductive request : Type :=
| Connect (h : headers) (built : bool)
| Ask (h : headers) (user_query : pystr) (post : http_result)
| ClearHistory (h : headers)
| Act (a : action)
| TokenIssued (r : response).

Section Process.

Variable json_loads : pystr -> option json.
Variable is_decimal : N -> bool.

Definition serve (r : request) (w : state) : option state :=
  match r with
  | Connect h built => Some (connectAvatar h built w)
  | Ask h user_query post =>
      Some (final (chat_route json_loads is_decimal h user_query post w))
  | ClearHistory h => Some (clearChatHistory h w)
  | Act a => step a w
  | TokenIssued r => Some (fst (refreshSpeechToken [HttpResponse r] w))
  end.

Fixpoint serve_all (reqs : list request) (w : state) : option state :=
  match reqs with
  | [] => Some w
  | r :: reqs' => w1 <- serve r w ;; serve_all reqs' w1
  end.

End Process.

Definition is_clear (r : request) : bool :=
  match r with
  | ClearHistory _ => true
  | _ => false
  end.

(** The values read from the environment or fetched when the module is
    loaded, which no function assigns afterwards. *)
Record startup : Type := Startup {
  st_ice_token : option pystr;
  st_speech_region : option pystr;
  st_speech_key : option pystr;
  st_speech_private_endpoint : option pystr;
  st_azure_openai_endpoint : option pystr;
  st_azure_openai_api_key : option pystr;
  st_cognitive_search_endpoint : option pystr;
  st_cognitive_search_api_key : option pystr;
  st_enable_quick_reply : bool
}.

Definition startup_values (w : state) : startup :=
  Startup (ice_token (tok w)) (speech_region (cfg w)) (speech_key (cfg w))
    (speech_private_endpoint (cfg w)) (azure_openai_endpoint (cfg w))
    (azure_openai_api_key (cfg w)) (cognitive_search_endpoint (cfg w))
    (cognitive_search_api_key (cfg w)) (enable_quick_reply (cfg w)).

(** A session: a reconnection, a question, a stop, a refreshed token and a
    second question. *)
Definition session : list request :=
  [ Connect other_index true;
    Ask ∅ (str "Hi") (answer hello_whole);
    Act Stop;
    TokenIssued (Response true 200 (str "OK") (str "token-1") [] None);
    Ask ∅ (str "And then?") (answer hello_stream) ].

(** * Properties *)

(** ** Python strings: checks of the helpers *)

Example of_int_2000 : Py.of_int 2000 = str "2000".
Proof. reflexivity. Qed.

Example of_int_0 : Py.of_int 0 = str "0".
Proof. reflexivity. Qed.

Example of_int_neg : Py.of_int (-15) = str "-15".
Proof. reflexivity. Qed.

Example split_blank_ex :
  Py.split_blank (str "ab" ++ [10; 10] ++ str "c" ++ [10; 10])
  = [str "ab"; str "c"; []].
Proof. reflexivity. Qed.

Example strip_ex : Py.strip ([32; 10] ++ str "a b" ++ [9]) = str "a b".
Proof. reflexivity. Qed.

(** ** The citation pattern *)

Section Pattern.

Variable is_decimal : N -> bool.

Lemma skip_digits_length (s : pystr) :
  (length (skip_digits is_decimal s) <= length s)%nat.
Proof.
  induction s as [|c s IH]; cbn; [lia|].
  destruct (is_decimal c); cbn; lia.
Qed.

(** A match consumes at least one character. *)
Lemma oyd_match_at_shorter (s rest : pystr) :
  oyd_match_at is_decimal s = Some rest -> (length rest < length s)%nat.
Proof.
  unfold oyd_match_at.
  destruct (Py.startswith (str "[doc") s) eqn:E; [|discriminate].
  destruct s as [|c0 [|c1 [|c2 [|c3 r]]]]; try discriminate.
  change (drop 4 (c0 :: c1 :: c2 :: c3 :: r)) with r.
  destruct r as [|d r]; [discriminate|].
  destruct (is_decimal d); [|discriminate].
  pose proof (skip_digits_length r) as Hl.
  destruct (skip_digits is_decimal r) as [|x rest']; [discriminate|].
  destruct (x =? 93); [|discriminate].
  intros [= <-]. cbn in *. lia.
Qed.

(** The fuel [oyd_sub] gives is enough: more of it changes nothing. *)
Lemma oyd_sub_aux_fuel (fuel fuel' : nat) (s : pystr) :
  (length s < fuel)%nat -> (length s < fuel')%nat ->
  oyd_sub_aux is_decimal fuel s = oyd_sub_aux is_decimal fuel' s.
Proof.
  revert fuel' s. induction fuel as [|fuel IH]; intros fuel' s H H'; [lia|].
  destruct fuel' as [|fuel']; [lia|]. cbn [oyd_sub_aux].
  destruct (oyd_match_at is_decimal s) as [rest|] eqn:E.
  - apply oyd_match_at_shorter in E. apply IH; lia.
  - destruct s as [|c s]; [reflexivity|]. cbn in H, H'.
    f_equal. apply IH; lia.
Qed.

End Pattern.

(** ** Chat context *)

(** C6. [initializeChatContext] called with prompt [p]: when the search
    settings are not all present the history is the single system message
    holding [p] and there is no data source; when they are, the history is
    empty and there is exactly one data source, whose [roleInformation] is
    [p]. *)
Theorem initializeChatContext_history (p : option pystr) (w : state) :
  let w' := initializeChatContext p w in
  messages (cht w')
  = (if search_configured (cfg w) then [] else [Message RSystem (of_opt p)])
  /\ List.map ds_roleInformation (data_sources (cht w'))
     = (if search_configured (cfg w) then [p] else [])
  /\ length (data_sources (cht w'))
     = (if search_configured (cfg w) then 1%nat else 0%nat).
Proof.
  unfold initializeChatContext; cbn.
  destruct (search_configured (cfg w)); cbn; auto.
Qed.

(** ** Token refresh *)

Lemma token_after_cons (r : response) (rs : list response)
    (old : option pystr) :
  token_after (r :: rs) old = token_after rs (Some (resp_text r)).
Proof.
  unfold token_after. destruct rs as [|r' rs]; [reflexivity|].
  change (last (r :: r' :: rs)) with (last (r' :: rs)).
  destruct (last (r' :: rs)) eqn:E; [reflexivity|].
  apply last_None in E. discriminate.
Qed.

Lemma refreshSpeechToken_answers (rs : list response) (tail : list http_result)
    (w : state) :
  refreshSpeechToken (List.map HttpResponse rs ++ tail) w
  = refreshSpeechToken tail
      (set_tok (Tokens (token_after rs (speech_token (tok w)))
                  (ice_token (tok w))) w).
Proof.
  revert w. induction rs as [|r rs IH]; intros w.
  - destruct w as [c [t i] ch sp th lg]. reflexivity.
  - cbn [List.map app refreshSpeechToken]. rewrite IH, token_after_cons.
    reflexivity.
Qed.

(** C7, as the code has it.  Every answered token request, whatever its
    status, replaces the stored token with the body of the answer; a
    request that raises leaves the stored token as it was and ends the loop,
    so no later request is made. *)
Theorem refreshSpeechToken_attempts (rs : list response) (e : pystr)
    (later : list http_result) (w : state) :
  let kept := set_tok (Tokens (token_after rs (speech_token (tok w)))
                         (ice_token (tok w))) w in
  refreshSpeechToken (List.map HttpResponse rs) w = (kept, Sleeping)
  /\ refreshSpeechToken (List.map HttpResponse rs ++ HttpRaised e :: later) w
     = (kept, Died e).
Proof.
  cbn zeta. split.
  - rewrite <- (app_nil_r (List.map HttpResponse rs)).
    rewrite refreshSpeechToken_answers. reflexivity.
  - rewrite refreshSpeechToken_answers. reflexivity.
Qed.

(** ** The chat stream: a refused request *)

Section Refused.

Variable json_loads : pystr -> option json.
Variable is_decimal : N -> bool.

(** The history once the user message is appended. *)
Lemma handleUserQuery_refused (user_query : pystr) (r : response) (w : state) :
  resp_ok r = false ->
  let res := handleUserQuery json_loads is_decimal user_query (HttpResponse r) w in
  tokens_out res = []
  /\ (exists e, how res = Raised e)
  /\ messages (cht (final res))
     = messages (cht w) ++ [Message RUser (JStr user_query)].
Proof.
  intros Hok. unfold handleUserQuery. rewrite Hok. cbn.
  destruct (is_speaking (spk w)); cbn;
    destruct (data_sources (cht w)); cbn;
    try destruct (enable_quick_reply (cfg w)); cbn; eauto.
Qed.

(** C3, as the code has it.  The code tests [response.ok], which the
    requests library makes false for the client and server error statuses,
    400 to 599.  For such a status [handleUserQuery] yields no token and
    ends by raising: with the status message, or, in the data-source form
    with quick replies enabled, with the [TypeError] of the quick reply,
    which is raised before the request.  Every other status, the ones
    below 200 and from 300 to 399 included, is read as a stream, exactly
    as a 200 is. *)
Theorem handleUserQuery_error_yields_nothing (user_query : pystr)
    (r : response) (w : state) :
  resp_ok r = requests_ok (resp_status_code r) ->
  let res := handleUserQuery json_loads is_decimal user_query (HttpResponse r) w in
  ((400 <= resp_status_code r < 600)%Z ->
   tokens_out res = []
   /\ how res
      = Raised (if (0 <? length (data_sources (cht w)))%nat
                   && enable_quick_reply (cfg w)
                then TypeError else ChatStatus (status_message r)))
  /\ (~ (400 <= resp_status_code r < 600)%Z ->
      res = handleUserQuery json_loads is_decimal user_query
              (HttpResponse (Response true 200 (str "OK") (resp_text r)
                               (resp_chunks r) (resp_raises r))) w).
Proof.
  intros Hok. cbv zeta. split; intros Hs.
  - assert (Hf : resp_ok r = false).
    { rewrite Hok. unfold requests_ok.
      destruct (Z.leb_spec 400 (resp_status_code r)); [|lia].
      destruct (Z.ltb_spec (resp_status_code r) 600); [reflexivity|lia]. }
    unfold handleUserQuery. rewrite Hf. cbn.
    destruct (is_speaking (spk w)); cbn;
      destruct (data_sources (cht w)); cbn;
      try destruct (enable_quick_reply (cfg w)); cbn; eauto.
  - assert (Ht : resp_ok r = true).
    { rewrite Hok. unfold requests_ok.
      destruct (Z.leb_spec 400 (resp_status_code r)); [|reflexivity].
      destruct (Z.ltb_spec (resp_status_code r) 600); [lia|reflexivity]. }
    unfold handleUserQuery. rewrite Ht. reflexivity.
Qed.

(** C8. After such an error the history is the prior history followed by
    the new user message: the append is not undone. *)
Theorem handleUserQuery_error_keeps_user_message (user_query : pystr)
    (r : response) (w : state) :
  resp_ok r = false ->
  let res := handleUserQuery json_loads is_decimal user_query (HttpResponse r) w in
  (exists e, how res = Raised e)
  /\ messages (cht (final res))
     = messages (cht w) ++ [Message RUser (JStr user_query)].
Proof.
  intros Hok. apply (handleUserQuery_refused user_query r w Hok).
Qed.

End Refused.

Lemma handleUserQuery_error_yields_nothing_witness :
  let r := Response false 429 (str "Too Many Requests") []
             (List.map as_bytes hello_stream) None in
  let res := handleUserQuery loads_known ascii_digit (str "Hi") (HttpResponse r)
               (ready plain_config) in
  tokens_out res = []
  /\ how res
     = Raised (ChatStatus (str "Chat API response status: 429 Too Many Requests")).
Proof.
  exact (proj1 (handleUserQuery_error_yields_nothing loads_known ascii_digit
                  (str "Hi")
                  (Response false 429 (str "Too Many Requests") []
                     (List.map as_bytes hello_stream) None)
                  (ready plain_config) eq_refl)
           ltac:(cbn; lia)).
Defined.

(** C3, as stated, fails: a 304 is not a 2xx status, the requests library
    reports it as ok, and the five tokens of its stream are yielded. *)
Lemma not_modified_counterexample :
  let r := Response true 304 (str "Not Modified") []
             (List.map as_bytes hello_whole) None in
  let res := handleUserQuery loads_known ascii_digit (str "Hi") (HttpResponse r)
               (ready plain_config) in
  resp_ok r = requests_ok (resp_status_code r)
  /\ how res = Completed
  /\ tokens_out res
     = [ JStr (str "Hello"); JStr (str ","); JStr (str " world");
         JStr (str "."); JStr [10] ].
Proof. vm_compute. repeat split. Qed.

Lemma handleUserQuery_error_keeps_user_message_witness :
  let r := Response false 500 (str "Internal Server Error") [] [] None in
  let res := handleUserQuery loads_known ascii_digit (str "Hi") (HttpResponse r)
               (ready plain_config) in
  (exists e, how res = Raised e)
  /\ messages (cht (final res))
     = [ Message RSystem (JStr (str "You are an assistant."));
         Message RUser (JStr (str "Hi")) ].
Proof.
  exact (handleUserQuery_error_keeps_user_message loads_known ascii_digit
           (str "Hi") (Response false 500 (str "Internal Server Error") [] [] None)
           (ready plain_config) eq_refl).
Defined.

(** ** Settings: who writes them and who reads them *)

Lemma cfg_set_pc (tid : nat) (p : pc) (w : state) :
  cfg (set_pc tid p w) = cfg w.
Proof. unfold set_pc. destruct (threads w !! tid); reflexivity. Qed.

Lemma cfg_speakWithQueue (text : pystr) (ms : Z) (w : state) :
  cfg (speakWithQueue text ms w) = cfg w.
Proof. unfold speakWithQueue. cbn. destruct (is_speaking (spk w)); reflexivity. Qed.

Lemma cfg_step (a : action) (w w' : state) :
  step a w = Some w' -> cfg w' = cfg w.
Proof.
  destruct a as [text ms| |tid|tid res now]; cbn.
  - intros [= <-]. apply cfg_speakWithQueue.
  - intros [= <-]. reflexivity.
  - unfold worker_step. destruct (threads w !! tid) as [t|]; [|discriminate].
    destruct (t_pc t); try discriminate.
    + intros [= <-]. now rewrite cfg_set_pc.
    + destruct (spoken_text_queue (spk w)); intros [= <-]; now rewrite cfg_set_pc.
    + destruct (spoken_text_queue (spk w)); intros [= <-]; now rewrite cfg_set_pc.
    + destruct (speech_synthesizer (spk w)); intros [= <-]; now rewrite cfg_set_pc.
    + intros [= <-]. now rewrite cfg_set_pc.
  - unfold synth_done. destruct (threads w !! tid) as [t|]; [|discriminate].
    destruct (t_pc t); try discriminate.
    destruct (speakSsml res); intros [= <-]; now rewrite cfg_set_pc.
Qed.

Lemma cfg_run (sched : list action) (w w' : state) :
  run sched w = Some w' -> cfg w' = cfg w.
Proof.
  revert w. induction sched as [|a sched IH]; intros w; cbn.
  - now intros [= <-].
  - destruct (step a w) as [w1|] eqn:E; [|discriminate].
    intros H. rewrite (IH _ H). eapply cfg_step, E.
Qed.

Section Readers.

Variable json_loads : pystr -> option json.
Variable is_decimal : N -> bool.

Lemma cfg_enqueue (text : pystr) (g : gen) :
  cfg (world (enqueue text g)) = cfg (world g).
Proof. apply cfg_speakWithQueue. Qed.

Lemma cfg_on_token (t : json) (g : gen) :
  cfg (world (on_token t g)) = cfg (world g).
Proof.
  unfold on_token. destruct t; try reflexivity. cbn [world assistant_reply
    tool_content spoken_sentence yielded].
  repeat match goal with |- context [if ?b then _ else _] => destruct b end;
    try reflexivity; now rewrite cfg_enqueue.
Qed.

Lemma cfg_on_line (ds : bool) (line : pystr) (g : gen) :
  cfg (world (on_line json_loads is_decimal ds line g)) = cfg (world g).
Proof.
  unfold on_line.
  destruct (_ && _); [|reflexivity].
  destruct (json_loads _); [|reflexivity].
  destruct (read_record _ _ _) as [[| |t]|]; try reflexivity.
  apply cfg_on_token.
Qed.

Lemma cfg_on_chunk_string (ds : bool) (cs : pystr) (g : gen) :
  cfg (world (on_chunk_string json_loads is_decimal ds cs g)) = cfg (world g).
Proof.
  unfold on_chunk_string. generalize (Py.split_blank cs). intros ls.
  revert g. induction ls as [|l ls IH]; intros g; cbn; [reflexivity|].
  rewrite IH. apply cfg_on_line.
Qed.

Lemma cfg_consume (ds : bool) (chunks : list bytes) (raises : option pystr)
    (pending : option pystr) (g : gen) :
  cfg (world (fst (consume json_loads is_decimal ds chunks raises pending g)))
  = cfg (world g).
Proof.
  revert pending g. induction chunks as [|c rest IH]; intros pending g.
  - destruct raises, pending; reflexivity.
  - destruct pending as [cs|]; cbn [consume].
    + destruct (Py.decode c) as [s|]; [|reflexivity]. cbv zeta.
      destruct (complete (cs ++ s)); rewrite IH;
        [apply cfg_on_chunk_string|reflexivity].
    + destruct c as [|x c]; [reflexivity|].
      destruct (Py.decode (x :: c)) as [s|]; [|reflexivity].
      destruct (complete s); rewrite IH; [apply cfg_on_chunk_string|reflexivity].
Qed.

Lemma cfg_finish (ds : bool) (g : gen) :
  cfg (finish ds g) = cfg (world g).
Proof.
  unfold finish. destruct (spoken_sentence g); cbn; [reflexivity|].
  apply cfg_speakWithQueue.
Qed.

Lemma handleUserQuery_settings (user_query : pystr) (post : http_result)
    (w : state) :
  let res := handleUserQuery json_loads is_decimal user_query post w in
  cfg (final res) = cfg w
  /\ forall rq, sent res = Some rq ->
       req_url rq = chat_url (cfg w) (0 <? length (data_sources (cht w)))%nat.
Proof.
  cbn zeta. unfold handleUserQuery.
  set (w1 := set_cht _ w).
  set (w2 := if is_speaking (spk w1) then _ else _).
  assert (Hc : cfg w2 = cfg w) by (subst w2 w1; cbn; destruct (is_speaking (spk w)); reflexivity).
  assert (Hd : data_sources (cht w2) = data_sources (cht w))
    by (subst w2 w1; cbn; destruct (is_speaking (spk w)); reflexivity).
  rewrite Hd, Hc.
  destruct ((0 <? length (data_sources (cht w)))%nat) eqn:Hs; cbn [andb].
  - destruct (enable_quick_reply (cfg w)); cbn; [split; [exact Hc|discriminate]|].
    destruct post as [e|r]; cbn; [split; [exact Hc|now intros rq [= <-]]|].
    destruct (resp_ok r); cbn; [|split; [exact Hc|now intros rq [= <-]]].
    pose proof (cfg_consume true (resp_chunks r) (resp_raises r) None
                  (Gen [] (JStr []) [] [] w2)) as Hk.
    destruct (consume _ _ _ _ _ _ _) as [g o]; cbn in Hk.
    destruct o; cbv beta iota; cbn [final sent];
      (split; [|now intros rq [= <-]]); rewrite ?cfg_finish, Hk; exact Hc.
  - destruct post as [e|r]; cbn; [split; [exact Hc|now intros rq [= <-]]|].
    destruct (resp_ok r); cbn; [|split; [exact Hc|now intros rq [= <-]]].
    pose proof (cfg_consume false (resp_chunks r) (resp_raises r) None
                  (Gen [] (JStr []) [] [] w2)) as Hk.
    destruct (consume _ _ _ _ _ _ _) as [g o]; cbn in Hk.
    destruct o; cbv beta iota; cbn [final sent];
      (split; [|now intros rq [= <-]]); rewrite ?cfg_finish, Hk; exact Hc.
Qed.

(** The request of a chat turn, read off the state the turn starts in. *)
Lemma handleUserQuery_sent (user_query : pystr) (post : http_result)
    (w : state) :
  sent (handleUserQuery json_loads is_decimal user_query post w)
  = if (0 <? length (data_sources (cht w)))%nat && enable_quick_reply (cfg w)
    then None
    else Some (ChatRequest
                 (chat_url (cfg w) (0 <? length (data_sources (cht w)))%nat)
                 (if (0 <? length (data_sources (cht w)))%nat
                  then Some (data_sources (cht w)) else None)
                 (messages (cht w) ++ [Message RUser (JStr user_query)])
                 true).
Proof.
  unfold handleUserQuery.
  set (w1 := set_cht _ w).
  set (w2 := if is_speaking (spk w1) then _ else _).
  assert (Hc : cfg w2 = cfg w)
    by (subst w2 w1; cbn; destruct (is_speaking (spk w)); reflexivity).
  assert (Hm : cht w2
               = set_messages
                   (messages (cht w) ++ [Message RUser (JStr user_query)])
                   (cht w))
    by (subst w2 w1; cbn; destruct (is_speaking (spk w)); reflexivity).
  cbv zeta. rewrite Hc, Hm. cbn [data_sources messages set_messages].
  destruct (0 <? length (data_sources (cht w)))%nat;
    destruct (enable_quick_reply (cfg w)); cbn [andb sent];
    try reflexivity.
  - destruct post as [e|r]; [reflexivity|].
    destruct (negb (resp_ok r)); [reflexivity|].
    destruct (consume _ _ _ _ _ _ _) as [g []]; reflexivity.
  - destruct post as [e|r]; [reflexivity|].
    destruct (negb (resp_ok r)); [reflexivity|].
    destruct (consume _ _ _ _ _ _ _) as [g []]; reflexivity.
  - destruct post as [e|r]; [reflexivity|].
    destruct (negb (resp_ok r)); [reflexivity|].
    destruct (consume _ _ _ _ _ _ _) as [g []]; reflexivity.
Qed.

End Readers.

(** A worker that calls [speakText] on the text it popped hands the
    synthesizer the document built from the voice and speaker profile
    stored at the moment of the call and from the silence its closure
    holds. *)
Lemma worker_speak (tid : nat) (t : thread) (text : pystr)
    (y : synthesizer) (w : state) :
  threads w !! tid = Some t ->
  t_pc t = AtSpeakText text ->
  speech_synthesizer (spk w) = Some y ->
  exists w',
    worker_step tid w = Some w'
    /\ spoken_text_queue (spk w') = spoken_text_queue (spk w)
    /\ synth_log w'
       = synth_log w
         ++ [SynthBegin tid
               (speakText_ssml text (tts_voice (cfg w))
                  (personal_voice_speaker_profile_id (cfg w)) (t_silence t))].
Proof.
  intros Ht Hpc Hy. unfold worker_step. rewrite Ht, Hpc, Hy.
  eexists; split; [reflexivity|].
  unfold set_pc. cbn [threads set_synth_log set_spk]. rewrite Ht. cbn. auto.
Qed.

(** ** Clearing the history while speech goes on *)

Lemma set_pc_set_cht (tid : nat) (p : pc) (c : chat) (w : state) :
  set_pc tid p (set_cht c w) = set_cht c (set_pc tid p w).
Proof.
  unfold set_pc. cbn [threads set_cht].
  destruct (threads w !! tid); reflexivity.
Qed.

(** A speech action neither reads nor writes the chat context. *)
Lemma step_set_cht (a : action) (c : chat) (w : state) :
  step a (set_cht c w) = option_map (set_cht c) (step a w).
Proof.
  destruct a as [text ms| |tid|tid res now]; cbn [step option_map].
  - unfold speakWithQueue. cbn. destruct (is_speaking (spk w)); reflexivity.
  - reflexivity.
  - unfold worker_step. cbn [threads set_cht spk cfg synth_log].
    destruct (threads w !! tid) as [t|] eqn:Ht; [|reflexivity].
    destruct (t_pc t); try reflexivity;
      repeat match goal with
             | |- context [match spoken_text_queue (spk w) with _ => _ end] =>
                 destruct (spoken_text_queue (spk w))
             | |- context [match speech_synthesizer (spk w) with _ => _ end] =>
                 destruct (speech_synthesizer (spk w))
             end;
      unfold set_pc; cbn; rewrite Ht; reflexivity.
  - unfold synth_done. cbn [threads set_cht spk cfg synth_log].
    destruct (threads w !! tid) as [t|] eqn:Ht; [|reflexivity].
    destruct (t_pc t); try reflexivity.
    destruct (speakSsml res); unfold set_pc; cbn; rewrite Ht; reflexivity.
Qed.

Lemma cht_set_pc (tid : nat) (p : pc) (w : state) :
  cht (set_pc tid p w) = cht w.
Proof. unfold set_pc. destruct (threads w !! tid); reflexivity. Qed.

Lemma cht_step (a : action) (w w' : state) :
  step a w = Some w' -> cht w' = cht w /\ cfg w' = cfg w.
Proof.
  intros H. split; [|eapply cfg_step, H].
  destruct a as [text ms| |tid|tid res now]; cbn in H.
  - injection H as <-. unfold speakWithQueue. cbn.
    destruct (is_speaking (spk w)); reflexivity.
  - now injection H as <-.
  - unfold worker_step in H. destruct (threads w !! tid) as [t|]; [|discriminate].
    destruct (t_pc t); try discriminate.
    + injection H as <-. now rewrite cht_set_pc.
    + destruct (spoken_text_queue (spk w)); injection H as <-; now rewrite cht_set_pc.
    + destruct (spoken_text_queue (spk w)); injection H as <-; now rewrite cht_set_pc.
    + destruct (speech_synthesizer (spk w)); injection H as <-; now rewrite cht_set_pc.
    + injection H as <-. now rewrite cht_set_pc.
  - unfold synth_done in H. destruct (threads w !! tid) as [t|]; [|discriminate].
    destruct (t_pc t); try discriminate.
    destruct (speakSsml res); injection H as <-; now rewrite cht_set_pc.
Qed.

(** The chat context [clearChatHistory] installs, a function of the
    settings and the header alone. *)
Lemma clearChatHistory_set_cht (h : headers) (w : state) :
  exists c, (forall w', cfg w' = cfg w -> clearChatHistory h w' = set_cht c w').
Proof.
  exists (cht (clearChatHistory h w)). intros w' Hc.
  unfold clearChatHistory, initializeChatContext, set_cht, set_chat_initiated.
  cbn [cfg tok cht spk threads synth_log chat_initiated messages data_sources].
  rewrite Hc. reflexivity.
Qed.

Lemma run_clearChatHistory (h : headers) (sched : list action) (w : state) :
  run sched (clearChatHistory h w)
  = option_map (clearChatHistory h) (run sched w).
Proof.
  revert w. induction sched as [|a sched IH]; intros w; [reflexivity|].
  cbn [run].
  destruct (clearChatHistory_set_cht h w) as (c & Hc).
  rewrite (Hc w eq_refl), step_set_cht.
  destruct (step a w) as [w1|] eqn:E; cbn [option_map]; [|reflexivity].
  destruct (cht_step a w w1 E) as [_ Hcfg].
  rewrite <- (Hc w1 Hcfg). apply IH.
Qed.

(** C10, as the code has it.  Clearing the chat history leaves the speech
    state (queue, [is_speaking], [last_speak_time], synthesizer), the
    tokens, the settings, the started workers and the synthesis log as they
    were.  [initializeChatContext] itself replaces nothing but [messages]
    and [data_sources]; the route writes a third thing, [chat_initiated],
    which it sets.  Speech goes on as it would have: every schedule of
    speech actions runs the same from the cleared state, and ends in the
    state it would have reached, cleared. *)
Theorem clearChatHistory_frame (h : headers) (p : option pystr) (w : state) :
  let w' := clearChatHistory h w in
  let w'' := initializeChatContext p w in
  (spoken_text_queue (spk w') = spoken_text_queue (spk w)
   /\ is_speaking (spk w') = is_speaking (spk w)
   /\ last_speak_time (spk w') = last_speak_time (spk w)
   /\ speech_synthesizer (spk w') = speech_synthesizer (spk w)
   /\ speech_token (tok w') = speech_token (tok w)
   /\ ice_token (tok w') = ice_token (tok w))
  /\ (cfg w' = cfg w /\ threads w' = threads w /\ synth_log w' = synth_log w)
  /\ w' = set_cht (Chat true (messages (cht w')) (data_sources (cht w'))) w
  /\ w'' = set_cht (Chat (chat_initiated (cht w)) (messages (cht w''))
                      (data_sources (cht w''))) w
  /\ (forall sched,
        run sched w' = option_map (clearChatHistory h) (run sched w)).
Proof.
  cbn zeta. repeat apply conj; try reflexivity.
  intros sched. apply run_clearChatHistory.
Qed.

(** C10, as stated, fails: on a process whose chat was not yet initiated
    the clearing also sets [chat_initiated], and this is seen afterwards:
    the first question no longer initialises the chat with the prompt of
    its own request. *)
Lemma clearChatHistory_initiated_counterexample :
  let h : headers := <[ "SystemPrompt"%string := str "Be brief." ]> ∅ in
  let w := idle plain_config in
  let w' := clearChatHistory ∅ w in
  let asked (w0 : state) :=
    option_map req_messages
      (sent (chat_route loads_known ascii_digit h (str "Hi")
               (answer hello_whole) w0)) in
  chat_initiated (cht w) = false
  /\ chat_initiated (cht w') = true
  /\ asked w = Some [ Message RSystem (JStr (str "Be brief."));
                      Message RUser (JStr (str "Hi")) ]
  /\ asked w' = Some [ Message RSystem JNull; Message RUser (JStr (str "Hi")) ].
Proof. vm_compute. repeat split. Qed.

Lemma header_or_overridden (h : headers) (name : string) (old : option pystr) :
  overridden_by (h !! name) old (header_or h name old).
Proof.
  unfold overridden_by, header_or.
  destruct (h !! name) as [[|x v]|]; cbn; repeat split; intros;
    simplify_eq; congruence.
Qed.

(** C7, as stated, fails in both readings of a failed refresh.  An answer
    with an error status replaces the stored token by the error body; a
    request that raises ends the loop, and the request that would have
    succeeded nine minutes later is never made. *)
Lemma refreshSpeechToken_failure_counterexample :
  let w := idle plain_config in
  let denied := Response false 401 (str "Access Denied")
                  (str "Access denied due to invalid subscription key.") []
                  None in
  let fresh := Response true 200 (str "OK") (str "token-1") [] None in
  speech_token (tok w) = Some (str "token-0")
  /\ speech_token (tok (fst (refreshSpeechToken [HttpResponse denied] w)))
     = Some (str "Access denied due to invalid subscription key.")
  /\ refreshSpeechToken [HttpRaised (str "ConnectionError"); HttpResponse fresh] w
     = (w, Died (str "ConnectionError")).
Proof. cbv zeta. repeat split. Qed.

(** ** The chat stream on the five tokens *)

(** C2, on the code.  The five tokens are yielded, and the queue receives
    two entries: the sentence on the period, and an empty text on the
    newline (the flush on a newline token does not look at the buffer). *)
Theorem hello_stream_enqueues_twice :
  let res := handleUserQuery loads_known ascii_digit (str "Hi")
               (answer hello_stream) (ready plain_config) in
  how res = Completed
  /\ tokens_out res
     = [ JStr (str "Hello"); JStr (str ","); JStr (str " world");
         JStr (str "."); JStr [10] ]
  /\ spoken_text_queue (spk (final res)) = [ str "Hello, world."; [] ]
  /\ messages (cht (final res))
     = [ Message RSystem (JStr (str "You are an assistant."));
         Message RUser (JStr (str "Hi"));
         Message RAssistant (JStr (str "Hello, world." ++ [10])) ].
Proof. vm_compute. repeat split. Qed.

(** ** The speech queue under interleaving *)

(** C1, on the code.  [is_speaking] is read by [speakWithQueue] and set by
    the worker it starts, so a second call that comes before the first
    worker's first statement starts a second worker; both then drain the
    queue and their synthesis calls overlap. *)
Theorem back_to_back_starts_two_workers :
  exists w,
    run back_to_back (ready plain_config) = Some w
    /\ active_workers w = 2%nat
    /\ in_flight w = 2%nat
    /\ List.map t_pc (threads w)
       = [ InSpeakText (str "Hello, world."); InSpeakText [] ]
    /\ exists d0 d1, synth_log w = [ SynthBegin 0 d0; SynthBegin 1 d1 ].
Proof.
  eexists. split; [vm_compute; reflexivity|].
  vm_compute. repeat split. eauto.
Qed.

(** ** The chat stream as a list of effects *)

Lemma cht_speakWithQueue (text : pystr) (ms : Z) (w : state) :
  cht (speakWithQueue text ms w) = cht w.
Proof. unfold speakWithQueue. cbn. destruct (is_speaking (spk w)); reflexivity. Qed.

(** A display token is yielded and joins the reply; the tool content and
    the chat history are out of its reach. *)
Lemma on_token_spec (t : json) (g : gen) :
  yielded (on_token t g) = yielded g ++ [t]
  /\ tool_content (on_token t g) = tool_content g
  /\ assistant_reply (on_token t g)
     = assistant_reply g ++ match t with JStr s => s | _ => [] end
  /\ cht (world (on_token t g)) = cht (world g).
Proof.
  unfold on_token, enqueue. destruct t; cbn; rewrite ?app_nil_r; auto.
  repeat match goal with |- context [if ?b then _ else _] => destruct b end;
    cbn; rewrite ?cht_speakWithQueue; auto.
Qed.

Lemma effects_spec (es : list delta_effect) (g : gen) :
  let g' := fold_left (fun g e => apply_effect e g) es g in
  yielded g' = yielded g ++ shown es
  /\ tool_content g' = last_tool es (tool_content g)
  /\ assistant_reply g' = assistant_reply g ++ reply_of es
  /\ cht (world g') = cht (world g).
Proof.
  cbn zeta. revert g. induction es as [|e es IH]; intros g.
  - cbn. rewrite !app_nil_r. auto.
  - cbn [fold_left]. destruct (IH (apply_effect e g)) as (Hy & Ht & Hr & Hc).
    rewrite Hy, Ht, Hr, Hc. clear IH Hy Ht Hr Hc.
    destruct e as [| c | t]; cbn [apply_effect shown last_tool reply_of
      yielded tool_content assistant_reply world]; auto.
    destruct (on_token_spec t g) as (Hy & Ht & Hr & Hc).
    rewrite Hy, Ht, Hr, Hc, <- !app_assoc.
    destruct t; cbn [app]; auto.
Qed.

Section StreamFacts.

Variable json_loads : pystr -> option json.
Variable is_decimal : N -> bool.

Lemma on_line_effect (ds : bool) (line : pystr) (g : gen) :
  on_line json_loads is_decimal ds line g
  = apply_effect (line_effect json_loads is_decimal ds line) g.
Proof.
  unfold on_line, line_effect.
  destruct (_ && _); [|reflexivity].
  destruct (json_loads _); [|reflexivity].
  destruct (read_record _ _ _) as [[| |]|]; reflexivity.
Qed.

Lemma on_lines_effects (ds : bool) (lines : list pystr) (g : gen) :
  fold_left (fun g line => on_line json_loads is_decimal ds line g) lines g
  = fold_left (fun g e => apply_effect e g)
      (List.map (line_effect json_loads is_decimal ds) lines) g.
Proof.
  revert g. induction lines as [|l ls IH]; intros g; cbn; [reflexivity|].
  now rewrite IH, on_line_effect.
Qed.

(** Bytes that are there decode to characters that are there. *)
Lemma decode_cons (b : byte) (bs : bytes) (s : pystr) :
  Py.decode (b :: bs) = Some s -> s <> [].
Proof.
  cbn [Py.decode]. cbv zeta. intros H ->.
  repeat case_match; simplify_eq.
Qed.

(** [stream_strings] follows the loop chunk by chunk. *)
Lemma stream_strings_nil (raises pending : option pystr) :
  stream_strings [] raises pending
  = match raises, pending with
    | None, None => Some []
    | _, _ => None
    end.
Proof. destruct raises, pending; reflexivity. Qed.

Lemma stream_strings_cons (c : bytes) (rest : list bytes)
    (raises pending : option pystr) :
  stream_strings (c :: rest) raises pending
  = match pending with
    | None =>
        match c with
        | [] => None
        | _ :: _ =>
            match Py.decode c with
            | None => None
            | Some chunk_string =>
                if complete chunk_string
                then css <- stream_strings rest raises None ;;
                     Some (chunk_string :: css)
                else stream_strings rest raises (Some chunk_string)
            end
        end
    | Some chunk_string =>
        match Py.decode c with
        | None => None
        | Some s =>
            if complete (chunk_string ++ s)
            then css <- stream_strings rest raises None ;;
                 Some ((chunk_string ++ s) :: css)
            else stream_strings rest raises (Some (chunk_string ++ s))
        end
    end.
Proof.
  unfold stream_strings. destruct raises as [e|].
  - destruct pending; [|destruct c as [|x c]];
      repeat case_match; reflexivity.
  - cbn [mapM]. destruct pending as [cs|].
    + destruct (Py.decode c) as [s|]; cbn; [|reflexivity].
      destruct (mapM Py.decode rest) as [ts|]; cbn;
        destruct (complete (cs ++ s)); reflexivity.
    + destruct c as [|x c].
      * cbn. destruct (mapM Py.decode rest); reflexivity.
      * destruct (Py.decode (x :: c)) as [s|] eqn:E; cbn; [|reflexivity].
        apply decode_cons in E. destruct s as [|y s]; [congruence|].
        destruct (mapM Py.decode rest) as [ts|]; cbn;
          destruct (complete (y :: s)); reflexivity.
Qed.

(** The loop reaches the end of the stream exactly when every chunk
    decodes, the iterator ends, and the chunks assemble into complete
    chunk strings; and then it has run the lines of these strings in
    order. *)
Lemma consume_chunk_strings (ds : bool) (chunks : list bytes)
    (raises pending : option pystr) (g : gen) :
  match stream_strings chunks raises pending with
  | Some css =>
      consume json_loads is_decimal ds chunks raises pending g
      = (fold_left (fun g e => apply_effect e g)
           (stream_effects json_loads is_decimal ds css) g, Completed)
  | None =>
      snd (consume json_loads is_decimal ds chunks raises pending g)
      <> Completed
  end.
Proof.
  revert pending g. induction chunks as [|c rest IH]; intros pending g.
  - rewrite stream_strings_nil. destruct raises, pending; cbn;
      try discriminate; reflexivity.
  - assert (Step : forall cs g,
      match (css <- stream_strings rest raises None ;; Some (cs :: css)) with
      | Some css =>
          consume json_loads is_decimal ds rest raises None
            (on_chunk_string json_loads is_decimal ds cs g)
          = (fold_left (fun g e => apply_effect e g)
               (stream_effects json_loads is_decimal ds css) g, Completed)
      | None =>
          snd (consume json_loads is_decimal ds rest raises None
                 (on_chunk_string json_loads is_decimal ds cs g)) <> Completed
      end).
    { intros cs g0.
      specialize (IH None (on_chunk_string json_loads is_decimal ds cs g0)).
      destruct (stream_strings rest raises None) as [css|]; [|exact IH].
      rewrite IH. unfold stream_effects, on_chunk_string. cbn [List.flat_map].
      now rewrite List.map_app, fold_left_app, on_lines_effects. }
    rewrite stream_strings_cons.
    destruct pending as [cs|]; cbn [consume].
    + destruct (Py.decode c) as [s|]; [|cbn; discriminate]. cbv zeta.
      destruct (complete (cs ++ s)); [apply Step|apply IH].
    + destruct c as [|x c]; [cbn; discriminate|].
      destruct (Py.decode (x :: c)) as [s|]; [|cbn; discriminate].
      destruct (complete s); [apply Step|apply IH].
Qed.

End StreamFacts.

Lemma finish_messages (ds : bool) (g : gen) :
  messages (cht (finish ds g))
  = messages (cht (world g))
    ++ (if ds then [Message RTool (tool_content g)] else [])
    ++ [Message RAssistant (JStr (assistant_reply g))].
Proof.
  unfold finish. destruct (spoken_sentence g); cbn; [reflexivity|].
  now rewrite cht_speakWithQueue.
Qed.

(** ** Tool deltas *)

(** A record whose first choice's first message has a delta with role
    [tool] and a content is read as tool content. *)
Lemma read_record_tool (is_decimal : N -> bool)
    (top choice first delta : list (pystr * json))
    (more_choices more_messages : list json) (c : json) :
  PyJson.assoc (str "choices") top = Some (JArr (JObj choice :: more_choices)) ->
  PyJson.assoc (str "messages") choice
  = Some (JArr (JObj first :: more_messages)) ->
  PyJson.assoc (str "delta") first = Some (JObj delta) ->
  PyJson.assoc (str "role") delta = Some (JStr (str "tool")) ->
  PyJson.assoc (str "content") delta = Some c ->
  read_record is_decimal true (JObj top) = Some (ToolContent c).
Proof.
  intros H1 H2 H3 H4 H5. unfold read_record. cbn in *.
  rewrite H1. cbn. rewrite H2. cbn. rewrite H3. cbn. rewrite H4. cbn.
  rewrite H5. reflexivity.
Qed.

Lemma shown_tool (es1 es2 : list delta_effect) (c : json) :
  shown (es1 ++ ToolContent c :: es2) = shown es1 ++ shown es2.
Proof.
  induction es1 as [|[| |t] es1 IH]; cbn; auto. now rewrite IH.
Qed.

Lemma last_tool_tool (es1 es2 : list delta_effect) (c init : json) :
  last_tool (es1 ++ ToolContent c :: es2) init = last_tool es2 c.
Proof.
  revert init. induction es1 as [|[| |t] es1 IH]; intros init; cbn; auto.
Qed.

(** C4, as the code has it.  In the data-source form (quick replies off,
    as the program has them), a delta with role [tool] and a content is
    read as tool content: it is stored, replacing what an earlier tool
    delta stored, and it is not yielded.  When the stream has been read to
    its end, the history has gained the user message, one tool message
    holding the content of the last tool delta (the empty string when
    there was none), and the assistant message. *)
Theorem tool_deltas_kept_apart (json_loads : pystr -> option json)
    (is_decimal : N -> bool) :
  (forall top choice first delta more_choices more_messages c,
     PyJson.assoc (str "choices") top = Some (JArr (JObj choice :: more_choices)) ->
     PyJson.assoc (str "messages") choice
     = Some (JArr (JObj first :: more_messages)) ->
     PyJson.assoc (str "delta") first = Some (JObj delta) ->
     PyJson.assoc (str "role") delta = Some (JStr (str "tool")) ->
     PyJson.assoc (str "content") delta = Some c ->
     read_record is_decimal true (JObj top) = Some (ToolContent c))
  /\ (forall es1 es2 c init,
        shown (es1 ++ ToolContent c :: es2) = shown es1 ++ shown es2
        /\ last_tool (es1 ++ ToolContent c :: es2) init = last_tool es2 c)
  /\ (forall user_query r w css,
        data_sources (cht w) <> [] ->
        enable_quick_reply (cfg w) = false ->
        resp_ok r = true ->
        stream_strings (resp_chunks r) (resp_raises r) None = Some css ->
        let es := stream_effects json_loads is_decimal true css in
        let res := handleUserQuery json_loads is_decimal user_query
                     (HttpResponse r) w in
        how res = Completed
        /\ tokens_out res = shown es
        /\ messages (cht (final res))
           = messages (cht w)
             ++ [ Message RUser (JStr user_query);
                  Message RTool (last_tool es (JStr []));
                  Message RAssistant (JStr (reply_of es)) ]).
Proof.
  split; [|split].
  - intros. eapply read_record_tool; eauto.
  - intros. split; [apply shown_tool|apply last_tool_tool].
  - intros q r w css Hds Hq Hok Hcs. cbn zeta. unfold handleUserQuery.
    set (w1 := set_cht _ w).
    set (w2 := if is_speaking (spk w1) then _ else _).
    assert (Hc : cfg w2 = cfg w)
      by (subst w2 w1; cbn; destruct (is_speaking (spk w)); reflexivity).
    assert (Hm : cht w2 = set_messages
                   (messages (cht w) ++ [Message RUser (JStr q)]) (cht w))
      by (subst w2 w1; cbn; destruct (is_speaking (spk w)); reflexivity).
    rewrite Hc, Hq, Hok, Hm. cbn [set_messages data_sources].
    destruct (data_sources (cht w)) as [|d ds] eqn:Ed; [congruence|].
    cbn [length Nat.ltb Nat.leb andb negb].
    pose proof (consume_chunk_strings json_loads is_decimal true
                  (resp_chunks r) (resp_raises r) None (Gen [] (JStr []) [] [] w2)) as Hk.
    rewrite Hcs in Hk. rewrite Hk. cbv beta iota. cbn [how tokens_out final].
    destruct (effects_spec (stream_effects json_loads is_decimal true css)
                (Gen [] (JStr []) [] [] w2)) as (Hy & Ht & Hr & Hch).
    cbn zeta in Hy, Ht, Hr, Hch. cbn [yielded tool_content assistant_reply world]
      in Hy, Ht, Hr, Hch.
    rewrite finish_messages, Hy, Ht, Hr, Hch, Hm. cbn [messages set_messages app].
    rewrite <- app_assoc. auto.
Qed.

Lemma tool_deltas_kept_apart_witness :
  let res := handleUserQuery loads_known ascii_digit (str "Hi")
               (answer cited_answer) (ready search_config) in
  how res = Completed
  /\ tokens_out res = [ JStr (str "See .") ]
  /\ messages (cht (final res))
     = [ Message RUser (JStr (str "Hi"));
         Message RTool (JStr (str "cite1"));
         Message RAssistant (JStr (str "See .")) ].
Proof.
  exact (proj2 (proj2 (tool_deltas_kept_apart loads_known ascii_digit))
           (str "Hi") (Response true 200 (str "OK") [] (List.map as_bytes cited_answer) None)
           (ready search_config)
           [ sse (tool_payload (str "cite1"));
             sse (content_payload (str "See [doc1]."));
             done_event ]
           ltac:(discriminate) eq_refl eq_refl eq_refl).
Defined.

(** C4, as stated, fails on a stream with two tool deltas: the tool
    message holds the second content only; the first is not in the
    history. *)
Lemma tool_deltas_counterexample :
  let res := handleUserQuery loads_known ascii_digit (str "Hi")
               (answer two_citations) (ready search_config) in
  how res = Completed
  /\ tokens_out res = []
  /\ messages (cht (final res))
     = [ Message RUser (JStr (str "Hi"));
         Message RTool (JStr (str "cite2"));
         Message RAssistant (JStr []) ]
  /\ Py.contains (str "cite1") (str "cite2") = false.
Proof. vm_compute. repeat split. Qed.

(** ** Substrings of the synthesis document *)

Lemma startswith_app (p s : pystr) : Py.startswith p (p ++ s) = true.
Proof. induction p as [|c p IH]; cbn; [reflexivity|]. now rewrite N.eqb_refl. Qed.

Lemma contains_here (p s : pystr) : Py.contains p (p ++ s) = true.
Proof. destruct (p ++ s) eqn:E; cbn; rewrite <- E, startswith_app; reflexivity. Qed.

Lemma contains_skip (p a s : pystr) :
  Py.contains p s = true -> Py.contains p (a ++ s) = true.
Proof.
  intros H. induction a as [|c a IH]; [exact H|].
  cbn. rewrite IH. apply orb_true_r.
Qed.

(** ** Workers and their silence *)

Lemma contains_between (p before after d : pystr) :
  d = before ++ p ++ after -> Py.contains p d = true.
Proof. intros ->. apply contains_skip, contains_here. Qed.

(** The two templates name the voice and the speaker profile. *)
Lemma ssml_names_voice (text voice : pystr) (profile : option pystr) (ms : Z) :
  Py.contains (str "<voice name='" ++ voice ++ str "'>")
    (speakText_ssml text voice profile ms) = true
  /\ Py.contains
       (str "<mstts:ttsembedding speakerProfileId='" ++ Py.fmt profile
        ++ str "'>")
       (speakText_ssml text voice profile ms) = true.
Proof.
  unfold speakText_ssml. destruct (0 <? ms)%Z; split.
  - eapply (contains_between _ (speak_open ++ nl ++ sp 21)).
    rewrite <- !app_assoc. reflexivity.
  - eapply (contains_between _
              (speak_open ++ nl ++ sp 21 ++ str "<voice name='" ++ voice
               ++ str "'>" ++ nl ++ sp 25)).
    rewrite <- !app_assoc. reflexivity.
  - eapply (contains_between _ (speak_open ++ nl ++ sp 17)).
    rewrite <- !app_assoc. reflexivity.
  - eapply (contains_between _
              (speak_open ++ nl ++ sp 17 ++ str "<voice name='" ++ voice
               ++ str "'>" ++ nl ++ sp 21)).
    rewrite <- !app_assoc. reflexivity.
Qed.

(** C9, as the code has it.  [connectAvatar] rewrites the settings from
    the request headers: the deployment name, the search index name and
    the voice are replaced by a header that is present (with a value) and
    kept otherwise; the custom voice endpoint id and the speaker profile
    id become whatever the header lookup gives, [None] when the header is
    absent.  The stored values then stay as they are through every speech
    action and chat turn.  They are read: the deployment name by the URL
    of every chat request; the voice and the speaker profile id by the
    document of every queued synthesis call; the custom voice endpoint id
    by the synthesizer built in the same call.  The search index name is
    read only when the chat context is initialised again: a chat request
    sends the data sources the chat already had. *)
Theorem connectAvatar_settings (h : headers) (built : bool) (w : state) :
  let c := cfg w in
  let w' := connectAvatar h built w in
  let c' := cfg w' in
  (overridden_by (h !! "AoaiDeploymentName"%string)
     (azure_openai_deployment_name c) (azure_openai_deployment_name c')
   /\ overridden_by (h !! "CognitiveSearchIndexName"%string)
        (cognitive_search_index_name c) (cognitive_search_index_name c')
   /\ overridden_by (h !! "TtsVoice"%string)
        (Some (tts_voice c)) (Some (tts_voice c'))
   /\ custom_voice_endpoint_id c' = h !! "CustomVoiceEndpointId"%string
   /\ personal_voice_speaker_profile_id c'
      = h !! "PersonalVoiceSpeakerProfileId"%string)
  /\ (forall sched w1, run sched w' = Some w1 -> cfg w1 = c')
  /\ (forall json_loads is_decimal user_query post,
        let res := handleUserQuery json_loads is_decimal user_query post w' in
        cfg (final res) = c'
        /\ forall rq, sent res = Some rq ->
             req_url rq
             = Py.fmt (azure_openai_endpoint c) ++ str "/openai/deployments/"
               ++ Py.fmt (azure_openai_deployment_name c')
               ++ (if (0 <? length (data_sources (cht w)))%nat
                   then str "/extensions" else [])
               ++ str "/chat/completions?api-version=2023-06-01-preview"
             /\ req_dataSources rq
                = if (0 <? length (data_sources (cht w)))%nat
                  then Some (data_sources (cht w)) else None)
  /\ (forall p,
        let w1 := initializeChatContext p w' in
        cfg w1 = c'
        /\ List.map ds_indexName (data_sources (cht w1))
           = if search_configured c' then [cognitive_search_index_name c']
             else [])
  /\ (forall w1 tid t text y,
        cfg w1 = c' ->
        threads w1 !! tid = Some t ->
        t_pc t = AtSpeakText text ->
        speech_synthesizer (spk w1) = Some y ->
        exists w2 d,
          worker_step tid w1 = Some w2
          /\ synth_log w2 = synth_log w1 ++ [SynthBegin tid d]
          /\ d = speakText_ssml text (tts_voice c')
                   (personal_voice_speaker_profile_id c') (t_silence t)
          /\ Py.contains (str "<voice name='" ++ tts_voice c' ++ str "'>") d
             = true
          /\ Py.contains
               (str "<mstts:ttsembedding speakerProfileId='"
                ++ Py.fmt (personal_voice_speaker_profile_id c') ++ str "'>")
               d = true)
  /\ (built = true ->
      option_map syn_endpoint_id (speech_synthesizer (spk w'))
      = Some (if Py.truthy (h !! "CustomVoiceEndpointId"%string)
              then h !! "CustomVoiceEndpointId"%string else None)).
Proof.
  cbn zeta.
  assert (Hc : cfg (connectAvatar h built w) = override_config h (cfg w))
    by (unfold connectAvatar; destruct built; reflexivity).
  assert (Hd : cht (connectAvatar h built w) = cht w)
    by (unfold connectAvatar; destruct built; reflexivity).
  rewrite Hc.
  refine (conj (conj _ (conj _ (conj _ (conj _ _))))
            (conj _ (conj _ (conj _ (conj _ _))))).
  - apply header_or_overridden.
  - apply header_or_overridden.
  - unfold overridden_by. cbn.
    destruct (h !! "TtsVoice"%string) as [[|x v]|]; repeat split; intros;
      simplify_eq; congruence.
  - reflexivity.
  - reflexivity.
  - intros sched w1 H. rewrite <- Hc. eapply cfg_run, H.
  - intros jl dig q post. cbv zeta. split.
    + rewrite <- Hc. apply handleUserQuery_settings.
    + intros rq Hs. rewrite handleUserQuery_sent, Hc, Hd in Hs.
      destruct ((0 <? length (data_sources (cht w)))%nat
                && enable_quick_reply (override_config h (cfg w)));
        [discriminate|].
      injection Hs as <-. cbn [req_url req_dataSources]. split; reflexivity.
  - intros p. cbn zeta. split; [exact Hc|].
    unfold initializeChatContext. cbn. rewrite Hc.
    destruct (search_configured _); reflexivity.
  - intros w1 tid t text y Hw Ht Hpc Hy.
    destruct (worker_speak tid t text y w1 Ht Hpc Hy) as (w2 & Hs & _ & Hl).
    exists w2. eexists. split; [exact Hs|]. split; [exact Hl|].
    rewrite Hw. split; [reflexivity|]. apply ssml_names_voice.
  - intros ->. reflexivity.
Qed.

Lemma connectAvatar_settings_witness :
  let h : headers :=
    <[ "TtsVoice"%string := str "en-GB-RyanNeural" ]>
      (<[ "PersonalVoiceSpeakerProfileId"%string := str "profile-7" ]> ∅) in
  let w := set_threads [Thread (AtSpeakText (str "Hi.")) 0]
             (connectAvatar h true (idle plain_config)) in
  exists w2 d,
    worker_step 0 w = Some w2
    /\ synth_log w2 = [SynthBegin 0 d]
    /\ d = speakText_ssml (str "Hi.") (str "en-GB-RyanNeural")
             (Some (str "profile-7")) 0
    /\ Py.contains (str "<voice name='en-GB-RyanNeural'>") d = true
    /\ Py.contains (str "<mstts:ttsembedding speakerProfileId='profile-7'>") d
       = true.
Proof.
  cbv zeta.
  set (h := <[ "TtsVoice"%string := str "en-GB-RyanNeural" ]>
              (<[ "PersonalVoiceSpeakerProfileId"%string := str "profile-7" ]> ∅)
            : headers).
  exact (proj1 (proj2 (proj2 (proj2 (proj2
           (connectAvatar_settings h true (idle plain_config))))))
           (set_threads [Thread (AtSpeakText (str "Hi.")) 0]
              (connectAvatar h true (idle plain_config)))
           0%nat (Thread (AtSpeakText (str "Hi.")) 0) (str "Hi.")
           (Synthesizer (synthesis_endpoint plain_config) None)
           eq_refl eq_refl eq_refl eq_refl).
Defined.

(** C9, as stated, fails for the search index name: after a reconnection
    that names another index, the stored name is the new one, and the next
    request of a chat already initiated still sends the old one. *)
Lemma connectAvatar_index_counterexample :
  let w' := connectAvatar other_index true initiated_search in
  let res := handleUserQuery loads_known ascii_digit (str "Hi")
               (answer hello_whole) w' in
  cognitive_search_index_name (cfg w') = Some (str "other-index")
  /\ option_map (fun rq => option_map (List.map ds_indexName)
                             (req_dataSources rq)) (sent res)
     = Some (Some [Some (str "my-search-index")]).
Proof. vm_compute. split; reflexivity. Qed.


(** ** One worker, undisturbed *)

Lemma set_pc_at (tid : nat) (p : pc) (t : thread) (w : state) :
  threads w !! tid = Some t ->
  threads (set_pc tid p w) !! tid = Some (Thread p (t_silence t))
  /\ cfg (set_pc tid p w) = cfg w
  /\ spk (set_pc tid p w) = spk w
  /\ synth_log (set_pc tid p w) = synth_log w.
Proof.
  intros Ht. unfold set_pc. rewrite Ht. cbn.
  rewrite list_lookup_insert_eq by (eapply lookup_lt_Some, Ht). auto.
Qed.

Lemma worker_test (tid : nat) (ms : Z) (w : state) :
  threads w !! tid = Some (Thread AtLoopTest ms) ->
  exists w',
    worker_step tid w = Some w'
    /\ threads w' !! tid
       = Some (Thread (match spoken_text_queue (spk w) with
                       | [] => AtClear
                       | _ :: _ => AtPop
                       end) ms)
    /\ cfg w' = cfg w /\ spk w' = spk w /\ synth_log w' = synth_log w.
Proof.
  intros Ht. unfold worker_step. rewrite Ht. cbn [t_pc].
  destruct (spoken_text_queue (spk w)); eexists; (split; [reflexivity|]);
    now apply (set_pc_at tid _ _ w Ht).
Qed.

Lemma worker_take (tid : nat) (ms : Z) (text : pystr) (rest : list pystr)
    (w : state) :
  threads w !! tid = Some (Thread AtPop ms) ->
  spoken_text_queue (spk w) = text :: rest ->
  exists w',
    worker_step tid w = Some w'
    /\ threads w' !! tid = Some (Thread (AtSpeakText text) ms)
    /\ cfg w' = cfg w
    /\ spk w' = set_queue rest (spk w)
    /\ synth_log w' = synth_log w.
Proof.
  intros Ht Hq. unfold worker_step. rewrite Ht, Hq. cbn [t_pc t_silence].
  eexists. split; [reflexivity|].
  match goal with |- context [set_pc tid _ ?w0] =>
    now apply (set_pc_at tid _ (Thread AtPop ms) w0 Ht)
  end.
Qed.

Lemma worker_call (tid : nat) (ms : Z) (text : pystr) (y : synthesizer)
    (w : state) :
  threads w !! tid = Some (Thread (AtSpeakText text) ms) ->
  speech_synthesizer (spk w) = Some y ->
  exists w',
    worker_step tid w = Some w'
    /\ threads w' !! tid = Some (Thread (InSpeakText text) ms)
    /\ cfg w' = cfg w
    /\ spk w' = spk w
    /\ synth_log w'
       = synth_log w
         ++ [SynthBegin tid
               (speakText_ssml text (tts_voice (cfg w))
                  (personal_voice_speaker_profile_id (cfg w)) ms)].
Proof.
  intros Ht Hy. unfold worker_step. rewrite Ht, Hy. cbn [t_pc t_silence].
  eexists. split; [reflexivity|].
  match goal with |- context [set_pc tid _ ?w0] =>
    now apply (set_pc_at tid _ (Thread (AtSpeakText text) ms) w0 Ht)
  end.
Qed.

Lemma worker_return (tid : nat) (ms : Z) (text id : pystr)
    (res : synthesis_result) (now : time) (w : state) :
  threads w !! tid = Some (Thread (InSpeakText text) ms) ->
  speakSsml res = inl id ->
  exists w',
    synth_done tid res now w = Some w'
    /\ threads w' !! tid = Some (Thread AtLoopTest ms)
    /\ cfg w' = cfg w
    /\ spk w' = set_last_speak_time (Some now) (spk w)
    /\ synth_log w' = synth_log w ++ [SynthEnd tid].
Proof.
  intros Ht Hid. unfold synth_done. rewrite Ht, Hid. cbn [t_pc].
  eexists. split; [reflexivity|].
  match goal with |- context [set_pc tid _ ?w0] =>
    now apply (set_pc_at tid _ (Thread (InSpeakText text) ms) w0 Ht)
  end.
Qed.

Lemma worker_clear (tid : nat) (ms : Z) (w : state) :
  threads w !! tid = Some (Thread AtClear ms) ->
  exists w',
    worker_step tid w = Some w'
    /\ threads w' !! tid = Some (Thread Finished ms)
    /\ cfg w' = cfg w
    /\ spk w' = set_is_speaking false (spk w)
    /\ synth_log w' = synth_log w.
Proof.
  intros Ht. unfold worker_step. rewrite Ht. cbn [t_pc].
  eexists. split; [reflexivity|].
  match goal with |- context [set_pc tid _ ?w0] =>
    now apply (set_pc_at tid _ (Thread AtClear ms) w0 Ht)
  end.
Qed.

(** X1. A single worker at its loop test, with as many answers as texts in
    the queue and every call returning, speaks the texts in queue order,
    each call ended before the next begins, and ends with the queue empty
    and the flag cleared. *)
Theorem drain_fifo (tid : nat) (ms : Z) (y : synthesizer) (texts : list pystr)
    (answers : list (synthesis_result * time)) (w : state) :
  threads w !! tid = Some (Thread AtLoopTest ms) ->
  spoken_text_queue (spk w) = texts ->
  speech_synthesizer (spk w) = Some y ->
  length answers = length texts ->
  Forall (fun a => returns (fst a)) answers ->
  exists w',
    run (drain tid answers) w = Some w'
    /\ synth_log w'
       = synth_log w
         ++ spoken_log tid (tts_voice (cfg w))
              (personal_voice_speaker_profile_id (cfg w)) ms texts
    /\ spoken_text_queue (spk w') = []
    /\ is_speaking (spk w') = false
    /\ threads w' !! tid = Some (Thread Finished ms).
Proof.
  revert answers w.
  induction texts as [|text texts IH]; intros answers w Ht Hq Hy Hl Hr.
  - destruct answers; [|discriminate].
    destruct (worker_test tid ms w Ht) as (w1 & E1 & Ht1 & Hc1 & Hs1 & Hl1).
    rewrite Hq in Ht1.
    destruct (worker_clear tid ms w1 Ht1) as (w2 & E2 & Ht2 & Hc2 & Hs2 & Hl2).
    exists w2. cbn [drain run step]. rewrite E1, E2.
    rewrite Hl2, Hl1, Hs2, Hs1, app_nil_r.
    cbn [set_is_speaking spoken_text_queue is_speaking]. auto.
  - destruct answers as [|[res now] answers]; [discriminate|].
    injection Hl as Hl. inversion Hr as [|a l [id Hid] Hr']; subst a l.
    cbn [fst] in Hid.
    destruct (worker_test tid ms w Ht) as (w1 & E1 & Ht1 & Hc1 & Hs1 & Hl1).
    rewrite Hq in Ht1.
    destruct (worker_take tid ms text texts w1 Ht1)
      as (w2 & E2 & Ht2 & Hc2 & Hs2 & Hl2); [now rewrite Hs1|].
    destruct (worker_call tid ms text y w2 Ht2)
      as (wc & Ec & Htc & Hcc & Hsc & Hlc); [now rewrite Hs2, Hs1|].
    destruct (worker_return tid ms text id res now wc Htc Hid)
      as (w3 & E3 & Ht3 & Hc3 & Hs3 & Hl3).
    destruct (IH answers w3) as (w' & Hrun & Hlog & Hq' & Hs' & Ht');
      [ exact Ht3 | now rewrite Hs3, Hsc, Hs2 | now rewrite Hs3, Hsc, Hs2, Hs1
      | exact Hl | exact Hr' |].
    exists w'. cbn [drain run step]. rewrite E1, E2, Ec, E3.
    split; [exact Hrun|].
    rewrite Hlog, Hl3, Hlc, Hl2, Hl1, Hc3, Hcc, Hc2, Hc1.
    cbn [spoken_log List.flat_map app]. rewrite <- !app_assoc. auto.
Qed.

Lemma drain_fifo_witness :
  exists w',
    run (drain 0 [(spoken "r1", 1); (spoken "r2", 2)]) draining = Some w'
    /\ synth_log w'
       = spoken_log 0 (str "en-US-JennyMultilingualV2Neural") None 0
           [str "Hello, world."; str "How are you?"]
    /\ spoken_text_queue (spk w') = []
    /\ is_speaking (spk w') = false
    /\ threads w' !! 0%nat = Some (Thread Finished 0).
Proof.
  exact (drain_fifo 0 0 (Synthesizer (synthesis_endpoint plain_config) None)
           [str "Hello, world."; str "How are you?"]
           [(spoken "r1", 1); (spoken "r2", 2)] draining
           eq_refl eq_refl eq_refl eq_refl
           ltac:(repeat constructor; eexists; reflexivity)).
Defined.

(** ** Stopping, and the shape of the stream *)

(** X2. After [stopSpeakingInternal] the next [speakWithQueue] leaves its text
    alone in the queue: nothing queued before the stop is left. *)
Theorem stop_then_enqueue (text : pystr) (ms : Z) (w : state) :
  let w' := speakWithQueue text ms (stopSpeakingInternal w) in
  spoken_text_queue (spk w') = [text]
  /\ threads w'
     = (if is_speaking (spk w) then threads w
        else threads w ++ [Thread AtStart ms])
  /\ synth_log w' = synth_log w.
Proof.
  unfold speakWithQueue, stopSpeakingInternal. cbn.
  destruct (is_speaking (spk w)); auto.
Qed.

Example clean_token_citation :
  clean_token ascii_digit (JStr (str "A[doc1]B ")) = Some (Token (JStr (str "AB"))).
Proof. reflexivity. Qed.

Example clean_token_done :
  clean_token ascii_digit (JStr (str "[DONE]")) = Some NoToken.
Proof. reflexivity. Qed.

Example read_plain_record :
  read_record ascii_digit false (plain_record (str "Hello"))
  = Some (Token (JStr (str "Hello"))).
Proof. reflexivity. Qed.

Example read_tool_record :
  read_record ascii_digit true (tool_record (str "cite1"))
  = Some (ToolContent (JStr (str "cite1"))).
Proof. reflexivity. Qed.

Example read_bad_record :
  read_record ascii_digit false (JObj [(str "error", JStr (str "overloaded"))])
  = None.
Proof. reflexivity. Qed.

(** ** Every schedule: order, accounting, and what a crash leaves *)

Lemma set_pc_fields (tid : nat) (p : pc) (w : state) :
  cfg (set_pc tid p w) = cfg w
  /\ tok (set_pc tid p w) = tok w
  /\ cht (set_pc tid p w) = cht w
  /\ spk (set_pc tid p w) = spk w
  /\ synth_log (set_pc tid p w) = synth_log w.
Proof. unfold set_pc. destruct (threads w !! tid); cbn; auto. Qed.

Ltac set_pc_simpl :=
  repeat match goal with
         | |- context [cfg (set_pc ?i ?p ?w)] =>
             rewrite (proj1 (set_pc_fields i p w))
         | |- context [spk (set_pc ?i ?p ?w)] =>
             rewrite (proj1 (proj2 (proj2 (proj2 (set_pc_fields i p w)))))
         | |- context [synth_log (set_pc ?i ?p ?w)] =>
             rewrite (proj2 (proj2 (proj2 (proj2 (set_pc_fields i p w)))))
         end;
  cbn [cfg spk synth_log set_spk set_synth_log set_threads set_cht
       spoken_text_queue is_speaking speech_synthesizer last_speak_time
       set_queue set_is_speaking set_last_speak_time].

(** Moving worker [tid] moves what it holds and nothing else. *)
Lemma held_set_pc (tid : nat) (p : pc) (t : thread) (w : state) :
  threads w !! tid = Some t ->
  holding t ++ held (set_pc tid p w)
  ≡ₚ holding (Thread p (t_silence t)) ++ held w.
Proof.
  intros Ht. unfold set_pc, held. rewrite Ht. cbn [threads set_threads].
  rewrite <- (take_drop_middle (threads w) tid t Ht) at 2.
  rewrite (insert_take_drop (threads w) tid) by (eapply lookup_lt_Some, Ht).
  rewrite !flat_map_app. cbn [flat_map].
  solve_Permutation.
Qed.

Lemma held_set_pc_quiet (tid : nat) (p : pc) (t : thread) (w : state) :
  threads w !! tid = Some t ->
  holding t = [] ->
  holding (Thread p (t_silence t)) = [] ->
  held (set_pc tid p w) ≡ₚ held w.
Proof.
  intros Ht H1 H2. pose proof (held_set_pc tid p t w Ht) as H.
  now rewrite H1, H2 in H.
Qed.

(** What one action other than a stop does to the queue, to the texts the
    workers hold and to the log: a text joins the queue at the back, or
    the front text leaves it for a worker, or a worker hands the text it
    holds to the synthesizer, or none of these. *)
Lemma step_fifo (a : action) (w w1 : state) (y : synthesizer) :
  is_stop a = false ->
  speech_synthesizer (spk w) = Some y ->
  step a w = Some w1 ->
  exists taken called new,
    spoken_text_queue (spk w) ++ enqueued [a]
    = taken ++ spoken_text_queue (spk w1)
    /\ synth_log w1 = synth_log w ++ new
    /\ Forall2 (document_of (tts_voice (cfg w))
                  (personal_voice_speaker_profile_id (cfg w)))
         called (begun new)
    /\ held w ++ taken ≡ₚ called ++ held w1
    /\ cfg w1 = cfg w
    /\ speech_synthesizer (spk w1) = Some y.
Proof.
  intros Hns Hy Hs.
  destruct a as [text ms| |tid|tid res now]; [| discriminate | |]; cbn in Hs.
  - injection Hs as <-. exists [], [], []. unfold speakWithQueue, held. cbn.
    destruct (is_speaking (spk w)); cbn; rewrite ?flat_map_app, !app_nil_r;
      cbn; rewrite ?app_nil_r; repeat split; auto; constructor.
  - unfold worker_step in Hs.
    destruct (threads w !! tid) as [t|] eqn:Ht; [|discriminate].
    assert (Quiet : forall p w0,
              threads w0 = threads w ->
              holding t = [] -> holding (Thread p (t_silence t)) = [] ->
              held w ≡ₚ [] ++ held (set_pc tid p w0)).
    { intros p w0 Hw0 H1 H2. cbn [app]. apply symmetry.
      change (held w) with (flat_map holding (threads w)). rewrite <- Hw0.
      apply (held_set_pc_quiet tid p t w0); [now rewrite Hw0|exact H1|exact H2]. }
    destruct (t_pc t) eqn:Hpc; try discriminate.
    + injection Hs as <-. exists [], [], []. set_pc_simpl.
      rewrite !app_nil_r. repeat split; auto.
      apply Quiet; [reflexivity| |reflexivity]. unfold holding. now rewrite Hpc.
    + exists [], [], [].
      destruct (spoken_text_queue (spk w)) eqn:Eq; injection Hs as <-;
        set_pc_simpl; rewrite ?Eq, !app_nil_r; repeat split; auto;
        (apply Quiet; [reflexivity| |reflexivity];
         unfold holding; now rewrite Hpc).
    + destruct (spoken_text_queue (spk w)) as [|text rest] eqn:Eq.
      * injection Hs as <-. exists [], [], []. set_pc_simpl.
        rewrite ?Eq, !app_nil_r. repeat split; auto.
        apply Quiet; [reflexivity| |reflexivity]. unfold holding. now rewrite Hpc.
      * injection Hs as <-. exists [text], [], []. set_pc_simpl.
        rewrite !app_nil_r. repeat split; auto.
        pose proof (held_set_pc tid (AtSpeakText text) t
                      (set_spk (set_queue rest (spk w)) w) Ht) as H.
        unfold holding at 1 2 in H. rewrite Hpc in H. cbn [app t_pc] in H.
        rewrite H. cbn [app]. apply symmetry, Permutation_cons_append.
    + rewrite Hy in Hs. injection Hs as <-.
      exists [], [text],
        [SynthBegin tid
           (speakText_ssml text (tts_voice (cfg w))
              (personal_voice_speaker_profile_id (cfg w)) (t_silence t))].
      set_pc_simpl. rewrite !app_nil_r. repeat split; auto.
      * cbn. constructor; [|constructor]. now exists (t_silence t).
      * match goal with |- _ ≡ₚ _ ++ held (set_pc tid ?p ?w0) =>
          pose proof (held_set_pc tid p t w0 Ht) as H
        end.
        unfold holding at 1 2 in H. rewrite Hpc in H. cbn [app t_pc] in H.
        cbn [app]. exact (symmetry H).
    + injection Hs as <-. exists [], [], []. set_pc_simpl.
      rewrite !app_nil_r. repeat split; auto.
      apply Quiet; [reflexivity| |reflexivity]. unfold holding. now rewrite Hpc.
  - unfold synth_done in Hs.
    destruct (threads w !! tid) as [t|] eqn:Ht; [|discriminate].
    destruct (t_pc t) eqn:Hpc; try discriminate.
    exists [], [], [SynthEnd tid].
    destruct (speakSsml res); injection Hs as <-; set_pc_simpl;
      rewrite ?app_nil_r; repeat split; auto; try constructor;
      (cbn [app]; apply symmetry;
       match goal with |- held (set_pc tid ?p ?w0) ≡ₚ _ =>
         apply (held_set_pc_quiet tid p t w0);
           [exact Ht|unfold holding; now rewrite Hpc|reflexivity]
       end).
Qed.

Lemma enqueued_cons (a : action) (sched : list action) :
  enqueued (a :: sched) = enqueued [a] ++ enqueued sched.
Proof. destruct a; reflexivity. Qed.

Lemma begun_app (l1 l2 : list event) : begun (l1 ++ l2) = begun l1 ++ begun l2.
Proof.
  induction l1 as [|[tid d|tid] l1 IH]; cbn; [reflexivity| |exact IH].
  now rewrite IH.
Qed.

(** X4. Whatever the interleaving and however many workers there are, as
    long as nobody stops and a synthesizer is connected, the texts leave
    the queue in the order they were enqueued, none skipped, and each text
    taken is handed to the synthesizer exactly once or is still held by
    the worker that took it: what was queued and then enqueued is what
    has been taken followed by what is still queued, and the texts held at
    the start together with those taken are, up to order, those of the
    calls begun together with those held at the end.  (With two workers
    the calls need not begin in the order of the pops.) *)
Theorem fifo_any_schedule (sched : list action) (w w' : state) :
  never_stops sched = true ->
  speech_synthesizer (spk w) <> None ->
  run sched w = Some w' ->
  exists taken called new,
    spoken_text_queue (spk w) ++ enqueued sched
    = taken ++ spoken_text_queue (spk w')
    /\ synth_log w' = synth_log w ++ new
    /\ Forall2 (document_of (tts_voice (cfg w))
                  (personal_voice_speaker_profile_id (cfg w)))
         called (begun new)
    /\ held w ++ taken ≡ₚ called ++ held w'.
Proof.
  revert w. induction sched as [|a sched IH]; intros w Hns Hy Hrun.
  - injection Hrun as <-. exists [], [], []. cbn. rewrite !app_nil_r.
    repeat split; [constructor|reflexivity].
  - cbn in Hns. apply andb_true_iff in Hns as [Ha Hns].
    apply negb_true_iff in Ha.
    cbn [run] in Hrun. destruct (step a w) as [w1|] eqn:Es; [|discriminate].
    destruct (speech_synthesizer (spk w)) as [y|] eqn:Ey; [|congruence].
    destruct (step_fifo a w w1 y Ha Ey Es)
      as (t1 & c1 & n1 & Hq1 & Hl1 & Hd1 & Hp1 & Hc1 & Hy1).
    destruct (IH w1 Hns) as (t2 & c2 & n2 & Hq2 & Hl2 & Hd2 & Hp2);
      [congruence|exact Hrun|].
    exists (t1 ++ t2), (c1 ++ c2), (n1 ++ n2). split; [|split; [|split]].
    + rewrite enqueued_cons, app_assoc, Hq1, <- app_assoc, Hq2.
      now rewrite app_assoc.
    + rewrite Hl2, Hl1. now rewrite app_assoc.
    + rewrite begun_app. apply Forall2_app; [exact Hd1|]. now rewrite <- Hc1.
    + rewrite app_assoc, Hp1, <- !app_assoc. now rewrite Hp2.
Qed.

Lemma fifo_any_schedule_witness :
  exists w' taken called new,
    run back_to_back (ready plain_config) = Some w'
    /\ [] ++ [str "Hello, world."; []] = taken ++ spoken_text_queue (spk w')
    /\ synth_log w' = synth_log (ready plain_config) ++ new
    /\ Forall2 (document_of (str "en-US-JennyMultilingualV2Neural") None)
         called (begun new)
    /\ held (ready plain_config) ++ taken ≡ₚ called ++ held w'.
Proof.
  destruct (run back_to_back (ready plain_config)) as [w'|] eqn:E;
    [|vm_compute in E; discriminate].
  destruct (fifo_any_schedule back_to_back (ready plain_config) w' eq_refl
              ltac:(discriminate) E) as (taken & called & new & H).
  exists w', taken, called, new. split; [reflexivity|exact H].
Defined.

Lemma begins_of_snoc (tid : nat) (l : list event) (e : event) :
  begins_of tid (l ++ [e])
  = (begins_of tid l + (if is_begin_of tid e then 1 else 0))%nat.
Proof.
  unfold begins_of. rewrite List.filter_app, length_app. cbn.
  destruct (is_begin_of tid e); reflexivity.
Qed.

Lemma ends_of_snoc (tid : nat) (l : list event) (e : event) :
  ends_of tid (l ++ [e])
  = (ends_of tid l + (if is_end_of tid e then 1 else 0))%nat.
Proof.
  unfold ends_of. rewrite List.filter_app, length_app. cbn.
  destruct (is_end_of tid e); reflexivity.
Qed.

Lemma begun_ended_snoc (l : list event) (e : event) :
  length (begun (l ++ [e]))
  = (length (begun l) + match e with SynthBegin _ _ => 1 | SynthEnd _ => 0 end)%nat
  /\ ended (l ++ [e])
     = (ended l + match e with SynthBegin _ _ => 0 | SynthEnd _ => 1 end)%nat.
Proof.
  induction l as [|[t d|t] l [IH1 IH2]]; cbn.
  - destruct e; auto.
  - rewrite IH1, IH2. auto.
  - rewrite IH1, IH2. auto.
Qed.

Lemma speaking_now_set_pc (tid tid' : nat) (p : pc) (t : thread) (w : state) :
  threads w !! tid' = Some t ->
  speaking_now tid (set_pc tid' p w)
  = if Nat.eqb tid tid' then in_call p else speaking_now tid w.
Proof.
  intros Ht. unfold speaking_now, set_pc. rewrite Ht. cbn [threads set_threads].
  destruct (Nat.eqb_spec tid tid') as [->|Hne].
  - rewrite list_lookup_insert_eq by (eapply lookup_lt_Some, Ht).
    destruct p; reflexivity.
  - rewrite list_lookup_insert_ne by congruence. reflexivity.
Qed.

Lemma filter_insert_length {A : Type} (f : A -> bool) (l : list A) (i : nat)
    (x y : A) :
  l !! i = Some x ->
  (length (List.filter f (<[i := y]> l)) + (if f x then 1 else 0)
   = length (List.filter f l) + (if f y then 1 else 0))%nat.
Proof.
  revert i. induction l as [|a l IH]; intros i Hi; [discriminate|].
  destruct i as [|i]; cbn in Hi |- *.
  - injection Hi as ->. destruct (f x), (f y); cbn; lia.
  - specialize (IH i Hi). revert IH.
    destruct (f a), (f x), (f y); cbn; intros IH;
      first [exact IH | exact (f_equal S IH)].
Qed.

Lemma in_flight_set_pc (tid : nat) (p : pc) (t : thread) (w : state) :
  threads w !! tid = Some t ->
  (in_flight (set_pc tid p w) + in_call (t_pc t) = in_flight w + in_call p)%nat.
Proof.
  intros Ht. unfold in_flight, set_pc. rewrite Ht. cbn [threads set_threads].
  pose proof (filter_insert_length is_in_flight (threads w) tid t
                (Thread p (t_silence t)) Ht) as H.
  replace (if is_in_flight t then 1%nat else 0%nat) with (in_call (t_pc t)) in H
    by (unfold is_in_flight; destruct (t_pc t); reflexivity).
  replace (if is_in_flight (Thread p (t_silence t)) then 1%nat else 0%nat)
    with (in_call p) in H by (destruct p; reflexivity).
  exact H.
Qed.

Lemma speaking_now_at (tid : nat) (t : thread) (w : state) :
  threads w !! tid = Some t -> speaking_now tid w = in_call (t_pc t).
Proof.
  intros Ht. unfold speaking_now, is_in_flight. rewrite Ht.
  destruct (t_pc t); reflexivity.
Qed.

(** A worker's move that leaves the log alone and neither enters nor
    leaves the synthesis call keeps the accounts. *)
Lemma accounted_quiet_move (tid : nat) (p : pc) (t : thread) (w w0 : state) :
  accounted w ->
  threads w !! tid = Some t ->
  threads w0 = threads w ->
  synth_log w0 = synth_log w ->
  in_call (t_pc t) = 0%nat ->
  in_call p = 0%nat ->
  accounted (set_pc tid p w0).
Proof.
  intros [Hb Ht] Hl Hth Hlog H0 Hp.
  assert (Hl0 : threads w0 !! tid = Some t) by now rewrite Hth.
  split.
  - intros i. rewrite (speaking_now_set_pc i tid p t w0 Hl0).
    rewrite (proj2 (proj2 (proj2 (proj2 (set_pc_fields tid p w0))))), Hlog.
    rewrite (Hb i). destruct (Nat.eqb_spec i tid) as [->|_].
    + rewrite (speaking_now_at tid t w Hl). lia.
    + unfold speaking_now. now rewrite Hth.
  - rewrite (proj2 (proj2 (proj2 (proj2 (set_pc_fields tid p w0))))), Hlog, Ht.
    pose proof (in_flight_set_pc tid p t w0 Hl0) as H.
    assert (in_flight w0 = in_flight w) by (unfold in_flight; now rewrite Hth).
    lia.
Qed.

Lemma accounted_step (a : action) (w w' : state) :
  accounted w -> step a w = Some w' -> accounted w'.
Proof.
  intros Hacc Hs. destruct a as [text ms| |tid|tid res now]; cbn in Hs.
  - injection Hs as <-. destruct Hacc as [Hb Ht].
    unfold speakWithQueue. cbn [spk set_spk is_speaking set_queue].
    destruct (is_speaking (spk w)); [split; assumption|].
    split.
    + intros i. cbn [synth_log set_threads set_spk]. rewrite (Hb i). f_equal.
      unfold speaking_now. cbn [threads set_threads set_spk].
      destruct (lt_dec i (length (threads w))) as [Hlt|Hge].
      * now rewrite lookup_app_l.
      * rewrite lookup_app_r by lia.
        rewrite (proj2 (lookup_ge_None (threads w) i)) by lia.
        destruct (i - length (threads w))%nat as [|[|k]]; reflexivity.
    + cbn [synth_log set_threads set_spk]. rewrite Ht. unfold in_flight.
      cbn [threads set_threads set_spk].
      rewrite List.filter_app, length_app. cbn. lia.
  - injection Hs as <-. exact Hacc.
  - unfold worker_step in Hs.
    destruct (threads w !! tid) as [t|] eqn:Et; [|discriminate].
    destruct (t_pc t) eqn:Ep; try discriminate.
    + injection Hs as <-.
      eapply accounted_quiet_move; eauto; now rewrite ?Ep.
    + destruct (spoken_text_queue (spk w)); injection Hs as <-;
        eapply accounted_quiet_move; eauto; now rewrite ?Ep.
    + destruct (spoken_text_queue (spk w)) as [|text' rest]; injection Hs as <-;
        eapply accounted_quiet_move; eauto; now rewrite ?Ep.
    + destruct (speech_synthesizer (spk w)).
      2:{ injection Hs as <-.
          eapply accounted_quiet_move; eauto; now rewrite ?Ep. }
      injection Hs as <-. destruct Hacc as [Hb Ht].
      match goal with |- accounted (set_pc tid ?p ?w0) =>
        assert (Hl0 : threads w0 !! tid = Some t) by exact Et;
        pose proof (in_flight_set_pc tid p t w0 Hl0) as Hin;
        split; [intros i; rewrite (speaking_now_set_pc i tid p t w0 Hl0)|]
      end.
      * set_pc_simpl. rewrite begins_of_snoc, ends_of_snoc. cbn.
        rewrite (Hb i). destruct (Nat.eqb_spec i tid) as [->|Hne].
        -- rewrite (speaking_now_at tid t w Et), Ep, Nat.eqb_refl. cbn. lia.
        -- rewrite (proj2 (Nat.eqb_neq tid i)) by congruence.
           unfold speaking_now. cbn [threads set_synth_log set_spk]. lia.
      * set_pc_simpl. rewrite (proj1 (begun_ended_snoc _ _)),
          (proj2 (begun_ended_snoc _ _)), Ht.
        rewrite Ep in Hin. cbn [in_call] in Hin.
        match type of Hin with
        | (_ + _ = in_flight ?w0 + _)%nat =>
            change (in_flight w0) with (in_flight w) in Hin
        end.
        lia.
    + injection Hs as <-.
      eapply accounted_quiet_move; eauto; now rewrite ?Ep.
  - unfold synth_done in Hs.
    destruct (threads w !! tid) as [t|] eqn:Et; [|discriminate].
    destruct (t_pc t) eqn:Ep; try discriminate.
    destruct Hacc as [Hb Ht].
    assert (Hgen : forall p w0,
              in_call p = 0%nat ->
              threads w0 = threads w ->
              synth_log w0 = synth_log w ++ [SynthEnd tid] ->
              accounted (set_pc tid p w0)).
    { intros p w0 Hp Hth Hlog.
      assert (Hl0 : threads w0 !! tid = Some t) by now rewrite Hth.
      pose proof (in_flight_set_pc tid p t w0 Hl0) as Hin.
      assert (in_flight w0 = in_flight w) by (unfold in_flight; now rewrite Hth).
      rewrite Ep in Hin. cbn in Hin.
      split.
      - intros i. rewrite (speaking_now_set_pc i tid p t w0 Hl0).
        rewrite (proj2 (proj2 (proj2 (proj2 (set_pc_fields tid p w0))))), Hlog.
        rewrite begins_of_snoc, ends_of_snoc. cbn. rewrite (Hb i).
        destruct (Nat.eqb_spec i tid) as [->|Hne].
        + rewrite (speaking_now_at tid t w Et), Ep, Nat.eqb_refl. cbn. lia.
        + rewrite (proj2 (Nat.eqb_neq tid i)) by congruence.
          unfold speaking_now. rewrite Hth. lia.
      - rewrite (proj2 (proj2 (proj2 (proj2 (set_pc_fields tid p w0))))), Hlog.
        rewrite (proj1 (begun_ended_snoc _ _)), (proj2 (begun_ended_snoc _ _)), Ht.
        lia. }
    destruct (speakSsml res); injection Hs as <-; apply Hgen; reflexivity.
Qed.

(** X5. In every execution the log accounts for the workers: each worker
    has begun as many synthesis calls as it has ended, plus one exactly
    when it is inside [speakText] (so one worker never has two calls in
    flight), and the calls in flight in total are as many as the workers
    inside [speakText]. *)
Theorem calls_in_flight (sched : list action) (w w' : state) :
  accounted w -> run sched w = Some w' -> accounted w'.
Proof.
  revert w. induction sched as [|a sched IH]; intros w Hacc Hrun.
  - now injection Hrun as <-.
  - cbn [run] in Hrun. destruct (step a w) as [w1|] eqn:Es; [|discriminate].
    eapply IH; [|exact Hrun]. eapply accounted_step; eauto.
Qed.

Lemma accounted_fresh (w : state) :
  threads w = [] -> synth_log w = [] -> accounted w.
Proof.
  intros Hth Hlog. split.
  - intros tid. unfold speaking_now. rewrite Hth, Hlog. reflexivity.
  - unfold in_flight. rewrite Hth, Hlog. reflexivity.
Qed.

Lemma calls_in_flight_witness :
  exists w',
    run back_to_back (ready plain_config) = Some w'
    /\ accounted w'.
Proof.
  destruct (run back_to_back (ready plain_config)) as [w'|] eqn:E;
    [|vm_compute in E; discriminate].
  exists w'. split; [reflexivity|].
  exact (calls_in_flight back_to_back (ready plain_config) w'
           (accounted_fresh (ready plain_config) eq_refl eq_refl) E).
Defined.

Lemma stuck_step (a : action) (w w' : state) :
  stuck w -> step a w = Some w' ->
  stuck w' /\ synth_log w' = synth_log w /\ threads w' = threads w.
Proof.
  intros [Hsp Hth] Hs. destruct a as [text ms| |tid|tid res now]; cbn in Hs.
  - injection Hs as <-. unfold speakWithQueue, stuck.
    cbn [spk set_spk is_speaking set_queue]. rewrite Hsp. cbn. auto.
  - injection Hs as <-. unfold stuck. cbn. auto.
  - unfold worker_step in Hs.
    destruct (threads w !! tid) as [t|] eqn:Et; [|discriminate].
    pose proof (proj1 (Forall_lookup _ _) Hth tid t Et) as Hin.
    unfold is_active in Hin. destruct (t_pc t); discriminate.
  - unfold synth_done in Hs.
    destruct (threads w !! tid) as [t|] eqn:Et; [|discriminate].
    pose proof (proj1 (Forall_lookup _ _) Hth tid t Et) as Hin.
    unfold is_active in Hin. destruct (t_pc t); discriminate.
Qed.

(** Once [is_speaking] is set and no worker is left, nothing is ever
    spoken again: no schedule begins a synthesis call or starts a worker. *)
Lemma stuck_run (sched : list action) (w w' : state) :
  stuck w -> run sched w = Some w' ->
  stuck w' /\ synth_log w' = synth_log w /\ threads w' = threads w.
Proof.
  revert w. induction sched as [|a sched IH]; intros w Hst Hrun.
  - injection Hrun as <-. auto.
  - cbn [run] in Hrun. destruct (step a w) as [w1|] eqn:Es; [|discriminate].
    destruct (stuck_step a w w1 Hst Es) as (Hst1 & Hl1 & Ht1).
    destruct (IH w1 Hst1 Hrun) as (Hst' & Hl' & Ht').
    split; [exact Hst'|split; congruence].
Qed.

Lemma stuck_after_crash (tid : nat) (t : thread) (w w0 : state) :
  only_worker tid w ->
  threads w !! tid = Some t ->
  threads w0 = threads w ->
  is_speaking (spk w0) = true ->
  stuck (set_pc tid Crashed w0).
Proof.
  intros Ho Ht Hth Hsp. split.
  - now rewrite (proj1 (proj2 (proj2 (proj2 (set_pc_fields tid Crashed w0))))).
  - apply Forall_lookup. intros j u Hj.
    unfold set_pc in Hj. rewrite Hth, Ht in Hj. cbn [threads set_threads] in Hj.
    destruct (decide (j = tid)) as [->|Hne].
    + rewrite list_lookup_insert_eq in Hj by (eapply lookup_lt_Some, Ht).
      now injection Hj as <-.
    + rewrite list_lookup_insert_ne in Hj by congruence. eapply Ho; eauto.
Qed.

(** X6. A synthesis call canceled with an error ends its worker without
    clearing [is_speaking].  When that worker was the only one, the flag
    stays set for good: whatever is enqueued or stopped afterwards, no
    worker is started and no synthesis call is begun again. *)
Theorem canceled_call_silences_queue (tid : nat) (t : thread) (text e : pystr)
    (res : synthesis_result) (now : time) (sched : list action) (w w' : state) :
  threads w !! tid = Some t ->
  t_pc t = InSpeakText text ->
  only_worker tid w ->
  is_speaking (spk w) = true ->
  speakSsml res = inr e ->
  run (SynthDone tid res now :: sched) w = Some w' ->
  synth_log w' = synth_log w ++ [SynthEnd tid]
  /\ is_speaking (spk w') = true
  /\ threads w' = <[tid := Thread Crashed (t_silence t)]> (threads w).
Proof.
  intros Ht Hpc Ho Hsp He Hrun. cbn [run step] in Hrun.
  unfold synth_done in Hrun. rewrite Ht, Hpc, He in Hrun.
  cbv beta iota in Hrun.
  match type of Hrun with
  | run sched (set_pc tid Crashed ?w0) = _ =>
      assert (Hst : stuck (set_pc tid Crashed w0))
        by (apply (stuck_after_crash tid t w w0); auto);
      destruct (stuck_run sched (set_pc tid Crashed w0) w' Hst Hrun)
        as ([Hsp' _] & Hl' & Ht')
  end.
  split; [|split].
  - rewrite Hl'. now set_pc_simpl.
  - exact Hsp'.
  - rewrite Ht'. unfold set_pc. cbn [threads set_synth_log]. rewrite Ht.
    reflexivity.
Qed.

Lemma only_worker_single (t : thread) (w : state) :
  threads w = [t] -> only_worker 0 w.
Proof.
  intros Hth j u Hne Hj. rewrite Hth in Hj.
  destruct j as [|j]; [congruence|]. destruct j; discriminate.
Qed.

Lemma canceled_call_silences_queue_witness :
  exists w',
    run [ SynthDone 0 engine_error 5; Enqueue (str "Are you there?") 0;
          Stop; Enqueue (str "Hello again.") 0 ] one_speaking = Some w'
    /\ synth_log w' = [SynthEnd 0]
    /\ is_speaking (spk w') = true
    /\ threads w' = [Thread Crashed 0].
Proof.
  destruct (run [ SynthDone 0 engine_error 5; Enqueue (str "Are you there?") 0;
                  Stop; Enqueue (str "Hello again.") 0 ] one_speaking)
    as [w'|] eqn:E; [|vm_compute in E; discriminate].
  exists w'. split; [reflexivity|].
  exact (canceled_call_silences_queue 0 (Thread (InSpeakText (str "Hello.")) 0)
           (str "Hello.") (str "Connection was closed by the remote host.")
           engine_error 5
           [Enqueue (str "Are you there?") 0; Stop; Enqueue (str "Hello again.") 0]
           one_speaking w' eq_refl eq_refl
           (only_worker_single _ one_speaking eq_refl) eq_refl eq_refl E).
Defined.

(** X7. A stop that lands between a worker's loop test and its pop empties
    the queue under it: the pop fails and the worker ends without clearing
    [is_speaking].  When that worker was the only one, no worker is started
    and no synthesis call is begun again. *)
Theorem stop_before_pop_ends_worker (tid : nat) (t : thread)
    (sched : list action) (w w' : state) :
  threads w !! tid = Some t ->
  t_pc t = AtPop ->
  only_worker tid w ->
  is_speaking (spk w) = true ->
  run (Stop :: Run tid :: sched) w = Some w' ->
  synth_log w' = synth_log w
  /\ is_speaking (spk w') = true
  /\ threads w' = <[tid := Thread Crashed (t_silence t)]> (threads w).
Proof.
  intros Ht Hpc Ho Hsp Hrun. cbn [run step] in Hrun.
  unfold worker_step, stopSpeakingInternal in Hrun.
  cbn [threads set_spk spk set_queue spoken_text_queue] in Hrun.
  rewrite Ht, Hpc in Hrun. cbv beta iota in Hrun.
  match type of Hrun with
  | run sched (set_pc tid Crashed ?w0) = _ =>
      assert (Hst : stuck (set_pc tid Crashed w0))
        by (apply (stuck_after_crash tid t w w0); auto);
      destruct (stuck_run sched (set_pc tid Crashed w0) w' Hst Hrun)
        as ([Hsp' _] & Hl' & Ht')
  end.
  split; [|split].
  - rewrite Hl'. now set_pc_simpl.
  - exact Hsp'.
  - rewrite Ht'. unfold set_pc. cbn [threads set_spk]. rewrite Ht. reflexivity.
Qed.

Lemma stop_before_pop_ends_worker_witness :
  exists w',
    run [Stop; Run 0; Enqueue (str "Hello again.") 0] one_about_to_pop = Some w'
    /\ synth_log w' = []
    /\ is_speaking (spk w') = true
    /\ threads w' = [Thread Crashed 0].
Proof.
  destruct (run [Stop; Run 0; Enqueue (str "Hello again.") 0] one_about_to_pop)
    as [w'|] eqn:E; [|vm_compute in E; discriminate].
  exists w'. split; [reflexivity|].
  exact (stop_before_pop_ends_worker 0 (Thread AtPop 0)
           [Enqueue (str "Hello again.") 0] one_about_to_pop w' eq_refl eq_refl
           (only_worker_single _ one_about_to_pop eq_refl) eq_refl E).
Defined.

Lemma step_last_speak_time (a : action) (w w' : state) :
  step a w = Some w' ->
  last_speak_time (spk w') = last_return [a] (last_speak_time (spk w)).
Proof.
  intros Hs. destruct a as [text ms| |tid|tid res now]; cbn in Hs.
  - injection Hs as <-. unfold speakWithQueue.
    cbn [spk set_spk is_speaking set_queue].
    destruct (is_speaking (spk w)); reflexivity.
  - injection Hs as <-. reflexivity.
  - unfold worker_step in Hs.
    destruct (threads w !! tid) as [t|]; [|discriminate].
    destruct (t_pc t); try discriminate;
      repeat match type of Hs with
             | context [match spoken_text_queue (spk w) with _ => _ end] =>
                 destruct (spoken_text_queue (spk w))
             | context [match speech_synthesizer (spk w) with _ => _ end] =>
                 destruct (speech_synthesizer (spk w))
             end;
      injection Hs as <-; now set_pc_simpl.
  - unfold synth_done in Hs.
    destruct (threads w !! tid) as [t|]; [|discriminate].
    destruct (t_pc t); try discriminate.
    cbn [last_return]. destruct (speakSsml res); injection Hs as <-;
      now set_pc_simpl.
Qed.

Lemma last_return_cons (a : action) (sched : list action) (init : option time) :
  last_return (a :: sched) init = last_return sched (last_return [a] init).
Proof. destruct a; reflexivity. Qed.

(** X8. [last_speak_time] is the time at which the last synthesis call
    that returned did so: a call canceled with an error, an enqueue or a
    stop leaves it as it was. *)
Theorem last_speak_time_is_last_return (sched : list action) (w w' : state) :
  run sched w = Some w' ->
  last_speak_time (spk w') = last_return sched (last_speak_time (spk w)).
Proof.
  revert w. induction sched as [|a sched IH]; intros w Hrun.
  - now injection Hrun as <-.
  - cbn [run] in Hrun. destruct (step a w) as [w1|] eqn:Es; [|discriminate].
    rewrite last_return_cons, <- (step_last_speak_time a w w1 Es).
    now apply IH.
Qed.

Lemma last_speak_time_is_last_return_witness :
  exists w',
    run silence_inherited (ready plain_config) = Some w'
    /\ last_speak_time (spk w') = Some 1.
Proof.
  destruct (run silence_inherited (ready plain_config)) as [w'|] eqn:E;
    [|vm_compute in E; discriminate].
  exists w'. split; [reflexivity|].
  exact (last_speak_time_is_last_return silence_inherited (ready plain_config) w' E).
Defined.

(** ** Trimming *)

Lemma lstrip_starts_unspaced (s : pystr) : starts_unspaced (Py.lstrip s).
Proof.
  induction s as [|c s IH]; cbn; [exact I|].
  destruct (Py.isspace c) eqn:E; [exact IH|exact E].
Qed.

Lemma lstrip_fixed (s : pystr) : starts_unspaced s -> Py.lstrip s = s.
Proof. destruct s as [|c s]; cbn; [reflexivity|]. now intros ->. Qed.

Lemma lstrip_snoc (s : pystr) (c : N) :
  Py.isspace c = false -> Py.lstrip (s ++ [c]) = Py.lstrip s ++ [c].
Proof.
  intros Hc. induction s as [|x s IH]; cbn; [now rewrite Hc|].
  destruct (Py.isspace x); [exact IH|reflexivity].
Qed.

Lemma rstrip_cons (c : N) (s : pystr) :
  Py.isspace c = false -> Py.rstrip (c :: s) = c :: Py.rstrip s.
Proof.
  intros Hc. unfold Py.rstrip. cbn [rev].
  rewrite lstrip_snoc by exact Hc. rewrite rev_app_distr. reflexivity.
Qed.

Lemma rstrip_idempotent (s : pystr) : Py.rstrip (Py.rstrip s) = Py.rstrip s.
Proof.
  unfold Py.rstrip. rewrite rev_involutive.
  now rewrite (lstrip_fixed _ (lstrip_starts_unspaced (rev s))).
Qed.

(** [strip()] is idempotent: what it returns has no whitespace left at
    either end. *)
Lemma strip_stripped (s : pystr) : is_stripped (Py.strip s).
Proof.
  unfold is_stripped, Py.strip.
  pose proof (lstrip_starts_unspaced s) as H.
  destruct (Py.lstrip s) as [|c t]; [reflexivity|]. cbn in H.
  rewrite (rstrip_cons c t H).
  rewrite (lstrip_fixed (c :: Py.rstrip t) H).
  rewrite (rstrip_cons c _ H). now rewrite rstrip_idempotent.
Qed.

Lemma unspaced_app (a b : pystr) : unspaced (a ++ b) = unspaced a ++ unspaced b.
Proof. apply List.filter_app. Qed.

Lemma unspaced_lstrip (s : pystr) : unspaced (Py.lstrip s) = unspaced s.
Proof.
  induction s as [|c s IH]; [reflexivity|]. cbn.
  destruct (Py.isspace c) eqn:E; cbn; [exact IH|]. now rewrite E.
Qed.

Lemma unspaced_rev (s : pystr) : unspaced (rev s) = rev (unspaced s).
Proof.
  induction s as [|c s IH]; [reflexivity|]. cbn [rev].
  rewrite unspaced_app, IH. cbn. destruct (Py.isspace c); cbn;
    [now rewrite app_nil_r|reflexivity].
Qed.

Lemma unspaced_strip (s : pystr) : unspaced (Py.strip s) = unspaced s.
Proof.
  unfold Py.strip, Py.rstrip.
  rewrite unspaced_rev, unspaced_lstrip, unspaced_rev, rev_involutive.
  apply unspaced_lstrip.
Qed.

Lemma unspaced_remove_newlines (s : pystr) :
  unspaced (Py.remove_newlines s) = unspaced s.
Proof.
  unfold unspaced, Py.remove_newlines.
  induction s as [|c s IH]; [reflexivity|]. cbn [List.filter].
  destruct (N.eqb_spec c 10) as [->|Hc]; cbn [negb].
  - change (Py.isspace 10) with true. cbn [negb]. exact IH.
  - cbn [List.filter]. destruct (Py.isspace c); cbn [negb]; now rewrite IH.
Qed.

Lemma eqb_eq (a b : pystr) : Py.eqb a b = true -> a = b.
Proof.
  revert b. induction a as [|x a IH]; intros [|y b]; cbn; try discriminate; auto.
  intros H. apply andb_true_iff in H as [Hx Hab].
  apply N.eqb_eq in Hx. subst. f_equal. now apply IH.
Qed.

(** ** What a chat turn does, step by step *)

Lemma strings_of_app (a b : list json) :
  strings_of (a ++ b) = strings_of a ++ strings_of b.
Proof.
  induction a as [|[| | | |s| |] a IH]; cbn; auto. now rewrite IH, app_assoc.
Qed.

Lemma same_but_queue_refl (w : state) : same_but_queue w w.
Proof. repeat split. Qed.

Lemma same_but_queue_trans (w1 w2 w3 : state) :
  same_but_queue w1 w2 -> same_but_queue w2 w3 -> same_but_queue w1 w3.
Proof.
  intros (A1 & A2 & A3 & A4 & A5 & A6 & A7) (B1 & B2 & B3 & B4 & B5 & B6 & B7).
  repeat split; congruence.
Qed.

Lemma grows_by_refl (g : gen) : grows_by [] [] [] g g.
Proof.
  unfold grows_by. cbn. rewrite !app_nil_r.
  repeat split; auto using Forall_nil.
Qed.

Lemma grows_by_trans (ts1 ts2 : list json) (a1 a2 : list pystr)
    (s1 s2 : list thread) (g g' g'' : gen) :
  grows_by ts1 a1 s1 g g' -> grows_by ts2 a2 s2 g' g'' ->
  grows_by (ts1 ++ ts2) (a1 ++ a2) (s1 ++ s2) g g''.
Proof.
  intros (Y1 & R1 & Q1 & F1 & U1 & T1 & S1 & K1)
         (Y2 & R2 & Q2 & F2 & U2 & T2 & S2 & K2).
  unfold grows_by. rewrite Y2, Y1, R2, R1, Q2, Q1, T2, T1, strings_of_app.
  rewrite <- !app_assoc.
  refine (conj eq_refl (conj eq_refl (conj eq_refl (conj _ (conj _
            (conj eq_refl (conj _ _))))))).
  - apply Forall_app. auto.
  - rewrite concat_app, <- app_assoc, unspaced_app, U2, <- unspaced_app.
    rewrite app_assoc, unspaced_app, U1.
    rewrite <- !unspaced_app. now rewrite <- app_assoc.
  - intros H. rewrite (S1 H). cbn. apply S2.
    destruct K1 as (_ & _ & _ & _ & K & _). congruence.
  - eapply same_but_queue_trans; eauto.
Qed.

Lemma speakWithQueue_effect (text : pystr) (ms : Z) (w : state) :
  let w' := speakWithQueue text ms w in
  spoken_text_queue (spk w') = spoken_text_queue (spk w) ++ [text]
  /\ threads w'
     = threads w ++ (if is_speaking (spk w) then [] else [Thread AtStart ms])
  /\ same_but_queue w w'.
Proof.
  unfold speakWithQueue. cbn [spk set_spk is_speaking set_queue].
  destruct (is_speaking (spk w)); cbn; rewrite ?app_nil_r; repeat split.
Qed.

(** An enqueue of a trimmed text that empties the sentence buffer. *)
Lemma flush_grows (reply : pystr) (tool : json) (sentence : pystr)
    (ys : list json) (w : state) (g : gen) (ts : list json) :
  yielded g ++ ts = ys ->
  assistant_reply g ++ strings_of ts = reply ->
  world g = w ->
  unspaced sentence = unspaced (spoken_sentence g ++ strings_of ts) ->
  exists started,
    grows_by ts [Py.strip sentence] started g
      (enqueue (Py.strip sentence) (Gen reply tool [] ys w)).
Proof.
  intros Hy Hr Hw Hu. subst ys reply w.
  destruct (speakWithQueue_effect (Py.strip sentence) 0 (world g)) as (Q & T & K).
  cbn zeta in Q, T, K.
  exists (if is_speaking (spk (world g)) then [] else [Thread AtStart 0]).
  unfold grows_by, enqueue.
  cbn [yielded assistant_reply spoken_sentence world tool_content].
  repeat split; try apply K; auto.
  - constructor; [apply strip_stripped|constructor].
  - cbn [List.concat]. rewrite !app_nil_r. now rewrite unspaced_strip.
  - now intros ->.
Qed.

Lemma on_token_grows (t : json) (g : gen) :
  exists added started, grows_by [t] added started g (on_token t g).
Proof.
  assert (Hplain : forall reply sentence,
            assistant_reply g ++ strings_of [t] = reply ->
            unspaced sentence = unspaced (spoken_sentence g ++ strings_of [t]) ->
            grows_by [t] [] [] g
              (Gen reply (tool_content g) sentence (yielded g ++ [t]) (world g))).
  { intros reply sentence <- Hu. unfold grows_by.
    cbn [yielded assistant_reply spoken_sentence world List.concat app].
    rewrite !app_nil_r. repeat split; auto using Forall_nil. }
  unfold on_token.
  destruct t as [| b | n | r | tok | items | fields];
    try (exists [], []; apply Hplain; cbn; now rewrite ?app_nil_r).
  cbn [yielded assistant_reply spoken_sentence world tool_content].
  destruct (Py.eqb tok [10] || Py.eqb tok [10; 10]) eqn:Enl.
  - destruct (flush_grows (assistant_reply g ++ tok) (tool_content g)
                (spoken_sentence g) (yielded g ++ [JStr tok]) (world g) g
                [JStr tok]) as (started & H); auto.
    + cbn. now rewrite app_nil_r.
    + cbn. rewrite app_nil_r, unspaced_app.
      apply orb_true_iff in Enl as [E|E]; apply eqb_eq in E; subst tok;
        cbn; now rewrite app_nil_r.
    + eauto.
  - destruct (_ && _).
    + destruct (flush_grows (assistant_reply g ++ tok) (tool_content g)
                  (spoken_sentence g ++ Py.remove_newlines tok)
                  (yielded g ++ [JStr tok]) (world g) g [JStr tok])
        as (started & H); auto.
      * cbn. now rewrite app_nil_r.
      * cbn. now rewrite app_nil_r, !unspaced_app, unspaced_remove_newlines.
      * eauto.
    + exists [], []. apply Hplain.
      * cbn. now rewrite app_nil_r.
      * cbn. now rewrite app_nil_r, !unspaced_app, unspaced_remove_newlines.
Qed.

Lemma apply_effect_grows (e : delta_effect) (g : gen) :
  grows g (apply_effect e g).
Proof.
  destruct e as [| c | t]; cbn [apply_effect].
  - exists [], [], []. apply grows_by_refl.
  - exists [], [], []. unfold grows_by.
    cbn [yielded assistant_reply spoken_sentence world List.concat app].
    rewrite !app_nil_r. repeat split; auto using Forall_nil.
  - destruct (on_token_grows t g) as (added & started & H). now exists [t], added, started.
Qed.

Lemma grows_trans (g g' g'' : gen) : grows g g' -> grows g' g'' -> grows g g''.
Proof.
  intros (t1 & a1 & s1 & H1) (t2 & a2 & s2 & H2).
  exists (t1 ++ t2), (a1 ++ a2), (s1 ++ s2). eapply grows_by_trans; eauto.
Qed.

Lemma effects_grow (es : list delta_effect) (g : gen) :
  grows g (fold_left (fun g e => apply_effect e g) es g).
Proof.
  revert g. induction es as [|e es IH]; intros g; cbn [fold_left].
  - exists [], [], []. apply grows_by_refl.
  - eapply grows_trans; [apply apply_effect_grows|apply IH].
Qed.

Section Growth.

Variable json_loads : pystr -> option json.
Variable is_decimal : N -> bool.

Lemma on_chunk_string_grows (ds : bool) (cs : pystr) (g : gen) :
  grows g (on_chunk_string json_loads is_decimal ds cs g).
Proof.
  unfold on_chunk_string. rewrite on_lines_effects. apply effects_grow.
Qed.

(** However the loop ends, the generator has only yielded, enqueued and
    started workers. *)
Lemma consume_grows (ds : bool) (chunks : list bytes)
    (raises pending : option pystr) (g : gen) :
  grows g (fst (consume json_loads is_decimal ds chunks raises pending g)).
Proof.
  revert pending g. induction chunks as [|c rest IH]; intros pending g.
  - destruct raises, pending; exists [], [], []; apply grows_by_refl.
  - destruct pending as [cs|]; cbn [consume].
    + destruct (Py.decode c) as [s|];
        [|exists [], [], []; apply grows_by_refl]. cbv zeta.
      destruct (complete (cs ++ s)); [|apply IH].
      eapply grows_trans; [apply on_chunk_string_grows|apply IH].
    + destruct c as [|x c]; [exists [], [], []; apply grows_by_refl|].
      destruct (Py.decode (x :: c)) as [s|];
        [|exists [], [], []; apply grows_by_refl].
      destruct (complete s); [|apply IH].
      eapply grows_trans; [apply on_chunk_string_grows|apply IH].
Qed.

End Growth.

(** ** A chat turn as a whole *)

Section Turn.

Variable json_loads : pystr -> option json.
Variable is_decimal : N -> bool.

(** Everything a chat turn does to the state, whatever its outcome. *)
Lemma handleUserQuery_growth (user_query : pystr) (post : http_result)
    (w : state) :
  let res := handleUserQuery json_loads is_decimal user_query post w in
  exists added started tool,
    spoken_text_queue (spk (final res))
    = (if is_speaking (spk w) then [] else spoken_text_queue (spk w)) ++ added
    /\ Forall is_stripped added
    /\ (how res = Completed ->
        unspaced (List.concat added) = unspaced (strings_of (tokens_out res)))
    /\ threads (final res) = threads w ++ started
    /\ (is_speaking (spk w) = true -> started = [])
    /\ (cfg (final res) = cfg w
        /\ tok (final res) = tok w
        /\ synth_log (final res) = synth_log w
        /\ is_speaking (spk (final res)) = is_speaking (spk w)
        /\ last_speak_time (spk (final res)) = last_speak_time (spk w)
        /\ speech_synthesizer (spk (final res)) = speech_synthesizer (spk w))
    /\ cht (final res)
       = set_messages
           (messages (cht w) ++ Message RUser (JStr user_query)
            :: match how res with
               | Completed =>
                   (if (0 <? length (data_sources (cht w)))%nat
                    then [Message RTool tool] else [])
                   ++ [Message RAssistant (JStr (strings_of (tokens_out res)))]
               | _ => []
               end)
           (cht w).
Proof.
  cbn zeta. unfold handleUserQuery.
  set (w1 := set_cht _ w).
  set (w2 := if is_speaking (spk w1) then _ else _).
  assert (Hq : spoken_text_queue (spk w2)
               = if is_speaking (spk w) then [] else spoken_text_queue (spk w))
    by (subst w2 w1; cbn; destruct (is_speaking (spk w)); reflexivity).
  assert (Hth : threads w2 = threads w)
    by (subst w2 w1; cbn; destruct (is_speaking (spk w)); reflexivity).
  assert (Hsame : cfg w2 = cfg w /\ tok w2 = tok w /\ synth_log w2 = synth_log w
                  /\ is_speaking (spk w2) = is_speaking (spk w)
                  /\ last_speak_time (spk w2) = last_speak_time (spk w)
                  /\ speech_synthesizer (spk w2) = speech_synthesizer (spk w))
    by (subst w2 w1; cbn; destruct (is_speaking (spk w)) eqn:E; cbn;
        rewrite ?E; repeat split).
  assert (Hm : cht w2 = set_messages
                 (messages (cht w) ++ [Message RUser (JStr user_query)]) (cht w))
    by (subst w2 w1; cbn; destruct (is_speaking (spk w)); reflexivity).
  assert (Hstop : forall o, o <> Completed ->
            exists added started tool,
              spoken_text_queue (spk w2)
              = (if is_speaking (spk w) then [] else spoken_text_queue (spk w))
                ++ added
              /\ Forall is_stripped added
              /\ (o = Completed ->
                  unspaced (List.concat added) = unspaced (strings_of []))
              /\ threads w2 = threads w ++ started
              /\ (is_speaking (spk w) = true -> started = [])
              /\ (cfg w2 = cfg w /\ tok w2 = tok w /\ synth_log w2 = synth_log w
                  /\ is_speaking (spk w2) = is_speaking (spk w)
                  /\ last_speak_time (spk w2) = last_speak_time (spk w)
                  /\ speech_synthesizer (spk w2) = speech_synthesizer (spk w))
              /\ cht w2
                 = set_messages
                     (messages (cht w) ++ Message RUser (JStr user_query)
                      :: match o with
                         | Completed =>
                             (if (0 <? length (data_sources (cht w)))%nat
                              then [Message RTool tool] else [])
                             ++ [Message RAssistant (JStr (strings_of []))]
                         | _ => []
                         end)
                     (cht w)).
  { intros o Ho. exists [], [], JNull. rewrite Hq, Hth, !app_nil_r.
    split; [reflexivity|]. split; [constructor|].
    split; [intros ->; now destruct Ho|]. split; [reflexivity|].
    split; [reflexivity|]. split; [exact Hsame|].
    rewrite Hm. destruct o; [now destruct Ho|reflexivity..]. }
  rewrite Hm. cbn [set_messages data_sources]. rewrite (proj1 Hsame).
  destruct (_ && _); [apply Hstop; discriminate|].
  destruct post as [e|r]; [apply Hstop; discriminate|].
  destruct (resp_ok r); cbn [negb]; [|apply Hstop; discriminate].
  set (ds := (0 <? length (data_sources (cht w)))%nat).
  set (g0 := Gen [] (JStr []) [] [] w2).
  pose proof (consume_grows json_loads is_decimal ds (resp_chunks r)
                (resp_raises r) None g0) as Hg.
  destruct (consume json_loads is_decimal ds (resp_chunks r) (resp_raises r)
              None g0) as [g o].
  cbn [fst] in Hg.
  destruct Hg as (ts & added & started & Y & R & Q & F & U & T & S & K).
  cbn [yielded assistant_reply spoken_sentence world app g0] in Y, R, Q, U, T, S, K.
  destruct K as (K1 & K2 & K3 & K4 & K5 & K6 & K7).
  destruct Hsame as (H1 & H2 & H4 & H5 & H6 & H7).
  rewrite Hq in Q. rewrite Hth in T. rewrite H5 in S.
  assert (Hother :
    exists added0 started0,
      spoken_text_queue (spk (world g))
      = (if is_speaking (spk w) then [] else spoken_text_queue (spk w)) ++ added0
      /\ Forall is_stripped added0
      /\ threads (world g) = threads w ++ started0
      /\ (is_speaking (spk w) = true -> started0 = [])
      /\ (cfg (world g) = cfg w /\ tok (world g) = tok w
          /\ synth_log (world g) = synth_log w
          /\ is_speaking (spk (world g)) = is_speaking (spk w)
          /\ last_speak_time (spk (world g)) = last_speak_time (spk w)
          /\ speech_synthesizer (spk (world g)) = speech_synthesizer (spk w))
      /\ cht (world g)
         = set_messages (messages (cht w) ++ [Message RUser (JStr user_query)])
             (cht w)).
  { exists added, started. repeat split; auto; congruence. }
  destruct o; cbv beta iota; cbn [final how tokens_out].
  - (* the stream was read to its end *)
    exists (added ++ match spoken_sentence g with
                     | [] => []
                     | _ :: _ => [Py.strip (spoken_sentence g)]
                     end),
           (started ++ match spoken_sentence g with
                       | [] => []
                       | _ :: _ =>
                           if is_speaking (spk w) then [] else [Thread AtStart 0]
                       end),
           (tool_content g).
    unfold finish.
    assert (Hfl : forall g1 : gen,
              g1 = match spoken_sentence g with
                   | [] => g
                   | _ :: _ =>
                       enqueue (Py.strip (spoken_sentence g))
                         (Gen (assistant_reply g) (tool_content g) []
                            (yielded g) (world g))
                   end ->
              spoken_text_queue (spk (world g1))
              = spoken_text_queue (spk (world g))
                ++ match spoken_sentence g with
                   | [] => []
                   | _ :: _ => [Py.strip (spoken_sentence g)]
                   end
              /\ threads (world g1)
                 = threads (world g)
                   ++ match spoken_sentence g with
                      | [] => []
                      | _ :: _ =>
                          if is_speaking (spk w) then [] else [Thread AtStart 0]
                      end
              /\ same_but_queue (world g) (world g1)
              /\ tool_content g1 = tool_content g
              /\ assistant_reply g1 = assistant_reply g).
    { intros g1 ->. destruct (spoken_sentence g) as [|c s0].
      - rewrite !app_nil_r. repeat split.
      - destruct (speakWithQueue_effect (Py.strip (c :: s0)) 0 (world g))
          as (Q' & T' & K'). cbn zeta in Q', T', K'.
        unfold enqueue. cbn [world tool_content assistant_reply].
        rewrite Q', T', K5, H5. auto. }
    match goal with |- context [world ?g1] =>
      destruct (Hfl g1 eq_refl) as (Q' & T' & (L1 & L2 & L3 & L4 & L5 & L6 & L7) & TC & AR)
    end.
    cbn [cfg tok cht spk threads synth_log set_cht].
    rewrite Q', T', Q, T, L1, L2, L3, L4, L5, L6, L7, TC, AR, R, Y, K3, Hm.
    rewrite <- !app_assoc.
    refine (conj eq_refl (conj _ (conj _ (conj eq_refl (conj _ (conj _ _)))))).
    + apply Forall_app. split; [exact F|].
      destruct (spoken_sentence g); constructor; [apply strip_stripped|constructor].
    + intros _. rewrite concat_app, unspaced_app.
      rewrite unspaced_app in U. rewrite <- U. f_equal.
      destruct (spoken_sentence g); cbn [List.concat]; [reflexivity|].
      now rewrite app_nil_r, unspaced_strip.
    + intros H. rewrite (S H), H. now destruct (spoken_sentence g).
    + repeat split; congruence.
    + cbn [set_messages messages chat_initiated data_sources]. subst ds.
      rewrite <- app_assoc. reflexivity.
  - destruct Hother as (a0 & s0 & A & B & C & D & E & G).
    exists a0, s0, JNull. rewrite G.
    refine (conj A (conj B (conj _ (conj C (conj D (conj E _)))))); [discriminate|].
    reflexivity.
  - destruct Hother as (a0 & s0 & A & B & C & D & E & G).
    exists a0, s0, JNull. rewrite G.
    refine (conj A (conj B (conj _ (conj C (conj D (conj E _)))))); [discriminate|].
    reflexivity.
Qed.

End Turn.

(** X9. A chat turn only appends to the history: the user message always;
    and, exactly when the turn runs to its end, the tool message (in the
    data-source form) and the assistant message, whose content is the
    concatenation of the string tokens the caller was shown.  The data
    sources and the initiated mark stay as they were. *)
Theorem handleUserQuery_history (json_loads : pystr -> option json)
    (is_decimal : N -> bool) (user_query : pystr) (post : http_result)
    (w : state) :
  let res := handleUserQuery json_loads is_decimal user_query post w in
  exists tool,
    messages (cht (final res))
    = messages (cht w) ++ Message RUser (JStr user_query)
      :: match how res with
         | Completed =>
             (if (0 <? length (data_sources (cht w)))%nat
              then [Message RTool tool] else [])
             ++ [Message RAssistant (JStr (strings_of (tokens_out res)))]
         | _ => []
         end
    /\ chat_initiated (cht (final res)) = chat_initiated (cht w)
    /\ data_sources (cht (final res)) = data_sources (cht w).
Proof.
  cbn zeta.
  destruct (handleUserQuery_growth json_loads is_decimal user_query post w)
    as (added & started & tool & _ & _ & _ & _ & _ & _ & H).
  exists tool. rewrite H. repeat split.
Qed.



(** X11. A chat turn makes no synthesis call itself and leaves the
    settings, the tokens, [is_speaking], [last_speak_time] and the
    synthesizer as they were, whatever its outcome. *)
Theorem handleUserQuery_frame (json_loads : pystr -> option json)
    (is_decimal : N -> bool) (user_query : pystr) (post : http_result)
    (w : state) :
  let res := handleUserQuery json_loads is_decimal user_query post w in
  cfg (final res) = cfg w
  /\ tok (final res) = tok w
  /\ synth_log (final res) = synth_log w
  /\ is_speaking (spk (final res)) = is_speaking (spk w)
  /\ last_speak_time (spk (final res)) = last_speak_time (spk w)
  /\ speech_synthesizer (spk (final res)) = speech_synthesizer (spk w).
Proof.
  cbn zeta.
  destruct (handleUserQuery_growth json_loads is_decimal user_query post w)
    as (added & started & tool & _ & _ & _ & _ & _ & H & _).
  exact H.
Qed.

(** ** Reassembly of the stream *)

Lemma complete_nonempty (cs : pystr) : complete cs = true -> cs <> [].
Proof. intros H ->. discriminate. Qed.

(** X12. Reassembly loses and adds nothing: when the loop reaches the end
    of the stream, the chunk strings it has processed, concatenated, are
    the chunks concatenated (after what was pending), and every one of
    them ends at a record end or at the end marker. *)
Theorem chunk_strings_reassemble (chunks : list pystr)
    (pending : option pystr) (css : list pystr) :
  chunk_strings chunks pending = Some css ->
  List.concat css = pending_text pending ++ List.concat chunks
  /\ Forall (fun cs => complete cs = true /\ cs <> []) css.
Proof.
  revert pending css. induction chunks as [|c rest IH]; intros pending css H.
  - destruct pending; [discriminate|]. injection H as <-. split; [reflexivity|constructor].
  - assert (Step : forall cs css,
              complete cs = true ->
              (css0 <- chunk_strings rest None ;; Some (cs :: css0)) = Some css ->
              List.concat css = cs ++ List.concat rest
              /\ Forall (fun cs => complete cs = true /\ cs <> []) css).
    { intros cs css0 Hc H0.
      destruct (chunk_strings rest None) as [css1|] eqn:E; [|discriminate].
      injection H0 as <-. destruct (IH None css1 E) as [IH1 IH2].
      cbn [List.concat]. rewrite IH1. split; [reflexivity|].
      constructor; [|exact IH2]. split; [exact Hc|now apply complete_nonempty]. }
    destruct pending as [cs|]; cbn [chunk_strings pending_text List.concat] in *.
    + destruct (complete (cs ++ c)) eqn:Ec.
      * destruct (Step _ _ Ec H) as [S1 S2]. rewrite S1, <- app_assoc. auto.
      * destruct (IH _ _ H) as [S1 S2]. cbn [pending_text] in S1.
        rewrite S1, <- app_assoc. auto.
    + destruct c as [|x c]; [discriminate|].
      destruct (complete (x :: c)) eqn:Ec.
      * destruct (Step _ _ Ec H) as [S1 S2]. rewrite S1. auto.
      * destruct (IH _ _ H) as [S1 S2]. cbn [pending_text] in S1. rewrite S1. auto.
Qed.

Lemma chunk_strings_reassemble_witness :
  List.concat hello_whole = [] ++ List.concat hello_stream
  /\ Forall (fun cs => complete cs = true /\ cs <> []) hello_whole.
Proof.
  exact (chunk_strings_reassemble hello_stream None hello_whole eq_refl).
Defined.

Section Completion.

Variable json_loads : pystr -> option json.
Variable is_decimal : N -> bool.

(** X13. A chat turn runs to its end exactly when the provider's response
    is ok, every chunk of its stream decodes, the iterator ends without
    raising, and the decoded chunks assemble into complete chunk strings
    (and the quick reply of the data-source form is off).  A chunk cut
    inside a multi-byte character, an iterator that raises, a stream that
    stops inside a record, or an empty chunk where a chunk string would
    start, ends the turn before the assistant message is recorded. *)
Theorem handleUserQuery_completes_iff (user_query : pystr)
    (post : http_result) (w : state) :
  how (handleUserQuery json_loads is_decimal user_query post w) = Completed
  <-> ((0 <? length (data_sources (cht w)))%nat && enable_quick_reply (cfg w)
       = false
       /\ exists r texts css,
            post = HttpResponse r
            /\ resp_ok r = true
            /\ resp_raises r = None
            /\ mapM Py.decode (resp_chunks r) = Some texts
            /\ chunk_strings texts None = Some css).
Proof.
  unfold handleUserQuery.
  set (w1 := set_cht _ w).
  set (w2 := if is_speaking (spk w1) then _ else _).
  assert (Hc : cfg w2 = cfg w)
    by (subst w2 w1; cbn; destruct (is_speaking (spk w)); reflexivity).
  assert (Hd : data_sources (cht w2) = data_sources (cht w))
    by (subst w2 w1; cbn; destruct (is_speaking (spk w)); reflexivity).
  rewrite Hc, Hd.
  destruct (_ && _) eqn:Eq.
  { cbn [how]. split; [discriminate|]. intros [H _]. discriminate. }
  destruct post as [e|r].
  { cbn [how]. split; [discriminate|].
    intros [_ (r & ts & css & H & _)]. discriminate. }
  destruct (resp_ok r) eqn:Eok; cbn [negb].
  2:{ cbn [how]. split; [discriminate|].
      intros [_ (r' & ts & css & H & Hok & _)]. injection H as <-. congruence. }
  match goal with
  | |- context [consume _ _ ?ds (resp_chunks r) (resp_raises r) None ?g] =>
    pose proof (consume_chunk_strings json_loads is_decimal ds
                  (resp_chunks r) (resp_raises r) None g) as K;
    destruct (consume json_loads is_decimal ds (resp_chunks r) (resp_raises r)
                None g) as [g' o]
  end.
  destruct (stream_strings (resp_chunks r) (resp_raises r) None)
    as [css|] eqn:Ecs.
  - injection K as _ ->. cbn [how]. split; [|reflexivity].
    intros _. split; [reflexivity|].
    unfold stream_strings in Ecs.
    destruct (resp_raises r) eqn:Er; [discriminate|].
    destruct (mapM Py.decode (resp_chunks r)) as [ts|] eqn:Em; [|discriminate].
    exists r, ts, css. auto.
  - cbn [snd] in K. split.
    + intros H. destruct o; cbn [how] in H; [now destruct K|discriminate..].
    + intros [_ (r' & ts & css & H & _ & Hr & Hm & Hcs)]. injection H as <-.
      unfold stream_strings in Ecs. rewrite Hr, Hm in Ecs. congruence.
Qed.

(** The loop over chunks that end at a chunk string's end goes on with
    the chunks that follow. *)
Lemma consume_app (ds : bool) (c1 c2 : list bytes) (raises : option pystr)
    (css1 : list pystr) (g : gen) :
  stream_strings c1 None None = Some css1 ->
  consume json_loads is_decimal ds (c1 ++ c2) raises None g
  = consume json_loads is_decimal ds c2 raises None
      (fold_left (fun g cs => on_chunk_string json_loads is_decimal ds cs g)
         css1 g).
Proof.
  assert (Gen : forall c1 pending css1 g,
            stream_strings c1 None pending = Some css1 ->
            consume json_loads is_decimal ds (c1 ++ c2) raises pending g
            = consume json_loads is_decimal ds c2 raises None
                (fold_left
                   (fun g cs => on_chunk_string json_loads is_decimal ds cs g)
                   css1 g)).
  { clear c1 css1 g. induction c1 as [|c rest IH]; intros pending css1 g H.
    - rewrite stream_strings_nil in H.
      destruct pending; [discriminate|]. now injection H as <-.
    - assert (Step : forall cs css1 g,
                (css0 <- stream_strings rest None None ;; Some (cs :: css0))
                = Some css1 ->
                consume json_loads is_decimal ds (rest ++ c2) raises None
                  (on_chunk_string json_loads is_decimal ds cs g)
                = consume json_loads is_decimal ds c2 raises None
                    (fold_left
                       (fun g cs => on_chunk_string json_loads is_decimal ds cs g)
                       css1 g)).
      { intros cs css0 g0 H0.
        destruct (stream_strings rest None None) as [css|] eqn:E;
          [|discriminate].
        injection H0 as <-. cbn [fold_left]. now apply IH. }
      rewrite stream_strings_cons in H.
      destruct pending as [cs|]; cbn [app consume].
      + destruct (Py.decode c) as [s|]; [|discriminate]. cbv zeta.
        destruct (complete (cs ++ s)); [now apply Step|now apply IH].
      + destruct c as [|x c]; [discriminate|].
        destruct (Py.decode (x :: c)) as [s|]; [|discriminate].
        destruct (complete s); [now apply Step|now apply IH]. }
  apply Gen.
Qed.

(** X14. A record that cannot be used is skipped and the stream goes on:
    a chunk that decodes to a complete chunk string whose lines do not
    parse (or are no data lines, or raise while they are read), put
    between chunks at a chunk string's end, changes nothing of the
    turn. *)
Theorem handleUserQuery_skips_bad_records (user_query : pystr)
    (r : response) (c1 c2 : list bytes) (css1 : list pystr) (bad : bytes)
    (bad_string : pystr) (w : state) :
  resp_chunks r = c1 ++ c2 ->
  stream_strings c1 None None = Some css1 ->
  Py.decode bad = Some bad_string ->
  bad_string <> [] ->
  complete bad_string = true ->
  without_effect json_loads is_decimal
    (0 <? length (data_sources (cht w)))%nat bad_string ->
  handleUserQuery json_loads is_decimal user_query
    (HttpResponse (Response (resp_ok r) (resp_status_code r) (resp_reason r)
                     (resp_text r) (c1 ++ bad :: c2) (resp_raises r))) w
  = handleUserQuery json_loads is_decimal user_query (HttpResponse r) w.
Proof.
  intros Hr Hcs Hdec Hne Hcomp Hbad. unfold handleUserQuery, status_message.
  cbn [resp_ok resp_status_code resp_reason resp_chunks resp_raises].
  set (w1 := set_cht _ w).
  set (w2 := if is_speaking (spk w1) then _ else _).
  assert (Hd : data_sources (cht w2) = data_sources (cht w))
    by (subst w2 w1; cbn; destruct (is_speaking (spk w)); reflexivity).
  rewrite Hd, Hr.
  destruct (_ && _); [reflexivity|].
  destruct (resp_ok r); cbn [negb]; [|reflexivity].
  rewrite !(consume_app _ c1 _ _ css1 _ Hcs).
  destruct bad as [|x bad]; [cbn in Hdec; congruence|].
  cbn [consume]. rewrite Hdec, Hcomp.
  assert (Hskip : forall g,
            on_chunk_string json_loads is_decimal
              (0 <? length (data_sources (cht w)))%nat bad_string g = g).
  { intros g. unfold on_chunk_string. rewrite on_lines_effects.
    unfold without_effect in Hbad. revert g.
    induction Hbad as [|l ls Hl _ IH]; intros g; cbn [List.map fold_left];
      [reflexivity|]. rewrite Hl. apply IH. }
  now rewrite Hskip.
Qed.

(** A chunk that does not decode, met where a chunk string would start,
    ends the turn there. *)
Lemma handleUserQuery_undecodable (user_query : pystr) (r : response)
    (c1 c2 : list bytes) (css1 : list pystr) (bad : bytes) (w : state) :
  (0 <? length (data_sources (cht w)))%nat && enable_quick_reply (cfg w)
  = false ->
  resp_ok r = true ->
  resp_chunks r = c1 ++ bad :: c2 ->
  stream_strings c1 None None = Some css1 ->
  Py.decode bad = None ->
  let res := handleUserQuery json_loads is_decimal user_query (HttpResponse r) w in
  how res = Raised UnicodeDecodeError
  /\ tokens_out res
     = shown (stream_effects json_loads is_decimal
                (0 <? length (data_sources (cht w)))%nat css1).
Proof.
  intros Hq Hok Hr Hcs Hdec. cbv zeta. unfold handleUserQuery.
  set (w1 := set_cht _ w).
  set (w2 := if is_speaking (spk w1) then _ else _).
  assert (Hc : cfg w2 = cfg w)
    by (subst w2 w1; cbn; destruct (is_speaking (spk w)); reflexivity).
  assert (Hd : data_sources (cht w2) = data_sources (cht w))
    by (subst w2 w1; cbn; destruct (is_speaking (spk w)); reflexivity).
  rewrite Hc, Hd, Hq, Hok, Hr. cbn [negb].
  rewrite (consume_app _ c1 _ _ css1 _ Hcs).
  destruct bad as [|x bad]; [discriminate|].
  cbn [consume]. rewrite Hdec. cbn [how tokens_out]. split; [reflexivity|].
  match goal with |- yielded (fold_left _ css1 ?g0) = _ =>
    pose proof (effects_spec
                  (stream_effects json_loads is_decimal
                     (0 <? length (data_sources (cht w)))%nat css1) g0) as He
  end.
  cbn zeta in He. destruct He as (Hy & _). cbn [yielded app] in Hy.
  rewrite <- Hy. f_equal. clear.
  unfold stream_effects.
  match goal with |- fold_left _ css1 ?g0 = _ => generalize g0 end.
  induction css1 as [|cs css IH]; intros g; [reflexivity|].
  cbn [fold_left List.flat_map]. rewrite List.map_app, fold_left_app.
  rewrite <- IH. f_equal. unfold on_chunk_string. apply on_lines_effects.
Qed.

End Completion.

(** X3. How the provider's bytes are cut into chunks matters only through
    what the loop makes of the cut.  Two streams whose chunks all decode,
    whose iterators end, and whose decoded chunks assemble into the same
    complete chunk strings give the same turn.  A cut that leaves a chunk
    that does not decode (a cut inside a multi-byte character) is another
    matter: where the loop meets such a chunk at the start of a chunk
    string, the turn ends with [UnicodeDecodeError], having yielded the
    tokens of the chunk strings before it. *)
Theorem handleUserQuery_chunking (json_loads : pystr -> option json)
    (is_decimal : N -> bool) (user_query : pystr) (w : state) :
  (forall r1 r2 texts1 texts2 css,
     resp_ok r1 = resp_ok r2 ->
     resp_status_code r1 = resp_status_code r2 ->
     resp_reason r1 = resp_reason r2 ->
     resp_raises r1 = None ->
     resp_raises r2 = None ->
     mapM Py.decode (resp_chunks r1) = Some texts1 ->
     mapM Py.decode (resp_chunks r2) = Some texts2 ->
     chunk_strings texts1 None = Some css ->
     chunk_strings texts2 None = Some css ->
     handleUserQuery json_loads is_decimal user_query (HttpResponse r1) w
     = handleUserQuery json_loads is_decimal user_query (HttpResponse r2) w)
  /\ (forall r c1 c2 texts1 css1 bad,
        (0 <? length (data_sources (cht w)))%nat && enable_quick_reply (cfg w)
        = false ->
        resp_ok r = true ->
        resp_chunks r = c1 ++ bad :: c2 ->
        mapM Py.decode c1 = Some texts1 ->
        chunk_strings texts1 None = Some css1 ->
        Py.decode bad = None ->
        let res := handleUserQuery json_loads is_decimal user_query
                     (HttpResponse r) w in
        how res = Raised UnicodeDecodeError
        /\ tokens_out res
           = shown (stream_effects json_loads is_decimal
                      (0 <? length (data_sources (cht w)))%nat css1)).
Proof.
  split.
  - intros r1 r2 t1 t2 css Hok Hst Hre Hr1 Hr2 Hm1 Hm2 H1 H2.
    unfold handleUserQuery, status_message.
    rewrite <- Hok, <- Hst, <- Hre.
    destruct (_ && _); [reflexivity|].
    destruct (resp_ok r1); cbn [negb]; [|reflexivity].
    match goal with
    | |- context [consume _ _ ?ds (resp_chunks r1) (resp_raises r1) None ?g] =>
      pose proof (consume_chunk_strings json_loads is_decimal ds
                    (resp_chunks r1) (resp_raises r1) None g) as K1;
      pose proof (consume_chunk_strings json_loads is_decimal ds
                    (resp_chunks r2) (resp_raises r2) None g) as K2
    end.
    assert (S1 : stream_strings (resp_chunks r1) (resp_raises r1) None
                 = Some css)
      by (unfold stream_strings; rewrite Hr1, Hm1; exact H1).
    assert (S2 : stream_strings (resp_chunks r2) (resp_raises r2) None
                 = Some css)
      by (unfold stream_strings; rewrite Hr2, Hm2; exact H2).
    rewrite S1 in K1. rewrite S2 in K2. now rewrite K1, K2.
  - intros r c1 c2 t1 css1 bad Hq Hok Hr Hm Hcs Hdec.
    apply (handleUserQuery_undecodable json_loads is_decimal user_query r
             c1 c2 css1 bad w Hq Hok Hr); [|exact Hdec].
    unfold stream_strings. now rewrite Hm.
Qed.

Lemma handleUserQuery_chunking_witness :
  handleUserQuery loads_known ascii_digit (str "Hi") (answer hello_stream)
    (ready plain_config)
  = handleUserQuery loads_known ascii_digit (str "Hi") (answer hello_whole)
      (ready plain_config)
  /\ (let res := handleUserQuery loads_known ascii_digit (str "Hi")
                   (HttpResponse
                      (Response true 200 (str "OK") []
                         ([as_bytes (sse (plain_payload (str "Hello")))]
                          ++ [xe3; x80] :: [[x82]])
                         None))
                   (ready plain_config) in
      how res = Raised UnicodeDecodeError
      /\ tokens_out res
         = shown (stream_effects loads_known ascii_digit false
                    [sse (plain_payload (str "Hello"))])).
Proof.
  split.
  - exact (proj1 (handleUserQuery_chunking loads_known ascii_digit (str "Hi")
                    (ready plain_config))
             (Response true 200 (str "OK") [] (List.map as_bytes hello_stream)
                None)
             (Response true 200 (str "OK") [] (List.map as_bytes hello_whole)
                None)
             hello_stream hello_whole hello_whole
             eq_refl eq_refl eq_refl eq_refl eq_refl eq_refl eq_refl eq_refl
             eq_refl).
  - exact (proj2 (handleUserQuery_chunking loads_known ascii_digit (str "Hi")
                    (ready plain_config))
             (Response true 200 (str "OK") []
                ([as_bytes (sse (plain_payload (str "Hello")))]
                 ++ [xe3; x80] :: [[x82]])
                None)
             [as_bytes (sse (plain_payload (str "Hello")))] [[x82]]
             [sse (plain_payload (str "Hello"))]
             [sse (plain_payload (str "Hello"))] [xe3; x80]
             eq_refl eq_refl eq_refl eq_refl eq_refl eq_refl).
Defined.

Lemma handleUserQuery_completes_iff_witness :
  how (handleUserQuery loads_known ascii_digit (str "Hi")
         (answer [sse (plain_payload (str "Hello")) ++ str "data: {"])
         (ready plain_config)) = Completed
  <-> (false = false
       /\ exists r texts css,
            answer [sse (plain_payload (str "Hello")) ++ str "data: {"]
            = HttpResponse r
            /\ resp_ok r = true
            /\ resp_raises r = None
            /\ mapM Py.decode (resp_chunks r) = Some texts
            /\ chunk_strings texts None = Some css).
Proof.
  exact (handleUserQuery_completes_iff loads_known ascii_digit (str "Hi")
           (answer [sse (plain_payload (str "Hello")) ++ str "data: {"])
           (ready plain_config)).
Defined.

Lemma handleUserQuery_skips_bad_records_witness :
  handleUserQuery loads_known ascii_digit (str "Hi")
    (answer [ sse (plain_payload (str "Hello")) ++ sse (plain_payload (str ","))
              ++ sse (plain_payload (str " world"));
              sse (str "{oops}");
              sse (plain_payload (str ".")) ++ sse (plain_payload (str "\n"))
              ++ done_event ])
    (ready plain_config)
  = handleUserQuery loads_known ascii_digit (str "Hi") (answer hello_whole)
      (ready plain_config).
Proof.
  refine (handleUserQuery_skips_bad_records loads_known ascii_digit (str "Hi")
            (Response true 200 (str "OK") [] (List.map as_bytes hello_whole) None)
            [ as_bytes (sse (plain_payload (str "Hello"))
                        ++ sse (plain_payload (str ","))
                        ++ sse (plain_payload (str " world"))) ]
            [ as_bytes (sse (plain_payload (str "."))
                        ++ sse (plain_payload (str "\n")) ++ done_event) ]
            [ sse (plain_payload (str "Hello")) ++ sse (plain_payload (str ","))
              ++ sse (plain_payload (str " world")) ]
            (as_bytes (sse (str "{oops}"))) (sse (str "{oops}"))
            (ready plain_config)
            eq_refl eq_refl eq_refl _ eq_refl _).
  - discriminate.
  - unfold without_effect. vm_compute. repeat constructor.
Defined.

(** ** Citation markers *)

Section Markers.

Variable is_decimal : N -> bool.

Lemma oyd_sub_aux_no_match (fuel : nat) (s : pystr) :
  (length s < fuel)%nat ->
  oyd_search is_decimal s = false ->
  oyd_sub_aux is_decimal fuel s = s.
Proof.
  revert s. induction fuel as [|fuel IH]; intros s Hl Hs; [lia|].
  cbn [oyd_sub_aux]. destruct s as [|c s].
  - reflexivity.
  - cbn [oyd_search] in Hs.
    destruct (oyd_match_at is_decimal (c :: s)); [discriminate|].
    f_equal. apply IH; [cbn in Hl; lia|exact Hs].
Qed.

Lemma oyd_match_at_other (c : N) (s : pystr) :
  c <> 91 -> oyd_match_at is_decimal (c :: s) = None.
Proof.
  intros Hc. unfold oyd_match_at.
  replace (Py.startswith (str "[doc") (c :: s)) with false; [reflexivity|].
  change (str "[doc") with (91 :: str "doc"). cbn [Py.startswith].
  apply N.eqb_neq in Hc. rewrite N.eqb_sym in Hc. now rewrite Hc.
Qed.

Lemma skip_digits_all (digits rest : pystr) :
  Forall (fun c => is_decimal c = true) digits ->
  skip_digits is_decimal (digits ++ rest) = skip_digits is_decimal rest.
Proof.
  induction 1 as [|d ds Hd _ IH]; [reflexivity|]. cbn. now rewrite Hd.
Qed.

Lemma oyd_match_at_marker (digits b : pystr) :
  is_decimal 93 = false ->
  digits <> [] ->
  Forall (fun c => is_decimal c = true) digits ->
  oyd_match_at is_decimal (marker digits ++ b) = Some b.
Proof.
  intros H93 Hne Hd. unfold oyd_match_at, marker.
  destruct digits as [|d ds]; [congruence|].
  inversion Hd as [|x l Hd1 Hd2]; subst.
  change (Py.startswith (str "[doc") ((str "[doc" ++ (d :: ds) ++ str "]") ++ b))
    with true. cbv iota.
  change (drop 4 ((str "[doc" ++ (d :: ds) ++ str "]") ++ b))
    with (d :: (ds ++ str "]") ++ b).
  cbv iota. rewrite Hd1, <- app_assoc, (skip_digits_all ds _ Hd2).
  change (str "]" ++ b) with (93 :: b). cbn [skip_digits]. rewrite H93.
  reflexivity.
Qed.

Lemma oyd_search_marker (a digits b : pystr) :
  is_decimal 93 = false ->
  digits <> [] ->
  Forall (fun c => is_decimal c = true) digits ->
  oyd_search is_decimal (a ++ marker digits ++ b) = true.
Proof.
  intros H93 Hne Hd. induction a as [|c a IH].
  - cbn [app]. destruct (marker digits ++ b) eqn:E.
    + destruct digits; discriminate.
    + cbn [oyd_search]. rewrite <- E, oyd_match_at_marker by assumption.
      reflexivity.
  - cbn [app oyd_search].
    destruct (oyd_match_at is_decimal (c :: a ++ marker digits ++ b));
      [reflexivity|exact IH].
Qed.

Lemma oyd_sub_marker (a digits b : pystr) :
  is_decimal 93 = false ->
  Forall (fun c => c <> 91) a ->
  digits <> [] ->
  Forall (fun c => is_decimal c = true) digits ->
  oyd_sub is_decimal (a ++ marker digits ++ b) = a ++ oyd_sub is_decimal b.
Proof.
  intros H93 Ha Hne Hd.
  assert (Gen : forall fuel,
            (length (a ++ marker digits ++ b) < fuel)%nat ->
            oyd_sub_aux is_decimal fuel (a ++ marker digits ++ b)
            = a ++ oyd_sub is_decimal b).
  { induction Ha as [|c a Hc _ IH]; intros fuel Hl.
    - cbn [app] in *. destruct fuel as [|fuel]; [lia|]. cbn [oyd_sub_aux].
      rewrite oyd_match_at_marker by assumption.
      unfold oyd_sub. apply oyd_sub_aux_fuel; [|lia].
      unfold marker in Hl. rewrite !length_app in Hl. cbn in Hl. lia.
    - destruct fuel as [|fuel]; [lia|]. cbn [app oyd_sub_aux].
      rewrite oyd_match_at_other by exact Hc. f_equal.
      apply IH. cbn [app length] in Hl. lia. }
  unfold oyd_sub at 1. apply Gen. lia.
Qed.

(** X15. Citation markers in a display token of the data-source form.  A
    token in which the pattern finds nothing is passed on as it is,
    whitespace included.  A marker [[docN]] is cut out of the token when
    the text before it holds no opening bracket, the markers after it are
    cut out in the same way, and what is left is trimmed. *)
Theorem citation_markers_removed :
  (forall s,
     oyd_search is_decimal s = false ->
     clean_token is_decimal (JStr s) = Some (shown_token s))
  /\ (forall a digits b,
        is_decimal 93 = false ->
        Forall (fun c => c <> 91) a ->
        digits <> [] ->
        Forall (fun c => is_decimal c = true) digits ->
        clean_token is_decimal (JStr (a ++ marker digits ++ b))
        = Some (shown_token (Py.strip (a ++ oyd_sub is_decimal b)))).
Proof.
  split.
  - intros s Hs. unfold clean_token, shown_token. rewrite Hs. cbv zeta.
    destruct (Py.eqb s (str "[DONE]")); reflexivity.
  - intros a digits b H93 Ha Hne Hd. unfold clean_token, shown_token.
    rewrite oyd_search_marker, oyd_sub_marker by assumption. cbv zeta.
    destruct (Py.eqb _ (str "[DONE]")); reflexivity.
Qed.

End Markers.

Lemma citation_markers_removed_witness :
  clean_token ascii_digit (JStr (str "See " ++ marker (str "12") ++ str " and more. "))
  = Some (shown_token (Py.strip (str "See " ++ oyd_sub ascii_digit (str " and more. ")))).
Proof.
  refine (proj2 (citation_markers_removed ascii_digit) (str "See ") (str "12")
            (str " and more. ") eq_refl _ _ _).
  - vm_compute. repeat constructor; discriminate.
  - discriminate.
  - vm_compute. repeat constructor.
Defined.

(** ** Escaping of the text in the SSML document *)

Lemma escape_char_cases (c : N) :
  (c = 38 /\ Py.escape_char c = [38; 97; 109; 112; 59])
  \/ (c = 60 /\ Py.escape_char c = [38; 108; 116; 59])
  \/ (c = 62 /\ Py.escape_char c = [38; 103; 116; 59])
  \/ (c = 34 /\ Py.escape_char c = [38; 113; 117; 111; 116; 59])
  \/ (c = 39 /\ Py.escape_char c = [38; 35; 120; 50; 55; 59])
  \/ (is_special c = false /\ Py.escape_char c = [c]).
Proof.
  unfold Py.escape_char, is_special.
  destruct (N.eqb_spec c 38) as [->|_]; [left; split; reflexivity|].
  destruct (N.eqb_spec c 60) as [->|_]; [right; left; split; reflexivity|].
  destruct (N.eqb_spec c 62) as [->|_];
    [right; right; left; split; reflexivity|].
  destruct (N.eqb_spec c 34) as [->|_];
    [right; right; right; left; split; reflexivity|].
  destruct (N.eqb_spec c 39) as [->|_];
    [right; right; right; right; left; split; reflexivity|].
  right; right; right; right; right. split; reflexivity.
Qed.

Lemma is_special_markup_free (c : N) : is_special c = false -> markup_free c.
Proof.
  unfold is_special, markup_free. intros H.
  repeat (apply orb_false_elim in H; destruct H as [H ?]).
  repeat split; intros ->; discriminate.
Qed.

Lemma escape_char_markup_free (c : N) : Forall markup_free (Py.escape_char c).
Proof.
  destruct (escape_char_cases c)
    as [[_ ->]|[[_ ->]|[[_ ->]|[[_ ->]|[[_ ->]|[H ->]]]]]];
    try (repeat constructor; discriminate).
  constructor; [exact (is_special_markup_free c H)|constructor].
Qed.

Lemma escape_markup_free (text : pystr) : Forall markup_free (Py.escape text).
Proof.
  unfold Py.escape. induction text as [|c text IH]; [constructor|].
  cbn [flat_map]. apply Forall_app. split; [apply escape_char_markup_free|exact IH].
Qed.

Lemma escape_plain (text : pystr) :
  Forall (fun c => is_special c = false) text -> Py.escape text = text.
Proof.
  unfold Py.escape. induction 1 as [|c text Hc _ IH]; [reflexivity|].
  cbn [flat_map]. rewrite IH.
  destruct (escape_char_cases c)
    as [[-> _]|[[-> _]|[[-> _]|[[-> _]|[[-> _]|[_ ->]]]]]];
    try discriminate.
  reflexivity.
Qed.

Lemma escape_char_head (c1 c2 : N) (r1 r2 : pystr) :
  Py.escape_char c1 ++ r1 = Py.escape_char c2 ++ r2 -> c1 = c2 /\ r1 = r2.
Proof.
  destruct (escape_char_cases c1)
    as [[E1 ->]|[[E1 ->]|[[E1 ->]|[[E1 ->]|[[E1 ->]|[E1 ->]]]]]];
  destruct (escape_char_cases c2)
    as [[E2 ->]|[[E2 ->]|[[E2 ->]|[[E2 ->]|[[E2 ->]|[E2 ->]]]]]];
  cbn [app]; intros H; subst;
  try (injection H; intros; subst; try discriminate; split; congruence).
Qed.

Lemma escape_injective (s1 s2 : pystr) :
  Py.escape s1 = Py.escape s2 -> s1 = s2.
Proof.
  unfold Py.escape. revert s2.
  induction s1 as [|c1 s1 IH]; intros [|c2 s2]; cbn [flat_map]; intros H.
  - reflexivity.
  - destruct (escape_char_cases c2)
      as [[_ E]|[[_ E]|[[_ E]|[[_ E]|[[_ E]|[_ E]]]]]];
      rewrite E in H; discriminate.
  - destruct (escape_char_cases c1)
      as [[_ E]|[[_ E]|[[_ E]|[[_ E]|[[_ E]|[_ E]]]]]];
      rewrite E in H; discriminate.
  - apply escape_char_head in H. destruct H as [-> H].
    f_equal. apply IH, H.
Qed.

(** X16. The text is data in the document [speakText] builds.  The
    document is a frame that depends on the voice, the profile and the
    ending silence only, around the escaped text; the escaped text holds
    no angle bracket and no quote, so it can neither close the element it
    is in nor open one; a text without [&], [<], [>] and quotes is put in
    as it is; and different texts give different documents. *)
Theorem speakText_text_is_data (voice : pystr)
    (speaker_profile_id : option pystr) (ending_silence_ms : Z) :
  exists before after,
    forall text,
      speakText_ssml text voice speaker_profile_id ending_silence_ms
      = before ++ Py.escape text ++ after
      /\ Forall markup_free (Py.escape text)
      /\ (Forall (fun c => is_special c = false) text ->
          Py.escape text = text)
      /\ (forall text',
            speakText_ssml text' voice speaker_profile_id ending_silence_ms
            = speakText_ssml text voice speaker_profile_id ending_silence_ms ->
            text' = text).
Proof.
  unfold speakText_ssml.
  destruct (0 <? ending_silence_ms)%Z.
  - eexists (speak_open ++ nl
             ++ sp 21 ++ str "<voice name='" ++ voice ++ str "'>" ++ nl
             ++ sp 25 ++ str "<mstts:ttsembedding speakerProfileId='"
             ++ Py.fmt speaker_profile_id ++ str "'>" ++ nl
             ++ sp 29 ++ str "<mstts:leadingsilence-exact value='0'/>" ++ nl
             ++ sp 29), _.
    intros text.
    assert (Shape : forall t,
      speak_open ++ nl
      ++ sp 21 ++ str "<voice name='" ++ voice ++ str "'>" ++ nl
      ++ sp 25 ++ str "<mstts:ttsembedding speakerProfileId='"
      ++ Py.fmt speaker_profile_id ++ str "'>" ++ nl
      ++ sp 29 ++ str "<mstts:leadingsilence-exact value='0'/>" ++ nl
      ++ sp 29 ++ Py.escape t ++ nl
      ++ sp 29 ++ break_directive ending_silence_ms ++ nl
      ++ sp 25 ++ str "</mstts:ttsembedding>" ++ nl
      ++ sp 21 ++ str "</voice>" ++ nl
      ++ sp 19 ++ str "</speak>"
      = (speak_open ++ nl
         ++ sp 21 ++ str "<voice name='" ++ voice ++ str "'>" ++ nl
         ++ sp 25 ++ str "<mstts:ttsembedding speakerProfileId='"
         ++ Py.fmt speaker_profile_id ++ str "'>" ++ nl
         ++ sp 29 ++ str "<mstts:leadingsilence-exact value='0'/>" ++ nl
         ++ sp 29)
        ++ Py.escape t
        ++ (nl ++ sp 29 ++ break_directive ending_silence_ms ++ nl
            ++ sp 25 ++ str "</mstts:ttsembedding>" ++ nl
            ++ sp 21 ++ str "</voice>" ++ nl
            ++ sp 19 ++ str "</speak>")).
    { intros t. rewrite <- !app_assoc. reflexivity. }
    refine (conj (Shape text) (conj (escape_markup_free text)
              (conj (escape_plain text) _))).
    intros text' H. rewrite !Shape in H.
    apply app_inv_head in H. apply app_inv_tail in H.
    apply escape_injective, H.
  - eexists (speak_open ++ nl
             ++ sp 17 ++ str "<voice name='" ++ voice ++ str "'>" ++ nl
             ++ sp 21 ++ str "<mstts:ttsembedding speakerProfileId='"
             ++ Py.fmt speaker_profile_id ++ str "'>" ++ nl
             ++ sp 25 ++ str "<mstts:leadingsilence-exact value='0'/>" ++ nl
             ++ sp 25), _.
    intros text.
    assert (Shape : forall t,
      speak_open ++ nl
      ++ sp 17 ++ str "<voice name='" ++ voice ++ str "'>" ++ nl
      ++ sp 21 ++ str "<mstts:ttsembedding speakerProfileId='"
      ++ Py.fmt speaker_profile_id ++ str "'>" ++ nl
      ++ sp 25 ++ str "<mstts:leadingsilence-exact value='0'/>" ++ nl
      ++ sp 25 ++ Py.escape t ++ nl
      ++ sp 21 ++ str "</mstts:ttsembedding>" ++ nl
      ++ sp 17 ++ str "</voice>" ++ nl
      ++ sp 15 ++ str "</speak>"
      = (speak_open ++ nl
         ++ sp 17 ++ str "<voice name='" ++ voice ++ str "'>" ++ nl
         ++ sp 21 ++ str "<mstts:ttsembedding speakerProfileId='"
         ++ Py.fmt speaker_profile_id ++ str "'>" ++ nl
         ++ sp 25 ++ str "<mstts:leadingsilence-exact value='0'/>" ++ nl
         ++ sp 25)
        ++ Py.escape t
        ++ (nl ++ sp 21 ++ str "</mstts:ttsembedding>" ++ nl
            ++ sp 17 ++ str "</voice>" ++ nl
            ++ sp 15 ++ str "</speak>")).
    { intros t. rewrite <- !app_assoc. reflexivity. }
    refine (conj (Shape text) (conj (escape_markup_free text)
              (conj (escape_plain text) _))).
    intros text' H. rewrite !Shape in H.
    apply app_inv_head in H. apply app_inv_tail in H.
    apply escape_injective, H.
Qed.

(** ** Turns of a conversation *)

Section Conversation.

Variable json_loads : pystr -> option json.
Variable is_decimal : N -> bool.

(** X17. Two turns in a row on the route [/api/chat].  The second request
    goes to the same URL with the same data sources, and its messages are
    those of the first request, then what the first turn recorded (the
    tool and assistant messages when it ran to its end, nothing when it
    failed), then the new question: a question whose turn failed is sent
    again with the next one.  The [SystemPrompt] header of the second
    call is not looked at. *)
Theorem chat_turns_compose (h1 h2 : headers) (q1 q2 : pystr)
    (post1 post2 : http_result) (w : state) (rq1 : chat_request) :
  let r1 := chat_route json_loads is_decimal h1 q1 post1 w in
  let r2 := chat_route json_loads is_decimal h2 q2 post2 (final r1) in
  sent r1 = Some rq1 ->
  exists rq2 tool,
    sent r2 = Some rq2
    /\ req_url rq2 = req_url rq1
    /\ req_dataSources rq2 = req_dataSources rq1
    /\ req_messages rq2
       = req_messages rq1
         ++ match how r1 with
            | Completed =>
                match req_dataSources rq1 with
                | Some _ => [Message RTool tool]
                | None => []
                end
                ++ [Message RAssistant (JStr (strings_of (tokens_out r1)))]
            | _ => []
            end
         ++ [Message RUser (JStr q2)]
    /\ forall h2',
         chat_route json_loads is_decimal h2' q2 post2 (final r1) = r2.
Proof.
  cbv zeta.
  set (w1 := if chat_initiated (cht w) then w
             else set_cht
                    (set_chat_initiated true
                       (cht (initializeChatContext (h1 !! "SystemPrompt"%string) w)))
                    (initializeChatContext (h1 !! "SystemPrompt"%string) w)).
  assert (Hi : chat_initiated (cht w1) = true).
  { subst w1. destruct (chat_initiated (cht w)) eqn:E; [exact E|reflexivity]. }
  change (chat_route json_loads is_decimal h1 q1 post1 w)
    with (handleUserQuery json_loads is_decimal q1 post1 w1).
  destruct (handleUserQuery_growth json_loads is_decimal q1 post1 w1)
    as (added & started & tool & _ & _ & _ & _ & _ & Hsame & Hcht).
  cbv zeta in Hsame, Hcht. destruct Hsame as (Hcfg & _).
  set (r1 := handleUserQuery json_loads is_decimal q1 post1 w1) in *.
  assert (Hi1 : chat_initiated (cht (final r1)) = true)
    by (rewrite Hcht; exact Hi).
  unfold chat_route. rewrite Hi1.
  rewrite handleUserQuery_sent. subst r1. rewrite handleUserQuery_sent.
  set (r1 := handleUserQuery json_loads is_decimal q1 post1 w1) in *.
  rewrite Hcfg, Hcht. cbn [data_sources messages set_messages].
  destruct ((0 <? length (data_sources (cht w1)))%nat
            && enable_quick_reply (cfg w1)); [discriminate|].
  intros [= <-]. eexists _, tool.
  split; [reflexivity|]. cbn [req_url req_dataSources req_messages].
  refine (conj eq_refl (conj eq_refl (conj _ (fun _ => eq_refl)))).
  destruct (how r1); destruct (0 <? length (data_sources (cht w1)))%nat;
    rewrite <- !app_assoc; reflexivity.
Qed.

End Conversation.

Lemma chat_turns_compose_witness :
  let r1 := chat_route loads_known ascii_digit ∅ (str "Hi")
              (answer hello_stream) (idle plain_config) in
  let r2 := chat_route loads_known ascii_digit ∅ (str "And then?")
              (answer hello_whole) (final r1) in
  exists rq2 tool,
    sent r2 = Some rq2
    /\ req_url rq2 = req_url first_request
    /\ req_dataSources rq2 = req_dataSources first_request
    /\ req_messages rq2
       = req_messages first_request
         ++ match how r1 with
            | Completed =>
                match req_dataSources first_request with
                | Some _ => [Message RTool tool]
                | None => []
                end
                ++ [Message RAssistant (JStr (strings_of (tokens_out r1)))]
            | _ => []
            end
         ++ [Message RUser (JStr (str "And then?"))]
    /\ forall h2',
         chat_route loads_known ascii_digit h2' (str "And then?")
           (answer hello_whole) (final r1) = r2.
Proof.
  exact (chat_turns_compose loads_known ascii_digit ∅ ∅ (str "Hi")
           (str "And then?") (answer hello_stream) (answer hello_whole)
           (idle plain_config) first_request eq_refl).
Defined.

(** X18. A reconnection between two questions.  [connectAvatar] rewrites
    the deployment name and the search index name, but a chat already
    initiated keeps the data sources it was initiated with: the next
    request goes to the new deployment and still names the old index (or
    none).  Only [clearChatHistory] brings the new index in, and with it
    the form of the request. *)
Theorem reconnect_keeps_data_sources (json_loads : pystr -> option json)
    (is_decimal : N -> bool) (hc h : headers) (built : bool) (q : pystr)
    (post : http_result) (w : state) (rq : chat_request) :
  chat_initiated (cht w) = true ->
  sent (chat_route json_loads is_decimal h q post (connectAvatar hc built w))
  = Some rq ->
  req_url rq
  = chat_url (override_config hc (cfg w))
      (0 <? length (data_sources (cht w)))%nat
  /\ req_dataSources rq
     = (if (0 <? length (data_sources (cht w)))%nat
        then Some (data_sources (cht w)) else None)
  /\ req_messages rq = messages (cht w) ++ [Message RUser (JStr q)]
  /\ forall h' rq',
       sent (chat_route json_loads is_decimal h q post
               (clearChatHistory h' (connectAvatar hc built w)))
       = Some rq' ->
       req_url rq'
       = chat_url (override_config hc (cfg w))
           (search_configured (override_config hc (cfg w)))
       /\ match req_dataSources rq' with
          | Some sources =>
              search_configured (override_config hc (cfg w)) = true
              /\ List.map ds_indexName sources
                 = [cognitive_search_index_name (override_config hc (cfg w))]
          | None => search_configured (override_config hc (cfg w)) = false
          end.
Proof.
  intros Hi Hs.
  assert (Hcht : cht (connectAvatar hc built w) = cht w)
    by (unfold connectAvatar; destruct built; reflexivity).
  assert (Hcfg : forall b, cfg (connectAvatar hc b w)
                           = override_config hc (cfg w))
    by (intros b; unfold connectAvatar; destruct b; reflexivity).
  unfold chat_route in Hs. rewrite Hcht, Hi, handleUserQuery_sent in Hs.
  rewrite Hcht, Hcfg in Hs.
  destruct ((0 <? length (data_sources (cht w)))%nat
            && enable_quick_reply (override_config hc (cfg w)));
    [discriminate|].
  injection Hs as <-. cbn [req_url req_dataSources req_messages].
  refine (conj eq_refl (conj eq_refl (conj eq_refl _))).
  intros h' rq' Hs'. unfold chat_route, clearChatHistory in Hs'.
  cbn [cht set_cht chat_initiated set_chat_initiated] in Hs'.
  rewrite handleUserQuery_sent in Hs'.
  unfold initializeChatContext in Hs'.
  cbn [cht cfg set_cht chat_initiated set_chat_initiated data_sources
       messages] in Hs'.
  rewrite Hcfg in Hs'.
  destruct (search_configured (override_config hc (cfg w)));
    cbn [length Nat.ltb Nat.leb andb] in Hs'.
  - destruct (enable_quick_reply (override_config hc (cfg w)));
      [discriminate|].
    injection Hs' as <-. cbn. split; [reflexivity|]. split; reflexivity.
  - injection Hs' as <-. cbn. split; reflexivity.
Qed.

Lemma reconnect_keeps_data_sources_witness :
  let rq :=
    ChatRequest (chat_url (override_config other_index search_config) true)
      (Some (data_sources (cht initiated_search)))
      (messages (cht initiated_search) ++ [Message RUser (JStr (str "Hi"))])
      true in
  req_url rq = chat_url (override_config other_index search_config) true
  /\ req_dataSources rq = Some (data_sources (cht initiated_search))
  /\ req_messages rq
     = messages (cht initiated_search) ++ [Message RUser (JStr (str "Hi"))]
  /\ forall h' rq',
       sent (chat_route loads_known ascii_digit ∅ (str "Hi")
               (answer hello_whole)
               (clearChatHistory h'
                  (connectAvatar other_index true initiated_search)))
       = Some rq' ->
       req_url rq'
       = chat_url (override_config other_index search_config)
           (search_configured (override_config other_index search_config))
       /\ match req_dataSources rq' with
          | Some sources =>
              search_configured (override_config other_index search_config)
              = true
              /\ List.map ds_indexName sources
                 = [cognitive_search_index_name
                      (override_config other_index search_config)]
          | None =>
              search_configured (override_config other_index search_config)
              = false
          end.
Proof.
  exact (reconnect_keeps_data_sources loads_known ascii_digit other_index ∅
           true (str "Hi") (answer hello_whole) initiated_search _
           eq_refl eq_refl).
Defined.

(** ** Order of speech when stops are allowed *)

(** What any action does to the queue, to the texts held and to the
    log. *)
Lemma step_order (a : action) (w w1 : state) (y : synthesizer) :
  speech_synthesizer (spk w) = Some y ->
  step a w = Some w1 ->
  exists taken called new,
    sublist (taken ++ spoken_text_queue (spk w1))
      (spoken_text_queue (spk w) ++ enqueued [a])
    /\ (is_stop a = true -> taken = [] /\ spoken_text_queue (spk w1) = [])
    /\ (is_stop a = false ->
        spoken_text_queue (spk w) ++ enqueued [a]
        = taken ++ spoken_text_queue (spk w1))
    /\ synth_log w1 = synth_log w ++ new
    /\ Forall2 (document_of (tts_voice (cfg w))
                  (personal_voice_speaker_profile_id (cfg w)))
         called (begun new)
    /\ held w ++ taken ≡ₚ called ++ held w1
    /\ cfg w1 = cfg w
    /\ speech_synthesizer (spk w1) = Some y.
Proof.
  intros Hy Hs. destruct (is_stop a) eqn:Ha.
  - destruct a; try discriminate. cbn in Hs. injection Hs as <-.
    exists [], [], []. cbn. rewrite !app_nil_r.
    refine (conj (sublist_nil_l _) (conj (fun _ => conj eq_refl eq_refl)
              (conj _ (conj eq_refl (conj _ (conj _ (conj eq_refl Hy))))))).
    + discriminate.
    + constructor.
    + reflexivity.
  - destruct (step_fifo a w w1 y Ha Hy Hs)
      as (t & c & n & Hq & Hl & Hd & Hp & Hc & Hy1).
    exists t, c, n. rewrite Hq.
    refine (conj _ (conj _ (conj (fun _ => eq_refl)
              (conj Hl (conj Hd (conj Hp (conj Hc Hy1))))))).
    + reflexivity.
    + discriminate.
Qed.

(** X19. No text is handed to the synthesizer twice, and none that was
    not enqueued, stops or not.  In every execution with a synthesizer
    connected, the texts taken from the queue followed by the texts still
    queued are, in that order, among the texts queued at the start
    followed by those enqueued since (a stop only drops texts); and the
    texts held at the start together with those taken are, up to order,
    those of the calls begun together with those still held.  (With two
    workers the calls need not begin in the order of the pops.) *)
Theorem spoken_in_order (sched : list action) (w w' : state) :
  speech_synthesizer (spk w) <> None ->
  run sched w = Some w' ->
  exists taken called new,
    sublist (taken ++ spoken_text_queue (spk w'))
      (spoken_text_queue (spk w) ++ enqueued sched)
    /\ synth_log w' = synth_log w ++ new
    /\ Forall2 (document_of (tts_voice (cfg w))
                  (personal_voice_speaker_profile_id (cfg w)))
         called (begun new)
    /\ held w ++ taken ≡ₚ called ++ held w'.
Proof.
  revert w. induction sched as [|a sched IH]; intros w Hy Hrun.
  - injection Hrun as <-. exists [], [], []. cbn. rewrite !app_nil_r.
    split; [reflexivity|]. split; [reflexivity|].
    split; [constructor|reflexivity].
  - cbn [run] in Hrun. destruct (step a w) as [w1|] eqn:Es; [|discriminate].
    destruct (speech_synthesizer (spk w)) as [y|] eqn:Ey; [|congruence].
    destruct (step_order a w w1 y Ey Es)
      as (t1 & c1 & n1 & _ & Hstop & Hgo & Hl1 & Hd1 & Hp1 & Hc1 & Hy1).
    destruct (IH w1) as (t2 & c2 & n2 & Hq2 & Hl2 & Hd2 & Hp2);
      [congruence|exact Hrun|].
    exists (t1 ++ t2), (c1 ++ c2), (n1 ++ n2). split; [|split; [|split]].
    + rewrite enqueued_cons, app_assoc.
      destruct (is_stop a) eqn:Ha.
      * destruct (Hstop eq_refl) as [-> Hq1]. rewrite Hq1 in Hq2.
        cbn [app] in *. apply sublist_inserts_l, Hq2.
      * rewrite (Hgo eq_refl), <- !app_assoc.
        apply sublist_app; [reflexivity|exact Hq2].
    + rewrite Hl2, Hl1. now rewrite app_assoc.
    + rewrite begun_app. apply Forall2_app; [exact Hd1|]. now rewrite <- Hc1.
    + rewrite app_assoc, Hp1, <- !app_assoc. now rewrite Hp2.
Qed.

Lemma spoken_in_order_witness :
  exists w' taken called new,
    run interrupted draining = Some w'
    /\ sublist (taken ++ spoken_text_queue (spk w'))
         ([str "Hello, world."; str "How are you?"] ++ [str "Bye."])
    /\ synth_log w' = synth_log draining ++ new
    /\ Forall2 (document_of (str "en-US-JennyMultilingualV2Neural") None)
         called (begun new)
    /\ held draining ++ taken ≡ₚ called ++ held w'.
Proof.
  destruct (run interrupted draining) as [w'|] eqn:E;
    [|vm_compute in E; discriminate].
  destruct (spoken_in_order interrupted draining w' ltac:(discriminate) E)
    as (taken & called & new & H).
  exists w', taken, called, new. split; [reflexivity|exact H].
Defined.

(** ** The answers of [/api/speak] and [/api/connectAvatar] *)

(** X20. The route [/api/speak] never answers 400.  It answers 200 with
    the result id exactly when the body decodes, a synthesizer is there and
    the call returns without an error; in every other case the [except]
    clause reads [result_id] before it was bound, so the handler itself
    raises and the error text is never sent. *)
Theorem speak_never_answers_400 (data : option pystr)
    (call : option synthesis_result) (w : state) :
  (forall id e, speak data call w <> BadRequest id e)
  /\ (forall id,
        speak data call w = Ok id
        <-> data <> None
            /\ speech_synthesizer (spk w) <> None
            /\ exists res, call = Some res /\ speakSsml res = inl id)
  /\ ((forall id, speak data call w <> Ok id)
      -> speak data call w = HandlerRaised).
Proof.
  unfold speak, speak_body.
  destruct data as [ssml|].
  2: { cbn. split; [discriminate|]. split; [|reflexivity].
       intros id. split; [discriminate|]. intros (H & _). congruence. }
  destruct (speech_synthesizer (spk w)) as [y|].
  2: { cbn. split; [discriminate|]. split; [|reflexivity].
       intros id. split; [discriminate|]. intros (_ & H & _). congruence. }
  destruct call as [res|].
  2: { cbn. split; [discriminate|]. split; [|reflexivity].
       intros id. split; [discriminate|].
       intros (_ & _ & res & H & _). discriminate. }
  destruct (speakSsml res) as [id'|details] eqn:E; cbn [except_handler].
  - split; [discriminate|]. split.
    + intros id. split.
      * intros [= <-]. repeat split; try discriminate. now exists res.
      * intros (_ & _ & res' & [= <-] & Hs). congruence.
    + intros H. now destruct (H id').
  - split; [discriminate|]. split; [|reflexivity].
    intros id. split; [discriminate|].
    intros (_ & _ & res' & [= <-] & Hs). congruence.
Qed.

Section ConnectReplyFacts.

Variable json_loads : pystr -> option json.

Ltac reply_crack :=
  repeat match goal with
         | H : _ /\ _ |- _ => destruct H
         | H : exists _, _ |- _ => destruct H
         | H : _ \/ _ |- _ => destruct H
         | H : Some _ = Some _ |- _ => injection H as H; subst
         | H : Ok _ = Ok _ |- _ => injection H as H; subst
         | H : BadRequest _ _ = BadRequest _ _ |- _ =>
             let H1 := fresh in let H2 := fresh in
             injection H as H1 H2; subst
         | H : match ?e with CanceledWith _ => _ | LibraryRaised => _ end |- _ =>
             destruct e
         end;
  try discriminate; try congruence.

(** What the avatar configuration needs, spelled out. *)
Lemma avatar_config_inputs_spec (h : headers) (w : state)
    (url username password : json) (v : pystr) :
  avatar_config_inputs json_loads h w = Some (url, username, password, v)
  <-> exists t obj urls,
        ice_token (tok w) = Some t
        /\ json_loads t = Some obj
        /\ PyJson.getitem obj (str "Urls") = Some urls
        /\ PyJson.getitem0 urls = Some url
        /\ PyJson.getitem obj (str "Username") = Some username
        /\ PyJson.getitem obj (str "Password") = Some password
        /\ h !! "IsCustomAvatar"%string = Some v.
Proof.
  unfold avatar_config_inputs. split.
  - intros H. repeat case_match; simplify_eq. eauto 12.
  - intros (t & obj & urls & -> & -> & -> & -> & -> & -> & ->). reflexivity.
Qed.

(** X21. What [/api/connectAvatar] answers.  It answers 200 exactly when
    the SDK objects are built, the ICE token parses and has its three
    fields, the [IsCustomAvatar] header is there, the connection takes the
    configuration, the empty synthesis call returns without an error and
    the turn start message holds the connection string, which is the
    body.  It answers 400 exactly for what goes wrong once that call has
    returned (a cancellation with an error, a turn start message that
    cannot be used), and then with that call's result id.  Everything
    that goes wrong before (the constructors raising, no ICE token yet, a
    token that is not the expected JSON, no [IsCustomAvatar] header, the
    connection refusing the configuration, the call itself raising) makes
    the handler itself raise, and nothing else does.  The settings are
    overridden all the same; the synthesizer is the new one, built for
    the overridden settings, when the constructors returned, and the old
    one when they raised. *)
Theorem connectAvatar_reply_cases (h : headers) (sdk : sdk_session)
    (w : state) :
  let answer := connectAvatar_reply json_loads h sdk w in
  let w' := connectAvatar h (sdk_built sdk) w in
  (forall sdp,
     answer = Ok sdp
     <-> sdk_built sdk = true
         /\ avatar_config_inputs json_loads h w <> None
         /\ sdk_configured sdk = true
         /\ (exists res, sdk_first_call sdk = Some res
                         /\ forall d, reason res <> Canceled CancelError d)
         /\ remote_sdp json_loads sdk = Some sdp)
  /\ (forall id e,
        answer = BadRequest id e
        <-> sdk_built sdk = true
            /\ avatar_config_inputs json_loads h w <> None
            /\ sdk_configured sdk = true
            /\ exists res,
                 sdk_first_call sdk = Some res /\ id = result_id res
                 /\ match e with
                    | CanceledWith d => reason res = Canceled CancelError d
                    | LibraryRaised =>
                        (forall d, reason res <> Canceled CancelError d)
                        /\ remote_sdp json_loads sdk = None
                    end)
  /\ (answer = HandlerRaised
      <-> sdk_built sdk = false
          \/ avatar_config_inputs json_loads h w = None
          \/ sdk_configured sdk = false
          \/ sdk_first_call sdk = None)
  /\ (forall url username password v,
        avatar_config_inputs json_loads h w = Some (url, username, password, v)
        <-> exists t obj urls,
              ice_token (tok w) = Some t
              /\ json_loads t = Some obj
              /\ PyJson.getitem obj (str "Urls") = Some urls
              /\ PyJson.getitem0 urls = Some url
              /\ PyJson.getitem obj (str "Username") = Some username
              /\ PyJson.getitem obj (str "Password") = Some password
              /\ h !! "IsCustomAvatar"%string = Some v)
  /\ cfg w' = override_config h (cfg w)
  /\ speech_synthesizer (spk w')
     = if sdk_built sdk
       then Some (Synthesizer (synthesis_endpoint (cfg w'))
                    (if Py.truthy (custom_voice_endpoint_id (cfg w'))
                     then custom_voice_endpoint_id (cfg w') else None))
       else speech_synthesizer (spk w).
Proof.
  cbv zeta. unfold connectAvatar_reply, connectAvatar_body.
  refine (conj _ (conj _ (conj _ (conj (avatar_config_inputs_spec h w)
            (conj _ _))))).
  - intros sdp.
    destruct (sdk_built sdk); cbn [negb]; [|split; intros H; reply_crack].
    destruct (avatar_config_inputs json_loads h w) as [c|];
      [|split; intros H; reply_crack].
    destruct (sdk_configured sdk); cbn [negb]; [|split; intros H; reply_crack].
    destruct (sdk_first_call sdk) as [res|]; [|split; intros H; reply_crack].
    destruct (reason res) as [|[|] d] eqn:Er;
      try destruct (remote_sdp json_loads sdk) as [sdp'|];
      cbn [except_handler option_map]; split; intros H; reply_crack;
      (refine (conj eq_refl (conj _ (conj eq_refl
                 (conj (ex_intro _ res (conj eq_refl _)) eq_refl))));
       [discriminate|intros d'; congruence]).
  - intros id e.
    destruct (sdk_built sdk); cbn [negb]; [|split; intros H; reply_crack].
    destruct (avatar_config_inputs json_loads h w) as [c|];
      [|split; intros H; reply_crack].
    destruct (sdk_configured sdk); cbn [negb]; [|split; intros H; reply_crack].
    destruct (sdk_first_call sdk) as [res|]; [|split; intros H; reply_crack].
    destruct (reason res) as [|[|] d] eqn:Er;
      try destruct (remote_sdp json_loads sdk) as [sdp'|];
      cbn [except_handler option_map]; destruct e; split; intros H;
      reply_crack;
      repeat split; try discriminate;
      exists res; repeat split; try congruence; intros d'; congruence.
  - destruct (sdk_built sdk); cbn [negb]; [|split; auto].
    destruct (avatar_config_inputs json_loads h w) as [c|]; [|split; auto].
    destruct (sdk_configured sdk); cbn [negb]; [|split; auto].
    destruct (sdk_first_call sdk) as [res|]; [|split; auto].
    destruct (reason res) as [|[|] d] eqn:Er;
      try destruct (remote_sdp json_loads sdk) as [sdp'|];
      cbn [except_handler option_map]; split; intros H; reply_crack.
  - unfold connectAvatar. destruct (sdk_built sdk); reflexivity.
  - unfold connectAvatar. destruct (sdk_built sdk); reflexivity.
Qed.

End ConnectReplyFacts.

Lemma speak_never_answers_400_witness :
  speak (Some (str "<speak>Hi</speak>")) (Some (spoken "r1"))
    (idle plain_config)
  = Ok (str "r1").
Proof.
  apply (proj1 (proj2 (speak_never_answers_400
                         (Some (str "<speak>Hi</speak>")) (Some (spoken "r1"))
                         (idle plain_config)))).
  split; [discriminate|]. split; [discriminate|].
  exists (spoken "r1"). split; reflexivity.
Defined.

Lemma connectAvatar_reply_cases_witness :
  connectAvatar_reply relay_loads avatar_headers good_session
    (with_relay_token (idle plain_config))
  = Ok (JStr (str "remote-sdp")).
Proof.
  apply (proj1 (connectAvatar_reply_cases relay_loads avatar_headers
                  good_session (with_relay_token (idle plain_config)))).
  split; [reflexivity|]. split; [vm_compute; discriminate|].
  split; [reflexivity|]. split; [|reflexivity].
  exists (spoken "r0"). split; [reflexivity|]. intros d. discriminate.
Defined.

(** ** Invariants of the process *)

Lemma tok_step (a : action) (w w' : state) :
  step a w = Some w' -> tok w' = tok w.
Proof.
  destruct a as [text ms| |tid|tid res now]; cbn.
  - intros [= <-]. unfold speakWithQueue. cbn.
    destruct (is_speaking (spk w)); reflexivity.
  - intros [= <-]. reflexivity.
  - unfold worker_step. destruct (threads w !! tid) as [t|]; [|discriminate].
    destruct (t_pc t); try discriminate;
      repeat match goal with
             | |- context [match spoken_text_queue (spk w) with _ => _ end] =>
                 destruct (spoken_text_queue (spk w))
             | |- context [match speech_synthesizer (spk w) with _ => _ end] =>
                 destruct (speech_synthesizer (spk w))
             end;
      intros [= <-]; now rewrite (proj1 (proj2 (set_pc_fields _ _ _))).
  - unfold synth_done. destruct (threads w !! tid) as [t|]; [|discriminate].
    destruct (t_pc t); try discriminate.
    destruct (speakSsml res); intros [= <-];
      now rewrite (proj1 (proj2 (set_pc_fields _ _ _))).
Qed.

Section ProcessFacts.

Variable json_loads : pystr -> option json.
Variable is_decimal : N -> bool.

(** The state a chat turn of the route starts in. *)
Lemma chat_route_final (h : headers) (q : pystr) (post : http_result)
    (w : state) :
  exists w1,
    chat_route json_loads is_decimal h q post w
    = handleUserQuery json_loads is_decimal q post w1
    /\ cfg w1 = cfg w /\ tok w1 = tok w
    /\ chat_initiated (cht w1) = true
    /\ (chat_initiated (cht w) = true -> w1 = w).
Proof.
  unfold chat_route. destruct (chat_initiated (cht w)) eqn:E.
  - exists w. auto.
  - eexists. split; [reflexivity|]. repeat split. discriminate.
Qed.

Lemma serve_startup (r : request) (w w' : state) :
  serve json_loads is_decimal r w = Some w' ->
  startup_values w' = startup_values w.
Proof.
  destruct r as [h built|h q post|h|a|r]; cbn [serve].
  - intros [= <-]. unfold connectAvatar. destruct built; reflexivity.
  - intros [= <-].
    destruct (chat_route_final h q post w) as (w1 & -> & Hc & Ht & _).
    destruct (handleUserQuery_growth json_loads is_decimal q post w1)
      as (_ & _ & _ & _ & _ & _ & _ & _ & (Hc' & Ht' & _) & _).
    cbv zeta in Hc', Ht'. unfold startup_values.
    now rewrite Hc', Ht', Hc, Ht.
  - intros [= <-]. reflexivity.
  - intros H. unfold startup_values.
    now rewrite (tok_step a w w' H), (cfg_step a w w' H).
  - intros [= <-]. reflexivity.
Qed.

(** X22. The values set when the module is loaded are never assigned
    again: whatever requests are served, whatever the workers do and
    however often the speech token is refreshed, the relay (ICE) token, the
    region, the keys, the endpoints and [enable_quick_reply] are those of
    the start.  So every connection uses the relay token fetched at
    startup, and in a process started with [enable_quick_reply] off the
    quick-reply branch is never taken: every chat turn sends its
    request. *)
Theorem startup_values_kept (reqs : list request) (w w' : state) :
  serve_all json_loads is_decimal reqs w = Some w' ->
  startup_values w' = startup_values w
  /\ (enable_quick_reply (cfg w) = false ->
      forall h q post,
        sent (chat_route json_loads is_decimal h q post w') <> None).
Proof.
  intros H.
  assert (Hs : startup_values w' = startup_values w).
  { revert w H. induction reqs as [|r reqs IH]; intros w H; cbn in H.
    - now injection H as <-.
    - destruct (serve json_loads is_decimal r w) as [w1|] eqn:E;
        [|discriminate].
      rewrite (IH w1 H). eapply serve_startup, E. }
  split; [exact Hs|]. intros Hq h q post.
  destruct (chat_route_final h q post w') as (w1 & -> & Hc & _).
  rewrite handleUserQuery_sent, Hc.
  replace (enable_quick_reply (cfg w')) with false
    by (rewrite <- Hq; exact (f_equal st_enable_quick_reply (eq_sym Hs))).
  rewrite andb_false_r. discriminate.
Qed.

Lemma serve_history (r : request) (w w' : state) :
  is_clear r = false ->
  chat_initiated (cht w) = true ->
  serve json_loads is_decimal r w = Some w' ->
  exists more,
    messages (cht w') = messages (cht w) ++ more
    /\ data_sources (cht w') = data_sources (cht w)
    /\ chat_initiated (cht w') = true.
Proof.
  intros Hr Hi.
  destruct r as [h built|h q post|h|a|r]; cbn [serve]; try discriminate.
  - intros [= <-]. exists []. rewrite app_nil_r.
    unfold connectAvatar. destruct built; cbn; auto.
  - intros [= <-].
    destruct (chat_route_final h q post w) as (w1 & -> & _ & _ & _ & Hw).
    rewrite (Hw Hi).
    destruct (handleUserQuery_growth json_loads is_decimal q post w)
      as (_ & _ & tool & _ & _ & _ & _ & _ & _ & Hcht).
    cbv zeta in Hcht. rewrite Hcht. cbn [messages data_sources chat_initiated
      set_messages]. eexists. auto.
  - intros H. destruct (cht_step a w w' H) as [-> _].
    exists []. rewrite app_nil_r. auto.
  - intros [= <-]. exists []. rewrite app_nil_r. auto.
Qed.

(** X23. Only [clearChatHistory] drops history.  Once the chat is
    initiated, whatever else is served (reconnections, questions that
    succeed or fail, speech, token refreshes), the history is the earlier
    history with messages added at its end, the data sources are those the
    chat was initiated with, and the chat stays initiated. *)
Theorem history_only_grows (reqs : list request) (w w' : state) :
  forallb (fun r => negb (is_clear r)) reqs = true ->
  chat_initiated (cht w) = true ->
  serve_all json_loads is_decimal reqs w = Some w' ->
  exists more,
    messages (cht w') = messages (cht w) ++ more
    /\ data_sources (cht w') = data_sources (cht w)
    /\ chat_initiated (cht w') = true.
Proof.
  revert w. induction reqs as [|r reqs IH]; intros w Hn Hi H; cbn in H.
  - injection H as <-. exists []. rewrite app_nil_r. auto.
  - cbn in Hn. apply andb_true_iff in Hn as [Hr Hn].
    apply negb_true_iff in Hr.
    destruct (serve json_loads is_decimal r w) as [w1|] eqn:E; [|discriminate].
    destruct (serve_history r w w1 Hr Hi E) as (m1 & Hm1 & Hd1 & Hi1).
    destruct (IH w1 Hn Hi1 H) as (m2 & Hm2 & Hd2 & Hi2).
    exists (m1 ++ m2). rewrite Hm2, Hm1, Hd2, Hd1, app_assoc. auto.
Qed.

End ProcessFacts.

Lemma startup_values_kept_witness :
  exists w',
    serve_all loads_known ascii_digit session initiated_search = Some w'
    /\ startup_values w' = startup_values initiated_search
    /\ (false = false ->
        forall h q post,
          sent (chat_route loads_known ascii_digit h q post w') <> None).
Proof.
  destruct (serve_all loads_known ascii_digit session initiated_search)
    as [w'|] eqn:E; [|vm_compute in E; discriminate].
  exists w'. split; [reflexivity|].
  exact (startup_values_kept loads_known ascii_digit session
           initiated_search w' E).
Defined.

Lemma history_only_grows_witness :
  exists w' more,
    serve_all loads_known ascii_digit session initiated_search = Some w'
    /\ messages (cht w') = messages (cht initiated_search) ++ more
    /\ data_sources (cht w') = data_sources (cht initiated_search)
    /\ chat_initiated (cht w') = true.
Proof.
  destruct (serve_all loads_known ascii_digit session initiated_search)
    as [w'|] eqn:E; [|vm_compute in E; discriminate].
  destruct (history_only_grows loads_known ascii_digit session
              initiated_search w' eq_refl eq_refl E) as (more & H).
  exists w', more. split; [reflexivity|exact H].
Defined.
